(** * Auto_Neutron: route tracker, fuel alert, Spansh polling and route rows

    A shallow embedding of the parts of Auto_Neutron that carry state-machine
    behaviour:

    - [workers.py]: [AhkWorker] (route progress), [FuelAlert] (low-fuel
      alert) and [SpanshPlot.plot] with its re-poll delay;
    - [auto_neutron/route_plots.py]: [ExactPlotRow], [NeutronPlotRow],
      [_spansh_job_callback] and [AhkPlotter];
    - [auto_neutron/utils/network.py]: [json_from_network_req];
    - [auto_neutron/journal.py]: [Journal.get_static_state];
    - [main_windows.py]: the csv and last-route pages of
      [PlotStartDialog].

    Python values are modelled as follows.  An [int] is a [Z]; a [float] is a
    binary64 primitive float; a [str] is a [string]; a [list] is a [list],
    indexed and sliced with Python's rules for negative positions; a decoded
    JSON document is a [json] tree whose objects are association lists.  Code
    that can raise returns a [result]; an exception is a value of [exn].
    Functions of the Python runtime that the repository only calls
    ([str.casefold], [str.lower], [json.loads], [round], [float(str)],
    [int(str)], [str(exception)]) are the fields of the classes [PyStr],
    [PyJson], [PyConv] and [PyShow]. *)

From Stdlib Require Import ZArith List String Ascii Bool Lia Floats.
Import ListNotations.

Set Warnings "-register-all".

Local Open Scope string_scope.
Local Open Scope list_scope.
Local Open Scope Z_scope.

(** ** Exceptions and results *)

(** JSON documents as [json.loads] returns them. *)
Inductive json : Type :=
| JNull
| JBool (b : bool)
| JInt (z : Z)
| JFloat (f : float)
| JStr (s : string)
| JArr (l : list json)
| JObj (fields : list (string * json)).

(** The exceptions the modelled code can raise.  [NetworkError] carries the
    Qt error message and the service's error payload, as the class in
    [utils/network.py] does. *)
Inductive exn : Type :=
| KeyError (key : json)
| IndexError
| TypeError
| ValueError
| AttributeError
| OverflowError
| ZeroDivisionError
| StopIteration
| JSONDecodeError
| NetworkError (error_message : string) (spansh_error : json).

Inductive result (A : Type) : Type :=
| Ok (a : A)
| Raise (e : exn).
Arguments Ok {A} a.
Arguments Raise {A} e.

Definition result_bind {A B} (r : result A) (k : A -> result B) : result B :=
  match r with
  | Ok a => k a
  | Raise e => Raise e
  end.

Notation "x <- r ;; k" := (result_bind r (fun x => k))
  (at level 61, r at next level, right associativity).

(** ** Python numbers *)

Module PyNum.

(** A Python number: [int] or [float] ([bool] is turned into an [int]
    where JSON values are read). *)
Inductive pynum : Type :=
| PInt (z : Z)
| PFloat (f : float).

(** An [int] as an exact, unrounded binary number. *)
Definition SF_of_Z (z : Z) : spec_float :=
  match z with
  | Z0 => S754_zero false
  | Zpos p => S754_finite false p 0
  | Zneg p => S754_finite true p 0
  end.

(** A rounded result as a [float]; an infinity that rounding produced is
    Python's [OverflowError]. *)
Definition float_or_overflow (sf : spec_float) : result float :=
  match sf with
  | S754_infinity _ => Raise OverflowError
  | _ => Ok (SF2Prim sf)
  end.

(** [float(z)] for an [int]: round to nearest even. *)
Definition float_of_Z (z : Z) : result float :=
  float_or_overflow (binary_normalize prec emax z 0 false).

(** The exact order between an [int] and a [float] [(-1)^s * m * 2^e], as
    Python's mixed comparison computes it. *)
Definition Z_lt_float (z : Z) (f : float) : bool :=
  match Prim2SF f with
  | S754_zero _ => z <? 0
  | S754_infinity s => negb s
  | S754_nan => false
  | S754_finite s m e =>
      let v := if s then Z.neg m else Z.pos m in
      if 0 <=? e then z <? v * 2 ^ e else z * 2 ^ (- e) <? v
  end.

Definition float_lt_Z (f : float) (z : Z) : bool :=
  match Prim2SF f with
  | S754_zero _ => 0 <? z
  | S754_infinity s => s
  | S754_nan => false
  | S754_finite s m e =>
      let v := if s then Z.neg m else Z.pos m in
      if 0 <=? e then v * 2 ^ e <? z else v <? z * 2 ^ (- e)
  end.

(** [a < b] *)
Definition num_lt (a b : pynum) : bool :=
  match a, b with
  | PInt x, PInt y => x <? y
  | PInt x, PFloat g => Z_lt_float x g
  | PFloat f, PInt y => float_lt_Z f y
  | PFloat f, PFloat g => PrimFloat.ltb f g
  end.

(** [a > b] is Python's reflected [b < a]. *)
Definition num_gt (a b : pynum) : bool := num_lt b a.

(** [a * b] *)
Definition num_mul (a b : pynum) : result pynum :=
  match a, b with
  | PInt x, PInt y => Ok (PInt (x * y))
  | PInt x, PFloat g => f <- float_of_Z x ;; Ok (PFloat (PrimFloat.mul f g))
  | PFloat f, PInt y => g <- float_of_Z y ;; Ok (PFloat (PrimFloat.mul f g))
  | PFloat f, PFloat g => Ok (PFloat (PrimFloat.mul f g))
  end.

Definition float_truediv (f g : float) : result float :=
  if PrimFloat.eqb g PrimFloat.zero then Raise ZeroDivisionError
  else Ok (PrimFloat.div f g).

(** [a / b]: true division.  Two [int]s give the correctly rounded
    quotient. *)
Definition num_truediv (a b : pynum) : result pynum :=
  match a, b with
  | PInt x, PInt y =>
      if y =? 0 then Raise ZeroDivisionError
      else
        q <- float_or_overflow (SFdiv prec emax (SF_of_Z x) (SF_of_Z y)) ;;
        Ok (PFloat q)
  | PInt x, PFloat g =>
      f <- float_of_Z x ;; q <- float_truediv f g ;; Ok (PFloat q)
  | PFloat f, PInt y =>
      g <- float_of_Z y ;; q <- float_truediv f g ;; Ok (PFloat q)
  | PFloat f, PFloat g => q <- float_truediv f g ;; Ok (PFloat q)
  end.

(** [int(f)]: truncation towards zero. *)
Definition int_of_float (f : float) : result Z :=
  match Prim2SF f with
  | S754_zero _ => Ok 0
  | S754_infinity _ => Raise OverflowError
  | S754_nan => Raise ValueError
  | S754_finite s m e =>
      let mag := if 0 <=? e then Z.pos m * 2 ^ e else Z.pos m / 2 ^ (- e) in
      Ok (if s then - mag else mag)
  end.

End PyNum.
Export PyNum.

(** [except KeyError: pass] around a block whose value on the handled path is
    [dflt]. *)
Definition except_KeyError {A} (r : result A) (dflt : A) : result A :=
  match r with
  | Raise (KeyError _) => Ok dflt
  | other => other
  end.

(** ** The Python runtime functions the repository calls *)

(** Text: [str.casefold] and [str.lower]. *)
Class PyStr : Type := {
  casefold : string -> string;
  lower : string -> string
}.

(** [json.loads]; [None] is [json.JSONDecodeError]. *)
Class PyJson : Type := {
  json_loads : string -> option json
}.

(** Conversions to numbers: [round(x, 2)] on a float, and [float(s)] and
    [int(s)] on a string, where [None] is [ValueError]. *)
Class PyConv : Type := {
  round2 : float -> float;
  float_of_str : string -> option float;
  int_of_str : string -> option Z
}.

(** Conversions to text: [str(x)] on a JSON value that is not a string and
    [str(e)] on an exception. *)
Class PyShow : Type := {
  py_str : json -> string;
  exn_str : exn -> string
}.

(** ** Lists, strings and dictionaries *)

Definition len {A} (l : list A) : Z := Z.of_nat (List.length l).

(** [l[i]] *)
Definition getitem {A} (l : list A) (i : Z) : result A :=
  let j := if i <? 0 then i + len l else i in
  if (0 <=? j) && (j <? len l) then
    match nth_error l (Z.to_nat j) with
    | Some a => Ok a
    | None => Raise IndexError
    end
  else Raise IndexError.

(** [l[i:]] *)
Definition slice_from {A} (l : list A) (i : Z) : list A :=
  let j := if i <? 0 then Z.max 0 (i + len l) else Z.min i (len l) in
  skipn (Z.to_nat j) l.

(** [x in l] for a list of strings *)
Definition contains (x : string) (l : list string) : bool :=
  existsb (String.eqb x) l.

(** [l.index(x)]: position of the first element equal to [x] *)
Fixpoint index (l : list string) (x : string) : result Z :=
  match l with
  | [] => Raise ValueError
  | y :: l' => if String.eqb y x then Ok 0 else i <- index l' x ;; Ok (i + 1)
  end.

(** [s[i]] on a string: the one-character string at position [i] *)
Definition str_getitem (s : string) (i : Z) : result string :=
  c <- getitem (list_ascii_of_string s) i ;; Ok (String c EmptyString).

(** [d.get(k)] on a dictionary held as an association list *)
Fixpoint dict_get (fields : list (string * json)) (k : string) : option json :=
  match fields with
  | [] => None
  | (k', v) :: rest => if String.eqb k' k then Some v else dict_get rest k
  end.

(** [v[k]] for a string key [k] on any JSON value *)
Definition json_getitem (v : json) (k : string) : result json :=
  match v with
  | JObj fields =>
      match dict_get fields k with
      | Some x => Ok x
      | None => Raise (KeyError (JStr k))
      end
  | _ => Raise TypeError
  end.

(** [v == s] for a string constant [s]: equality never raises *)
Definition json_eq_str (v : json) (s : string) : bool :=
  match v with
  | JStr t => String.eqb t s
  | _ => false
  end.

(** A JSON value used as a number in a comparison ([bool] is an [int]) *)
Definition json_num (v : json) : result pynum :=
  match v with
  | JInt z => Ok (PInt z)
  | JFloat f => Ok (PFloat f)
  | JBool b => Ok (PInt (if b then 1 else 0))
  | _ => Raise TypeError
  end.

(** [l[i] = x] *)
Definition setitem {A} (l : list A) (i : Z) (x : A) : result (list A) :=
  let j := if i <? 0 then i + len l else i in
  if (0 <=? j) && (j <? len l) then
    Ok (firstn (Z.to_nat j) l ++ x :: skipn (S (Z.to_nat j)) l)
  else Raise IndexError.

(** [v.casefold()] on a JSON value: only a [str] has the method *)
Definition json_casefold `{PyStr} (v : json) : result string :=
  match v with
  | JStr s => Ok (casefold s)
  | _ => Raise AttributeError
  end.

(** ** [workers.py]: [AhkWorker] *)

Module AhkWorker.

(** One row of [data_values]: [data[0]] is the system name, the other
    columns are carried along untouched. *)
Record row : Type := {
  system : string;
  columns : list json
}.

(** The fields of [self] that [main] and the slots read or write.
    [journal] is the path of the journal file in the source; here it holds
    the lines that file has when [main] starts. *)
Record t : Type := {
  journal : list string;
  data_values : list row;
  systems : list string;
  script : string;
  bind : string;
  dark : bool;
  copy : bool;
  loop : bool;
  list_index : Z
}.

(** What the worker does to the outside: clipboard, hotkey process and
    Qt signals. *)
Inductive effect : Type :=
| set_clip (text : string)
| hotkey_start (key script target : string)
| hotkey_stop
| sys_signal (i : Z) (dark_mode : bool)
| route_finished_signal
| game_shut_signal (route : list row) (i : Z).

(** How an iteration leaves the [for line in ...] loop body. *)
Inductive control : Type := Continue | Break.

(** A method of the worker: it reads and writes [self], performs effects
    in order and either returns or raises.  The state and the effects
    performed before an exception are kept. *)
Definition M (A : Type) : Type := t -> t * list effect * result A.

Definition ret {A} (a : A) : M A := fun self => (self, [], Ok a).

Definition bindM {A B} (m : M A) (k : A -> M B) : M B :=
  fun self =>
    let '(self1, out1, r) := m self in
    match r with
    | Ok a => let '(self2, out2, r2) := k a self1 in (self2, out1 ++ out2, r2)
    | Raise e => (self1, out1, Raise e)
    end.

Definition get : M t := fun self => (self, [], Ok self).
Definition emit (e : effect) : M unit := fun self => (self, [e], Ok tt).
Definition lift {A} (r : result A) : M A := fun self => (self, [], r).

(** [self] after [self.list_index = i]. *)
Definition with_list_index (self : t) (i : Z) : t :=
  {| journal := journal self; data_values := data_values self;
     systems := systems self; script := script self;
     bind := bind self; dark := dark self; copy := copy self;
     loop := loop self; list_index := i |}.

Definition set_list_index (i : Z) : M unit :=
  fun self => (with_list_index self i, [], Ok tt).

(** The number of route-complete notifications among some effects. *)
Definition is_route_finished (e : effect) : bool :=
  match e with
  | route_finished_signal => true
  | _ => false
  end.

Definition count_route_finished (out : list effect) : nat :=
  List.length (filter is_route_finished out).

(** The effects of pushing the current system to the clipboard or to the
    hotkey script. *)
Definition push_effects (self : t) (target : string) : list effect :=
  if copy self then [set_clip target]
  else [hotkey_stop; hotkey_start (bind self) (script self) target].

(** The shapes one pass through the loop body can take, seen from the
    state it started in. *)
Inductive body_outcome (self : t) : t * list effect * result control -> Prop :=
| out_raise e :
    body_outcome self (self, [], Raise e)
| out_ignored :
    body_outcome self (self, [], Ok Continue)
| out_shutdown :
    body_outcome self
      (self, [game_shut_signal (data_values self) (list_index self);
              hotkey_stop], Ok Break)
| out_finished i :
    i + 1 = len (data_values self) ->
    body_outcome self
      (with_list_index self (i + 1), [hotkey_stop; route_finished_signal],
       Ok Break)
| out_advanced i target :
    i + 1 <> len (data_values self) ->
    body_outcome self
      (with_list_index self (i + 1),
       push_effects self target ++ [sys_signal (i + 1) (dark self)],
       Ok Continue)
| out_push_failed i e :
    body_outcome self
      (with_list_index self (i + 1),
       if copy self then [] else [hotkey_stop], Raise e).

(** A decoded record is a completed jump to [name]. *)
Definition is_jump (loaded : json) (name : string) : Prop :=
  json_getitem loaded "event" = Ok (JStr "FSDJump") /\
  json_getitem loaded "StarSystem" = Ok (JStr name).

Declare Scope worker_scope.
Delimit Scope worker_scope with worker.
Notation "x <~ m ; k" := (bindM m (fun x => k))
  (at level 61, m at next level, right associativity) : worker_scope.
Notation "m ;; k" := (bindM m (fun _ => k))
  (at level 61, right associativity) : worker_scope.
Local Open Scope worker_scope.

Section Methods.
Context `{PyStr} `{PyJson}.

(** [__init__]: the route, its casefolded names, the four settings and
    the start index. *)
Definition __init__ (journal : list string) (data_values : list row)
    (settings : string * string * bool * bool) (start_index : Z) : t :=
  let '(script, bind, dark, copy) := settings in
  {| journal := journal;
     data_values := data_values;
     systems := map (fun data => casefold (system data)) data_values;
     script := script;
     bind := bind;
     dark := dark;
     copy := copy;
     loop := true;
     list_index :=
       if 0 <? start_index then start_index
       else if negb (len data_values =? 1) then 1
       else 0 |}.

(** [close_ahk]: [hotkey.stop()], errors swallowed. *)
Definition close_ahk : M unit := emit hotkey_stop.

(** [Hotkey(self.ahk, self.bind, self.script.replace("|SYSTEMDATA|",
    self.systems[self.list_index])).start()] *)
Definition start_hotkey : M unit :=
  self <~ get ;
  target <~ lift (getitem (systems self) (list_index self)) ;
  emit (hotkey_start (bind self) (script self) target).

Definition reset_ahk : M unit := close_ahk ;; start_hotkey.

(** [set_clip(self.systems[self.list_index])] *)
Definition copy_system : M unit :=
  self <~ get ;
  target <~ lift (getitem (systems self) (list_index self)) ;
  emit (set_clip target).

Definition emit_sys_signal : M unit :=
  self <~ get ; emit (sys_signal (list_index self) (dark self)).

(** The condition of the first [if] of the loop body:
    [loaded['event'] == "FSDJump" and
     loaded['StarSystem'].casefold() in self.systems[self.list_index:]] *)
Definition jump_matches (loaded : json) : M bool :=
  event <~ lift (json_getitem loaded "event") ;
  if json_eq_str event "FSDJump" then
    star <~ lift (json_getitem loaded "StarSystem") ;
    name <~ lift (json_casefold star) ;
    self <~ get ;
    ret (contains name (slice_from (systems self) (list_index self)))
  else ret false.

(** The body of the [for line in self.follow_file(...)] loop, after
    [json.loads]. *)
Definition on_loaded (loaded : json) : M control :=
  matched <~ jump_matches loaded ;
  if matched then
    star <~ lift (json_getitem loaded "StarSystem") ;
    name <~ lift (json_casefold star) ;
    self <~ get ;
    i <~ lift (index (systems self) name) ;
    set_list_index (i + 1) ;;
    self <~ get ;
    if list_index self =? len (data_values self) then
      close_ahk ;; emit route_finished_signal ;; ret Break
    else
      (if copy self then copy_system else reset_ahk) ;;
      emit_sys_signal ;;
      ret Continue
  else
    event <~ lift (json_getitem loaded "event") ;
    if json_eq_str event "Loadout" then ret Continue
    else
      event <~ lift (json_getitem loaded "event") ;
      if json_eq_str event "Shutdown" then
        self <~ get ;
        emit (game_shut_signal (data_values self) (list_index self)) ;;
        close_ahk ;;
        ret Break
      else ret Continue.

(** One raw line: [loaded = json.loads(line)], then the body. *)
Definition on_line (line : string) : M control :=
  match json_loads line with
  | None => lift (Raise JSONDecodeError)
  | Some loaded => on_loaded loaded
  end.

(** The [for] loop over the lines [follow_file] yields.  The value is
    [Break] when the loop was left by [break] and [Continue] when the
    lines read so far are used up and the worker is still tailing. *)
Fixpoint main_loop (lines : list string) : M control :=
  match lines with
  | [] => ret Continue
  | line :: rest =>
      c <~ on_line line ;
      match c with
      | Break => ret Break
      | Continue => main_loop rest
      end
  end.

(** The scan of the journal for a [Shutdown] event at the start of
    [main]; the value is the [shutdown] flag. *)
Fixpoint scan_shutdown (lines : list string) (shutdown : bool) : M bool :=
  match lines with
  | [] => ret shutdown
  | l :: rest =>
      match json_loads l with
      | None => lift (Raise JSONDecodeError)
      | Some j =>
          event <~ lift (json_getitem j "event") ;
          if json_eq_str event "Shutdown" then
            self <~ get ;
            emit (game_shut_signal (data_values self) (list_index self)) ;;
            scan_shutdown rest true
          else scan_shutdown rest shutdown
      end
  end.

(** [main]: [appended] are the lines written to the journal after the
    worker has sought to its end. *)
Definition main (appended : list string) : M unit :=
  self <~ get ;
  shutdown <~ scan_shutdown (journal self) false ;
  if shutdown then ret tt
  else
    (if copy self then copy_system else start_hotkey) ;;
    emit_sys_signal ;;
    main_loop appended ;;
    ret tt.

(** [set_index], the slot of the table's double click. *)
Definition set_index (i : Z) : M unit :=
  set_list_index i ;;
  self <~ get ;
  (if copy self then copy_system else close_ahk ;; start_hotkey) ;;
  emit_sys_signal.

(** [update_sys], the slot of an edited system name. *)
Definition update_sys (i : Z) (new_sys : string) : M unit :=
  fun self =>
    match getitem (data_values self) i with
    | Raise e => (self, [], Raise e)
    | Ok data =>
        let data' := {| system := new_sys; columns := columns data |} in
        match setitem (data_values self) i data',
              setitem (systems self) i (casefold new_sys) with
        | Ok dv, Ok sys =>
            let self' :=
              {| journal := journal self; data_values := dv;
                 systems := sys; script := script self;
                 bind := bind self; dark := dark self;
                 copy := copy self; loop := loop self;
                 list_index := list_index self |} in
            if list_index self' =? i then
              (if copy self' then copy_system else reset_ahk) self'
            else (self', [], Ok tt)
        | Raise e, _ => (self, [], Raise e)
        | Ok dv, Raise e =>
            ({| journal := journal self; data_values := dv;
                systems := systems self; script := script self;
                bind := bind self; dark := dark self;
                copy := copy self; loop := loop self;
                list_index := list_index self |}, [], Raise e)
        end
    end.

(** Two names are the same up to case when they casefold to one string. *)
Definition same_name (s s' : string) : Prop := casefold s = casefold s'.

End Methods.

(** *** The other slots of the worker *)

(** [self] after [self.bind = b; self.script = s]. *)
Definition with_bind_script (self : t) (b s : string) : t :=
  {| journal := journal self; data_values := data_values self;
     systems := systems self; script := s; bind := b; dark := dark self;
     copy := copy self; loop := loop self; list_index := list_index self |}.

(** [self] after [self.dark = d]. *)
Definition with_dark (self : t) (d : bool) : t :=
  {| journal := journal self; data_values := data_values self;
     systems := systems self; script := script self; bind := bind self;
     dark := d; copy := copy self; loop := loop self;
     list_index := list_index self |}.

(** [self] after [self.copy = c]. *)
Definition with_copy (self : t) (c : bool) : t :=
  {| journal := journal self; data_values := data_values self;
     systems := systems self; script := script self; bind := bind self;
     dark := dark self; copy := c; loop := loop self;
     list_index := list_index self |}.

(** [self] after [self.loop = b]. *)
Definition with_loop (self : t) (b : bool) : t :=
  {| journal := journal self; data_values := data_values self;
     systems := systems self; script := script self; bind := bind self;
     dark := dark self; copy := copy self; loop := b;
     list_index := list_index self |}.

(** [update_script], the slot of changed script settings; [tup] is
    [(bind, script, dark)]. *)
Definition update_script (tup : string * string * bool) : M unit :=
  let '(tup0, tup1, tup2) := tup in
  self <~ get ;
  (if negb (String.eqb (bind self) tup0) || negb (String.eqb (script self) tup1)
   then
     (fun s => (with_bind_script s tup0 tup1, [], Ok tt)) ;;
     (if negb (copy self) then reset_ahk else ret tt)
   else ret tt) ;;
  (fun s => (with_dark s tup2, [], Ok tt)).

(** [set_copy], the slot of a changed script mode. *)
Definition set_copy (setting : bool) : M unit :=
  self <~ get ;
  if negb (Bool.eqb setting (copy self)) then
    (fun s => (with_copy s setting, [], Ok tt)) ;;
    (if setting then close_ahk ;; copy_system else reset_ahk)
  else ret tt.

(** [save_route]: the value stored under ["last_route"]. *)
Definition save_route (self : t) : Z * list row :=
  (list_index self, data_values self).

(** [exit_and_save]: the value stored, if one is, and the effects. *)
Definition exit_and_save (save : bool) (self : t)
  : option (Z * list row) * list effect :=
  (if save then Some (save_route self) else None, [hotkey_stop]).

(** [quit_loop] *)
Definition quit_loop : M unit :=
  (fun s => (with_loop s false, [], Ok tt)) ;; close_ahk.

Section Journal.
Context `{PyJson}.

(** A journal line that decodes to a record with an event kind. *)
Definition has_event (line : string) : Prop :=
  exists loaded event,
    json_loads line = Some loaded /\ json_getitem loaded "event" = Ok event.

(** A journal line that decodes to a [Shutdown] record. *)
Definition is_shutdown (line : string) : bool :=
  match json_loads line with
  | Some loaded =>
      match json_getitem loaded "event" with
      | Ok event => json_eq_str event "Shutdown"
      | Raise _ => false
      end
  | None => false
  end.

End Journal.

Section Names.
Context `{PyStr}.

(** The casefolded names are those of the rows, in order. *)
Definition names_folded (self : t) : Prop :=
  systems self = map (fun data => casefold (system data)) (data_values self).

End Names.

(** [self] after its route has been replaced by [dv] and [sys]. *)
Definition with_route (self : t) (dv : list row) (sys : list string) : t :=
  {| journal := journal self; data_values := dv; systems := sys;
     script := script self; bind := bind self; dark := dark self;
     copy := copy self; loop := loop self; list_index := list_index self |}.

(** The two lists of the route, as a pair. *)
Definition route_of (s : t) : list row * list string :=
  (data_values s, systems s).

(** An effect that belongs to the other script mode: starting a hotkey
    process in copy mode, writing the clipboard in hotkey mode. *)
Definition foreign_to_mode (copy_mode : bool) (e : effect) : bool :=
  match e with
  | hotkey_start _ _ _ => copy_mode
  | set_clip _ => negb copy_mode
  | _ => false
  end.

End AhkWorker.

(** ** [workers.py]: [FuelAlert] *)

Module FuelAlert.

(** The binary digits of a positive number, least significant first. *)
Fixpoint bits_lsb (p : positive) : list bool :=
  match p with
  | xH => [true]
  | xO q => false :: bits_lsb q
  | xI q => true :: bits_lsb q
  end.

Definition digit (b : bool) : ascii := if b then "1"%char else "0"%char.

Definition digits (p : positive) : string :=
  string_of_list_ascii (rev (map digit (bits_lsb p))).

(** [f"{z:b}"] for an [int]: the binary digits, most significant first,
    after a minus sign when negative. *)
Definition format_b_Z (z : Z) : string :=
  match z with
  | Z0 => "0"
  | Zpos p => digits p
  | Zneg p => String "-"%char (digits p)
  end.

(** [f"{v:b}"] on a decoded JSON value. *)
Definition format_b (v : json) : result string :=
  match v with
  | JInt z => Ok (format_b_Z z)
  | JBool b => Ok (format_b_Z (if b then 1 else 0))
  | JFloat _ | JStr _ => Raise ValueError
  | JNull | JArr _ | JObj _ => Raise TypeError
  end.

(** The digits as a list, for a number that is not negative. *)
Definition bits_of (z : Z) : list bool :=
  match z with
  | Zpos p => bits_lsb p
  | _ => [false]
  end.

(** Bit [n] of a list of digits; 0 beyond its end. *)
Definition bit_at (bs : list bool) (n : nat) : bool :=
  match nth_error bs n with
  | Some b => b
  | None => false
  end.

Record t : Type := {
  file : string;
  max_fuel : pynum;
  loop : bool;
  alert : bool;
  jump_fuel : pynum
}.

Inductive signal : Type := alert_signal.

(** [self.max_fuel * modifier / 100] *)
Definition threshold (max_fuel modifier : pynum) : result pynum :=
  m <- num_mul max_fuel modifier ;; num_truediv m (PInt 100).

(** [set_jump_fuel] *)
Definition set_jump_fuel (self : t) (modifier : pynum) : result t :=
  jf <- threshold (max_fuel self) modifier ;;
  Ok {| file := file self; max_fuel := max_fuel self; loop := loop self;
        alert := alert self; jump_fuel := jf |}.

(** [__init__]; [jump_fuel] has no value before [set_jump_fuel] runs, the
    placeholder given here is overwritten at once. *)
Definition __init__ (max_fuel : pynum) (file : string) (modifier : pynum)
  : result t :=
  set_jump_fuel {| file := file; max_fuel := max_fuel; loop := true;
                   alert := false; jump_fuel := max_fuel |} modifier.

(** [change_alert] *)
Definition change_alert (self : t) (status : bool) : t :=
  {| file := file self; max_fuel := max_fuel self; loop := loop self;
     alert := status; jump_fuel := jump_fuel self |}.

(** Python's short-circuit [and] of two conditions that can raise. *)
Definition and_then (a b : result bool) : result bool :=
  x <- a ;; if x then b else Ok false.
Infix "&&&" := and_then (at level 40, left associativity).

(** [loaded['Fuel']['FuelMain']] as one side of a comparison *)
Definition fuel_main (loaded : json) : result pynum :=
  fuel <- json_getitem loaded "Fuel" ;;
  main <- json_getitem fuel "FuelMain" ;;
  json_num main.

(** [f"{loaded['Flags']:b}"[i] == "1"] *)
Definition flag_is_1 (loaded : json) (i : Z) : result bool :=
  flags <- json_getitem loaded "Flags" ;;
  s <- format_b flags ;;
  c <- str_getitem s i ;;
  Ok (String.eqb c "1").

(** The [if]/[elif] inside the [try] of [main]: the new value of [hold]
    and the signals emitted. *)
Definition check (self : t) (hold : bool) (loaded : json)
  : result (bool * list signal) :=
  low <- (fm <- fuel_main loaded ;; Ok (num_lt fm (jump_fuel self)))
         &&& Ok (negb hold)
         &&& flag_is_1 loaded (-19)
         &&& flag_is_1 loaded (-5)
         &&& Ok (alert self) ;;
  if low then Ok (true, [alert_signal])
  else
    fm <- fuel_main loaded ;;
    if num_gt fm (jump_fuel self) then Ok (false, []) else Ok (hold, []).

(** What reaches the worker while it runs: the first line of the status
    file as read at one poll, or a call of one of the two slots. *)
Inductive input : Type :=
| poll (line : string)
| next_jump (status : bool)
| modifier_changed (modifier : pynum).

(** A decoded snapshot carries the main-tank fuel [fuel] and the status
    flags [flags]. *)
Definition is_snapshot (loaded : json) (fuel : pynum) (flags : Z) : Prop :=
  exists fields ffields fv,
    loaded = JObj fields /\
    dict_get fields "Fuel" = Some (JObj ffields) /\
    dict_get ffields "FuelMain" = Some fv /\
    json_num fv = Ok fuel /\
    dict_get fields "Flags" = Some (JInt flags).

Section Main.
Context `{PyJson}.

(** The body of the [for line in self.follow_file(...)] loop. *)
Definition on_line (self : t) (hold : bool) (line : string)
  : result (bool * list signal) :=
  if (0 <? String.length line)%nat then
    match json_loads line with
    | None => Raise JSONDecodeError
    | Some loaded => except_KeyError (check self hold loaded) (hold, [])
    end
  else Ok (hold, []).

(** [main] over the inputs in the order they arrive, starting with
    [hold]; the value is the final [self], the final [hold] and the
    signals emitted. *)
Fixpoint run (self : t) (hold : bool) (inputs : list input)
  : result (t * bool * list signal) :=
  match inputs with
  | [] => Ok (self, hold, [])
  | poll line :: rest =>
      r <- on_line self hold line ;;
      r' <- run self (fst r) rest ;;
      Ok (fst (fst r'), snd (fst r'), snd r ++ snd r')
  | next_jump status :: rest => run (change_alert self status) hold rest
  | modifier_changed m :: rest =>
      self' <- set_jump_fuel self m ;; run self' hold rest
  end.

Definition main (self : t) (inputs : list input)
  : result (t * bool * list signal) :=
  run self false inputs.

End Main.

Section Release.
Context `{PyJson}.

(** A line whose snapshot shows more fuel in the main tank than the
    threshold: the [elif] of [main] resets [hold] on it. *)
Definition releases (self : t) (line : string) : bool :=
  match json_loads line with
  | Some loaded =>
      match fuel_main loaded with
      | Ok fm => num_gt fm (jump_fuel self)
      | Raise _ => false
      end
  | None => false
  end.

End Release.

End FuelAlert.

(** ** [workers.py]: the re-poll delay of [SpanshPlot.plot] *)

Module SpanshPlot.

(** [math.ceil] on a float. *)
Definition ceil (f : float) : result Z :=
  match Prim2SF f with
  | S754_zero _ => Ok 0
  | S754_infinity _ => Raise OverflowError
  | S754_nan => Raise ValueError
  | S754_finite s m e =>
      let v := if s then Z.neg m else Z.pos m in
      if 0 <=? e then Ok (v * 2 ^ e) else Ok (- ((- v) / 2 ^ (- e)))
  end.

(** [x ** 2] on a float, as the product [x * x]; a finite [x] whose square
    leaves the float range raises. *)
Definition square (x : float) : result float :=
  let y := PrimFloat.mul x x in
  if PrimFloat.is_infinity y && negb (PrimFloat.is_infinity x)
  then Raise OverflowError else Ok y.

(** The literal [1.9]. *)
Definition f1_9 : float := 0x1.e666666666666p+0%float.

(** [min(ceil(ceil((sleep_base / 10) ** 2) / 1.9), 30)] *)
Definition sleep_seconds (sleep_base : Z) : result Z :=
  x <- num_truediv (PInt sleep_base) (PInt 10) ;;
  match x with
  | PInt _ => Raise TypeError
  | PFloat x =>
      y <- square x ;;
      c <- ceil y ;;
      cf <- float_of_Z c ;;
      q <- float_truediv cf f1_9 ;;
      d <- ceil q ;;
      Ok (Z.min d 30)
  end.

(** The [n]-th value of [itertools.count(1, 5)]. *)
Definition sleep_base (n : nat) : Z := 1 + 5 * Z.of_nat n.

(** The delay slept after the [n]-th consecutive queued response. *)
Definition delay (n : nat) : result Z := sleep_seconds (sleep_base n).

(** Ceiling of the quotient of two integers, the divisor positive. *)
Definition cdiv (a b : Z) : Z := - ((- a) / b).

(** The same expression read over the rationals: [sleep_base / 10] squared
    is [sleep_base^2 / 100] and [1.9] is [19 / 10]. *)
Definition sleep_seconds_exact (sleep_base : Z) : Z :=
  Z.min (cdiv (10 * cdiv (sleep_base * sleep_base) 100) 19) 30.

Definition delay_exact (n : nat) : Z := sleep_seconds_exact (sleep_base n).

(** The poll loop of [plot] over the decoded responses, in order: the
    delays slept and the response that ended the loop, if one did. *)
Fixpoint poll (responses : list json) (n : nat)
  : result (list Z * option json) :=
  match responses with
  | [] => Ok ([], None)
  | job_json :: rest =>
      status <- json_getitem job_json "status" ;;
      if json_eq_str status "queued" then
        d <- delay n ;;
        r <- poll rest (S n) ;;
        Ok (d :: fst r, snd r)
      else Ok ([], Some job_json)
  end.

(** The binary64 evaluation of the delay and its reading over the rationals
    agree at position [n]. *)
Definition delay_agrees (n : nat) : bool :=
  match delay n with
  | Ok d => d =? delay_exact n
  | Raise _ => false
  end.

End SpanshPlot.

(** ** [auto_neutron/route_plots.py]: the two row shapes *)

Module RoutePlots.

(** [float(x)] on a cell of a csv row. *)
Definition to_float `{PyConv} (x : json) : result float :=
  match x with
  | JFloat f => Ok f
  | JInt z => float_of_Z z
  | JBool b => float_of_Z (if b then 1 else 0)
  | JStr s =>
      match float_of_str s with
      | Some f => Ok f
      | None => Raise ValueError
      end
  | JNull | JArr _ | JObj _ => Raise TypeError
  end.

(** [int(x)] on a cell of a csv row. *)
Definition to_int `{PyConv} (x : json) : result Z :=
  match x with
  | JInt z => Ok z
  | JBool b => Ok (if b then 1 else 0)
  | JFloat f => int_of_float f
  | JStr s =>
      match int_of_str s with
      | Some z => Ok z
      | None => Raise ValueError
      end
  | JNull | JArr _ | JObj _ => Raise TypeError
  end.

(** [x[0] == "Y"] on a cell of a csv row. *)
Definition starts_with_Y (x : json) : result bool :=
  match x with
  | JStr s => c <- str_getitem s 0 ;; Ok (String.eqb c "Y")
  | JArr l => c <- getitem l 0 ;; Ok (json_eq_str c "Y")
  | JObj _ => Raise (KeyError (JInt 0))
  | JNull | JBool _ | JInt _ | JFloat _ => Raise TypeError
  end.

(** The dataclasses declare [system: str]: a first cell that is not a
    [str] has no place in the typed record and is reported as a
    [TypeError]; csv rows and the rows [to_csv] builds always start with
    a [str]. *)
Definition to_system (x : json) : result string :=
  match x with
  | JStr s => Ok s
  | _ => Raise TypeError
  end.

Definition yes_no (b : bool) : json := JStr (if b then "Yes" else "No").

Module ExactPlotRow.

Record t : Type := {
  system : string;
  dist : float;
  dist_rem : float;
  refuel : bool;
  neutron_star : bool
}.

(** [__eq__] against a [str]: [self.system.lower() == other.lower()].  The
    comparison with another row is handed to the base class and is not
    modelled. *)
Definition __eq__ `{PyStr} (self : t) (other : string) : bool :=
  String.eqb (lower (system self)) (lower other).

Definition from_csv_row `{PyConv} (row : list json) : result t :=
  r0 <- getitem row 0 ;;
  sys <- to_system r0 ;;
  r1 <- getitem row 1 ;;
  d <- to_float r1 ;;
  r2 <- getitem row 2 ;;
  dr <- to_float r2 ;;
  r5 <- getitem row 5 ;;
  rf <- starts_with_Y r5 ;;
  r6 <- getitem row 6 ;;
  ns <- starts_with_Y r6 ;;
  Ok {| system := sys; dist := round2 d; dist_rem := round2 dr;
        refuel := rf; neutron_star := ns |}.

Definition to_csv (self : t) : list json :=
  [ JStr (system self);
    JFloat (dist self);
    JFloat (dist_rem self);
    JStr EmptyString;
    JStr EmptyString;
    yes_no (refuel self);
    yes_no (refuel self) ].

End ExactPlotRow.

Module NeutronPlotRow.

Record t : Type := {
  system : string;
  dist_to_arrival : float;
  dist_rem : float;
  jumps : Z
}.

(** [__eq__] against a [str], as for the exact row. *)
Definition __eq__ `{PyStr} (self : t) (other : string) : bool :=
  String.eqb (lower (system self)) (lower other).

Definition from_csv_row `{PyConv} (row : list json) : result t :=
  r0 <- getitem row 0 ;;
  sys <- to_system r0 ;;
  r1 <- getitem row 1 ;;
  d <- to_float r1 ;;
  r2 <- getitem row 2 ;;
  dr <- to_float r2 ;;
  r4 <- getitem row 4 ;;
  j <- to_int r4 ;;
  Ok {| system := sys; dist_to_arrival := round2 d;
        dist_rem := round2 dr; jumps := j |}.

Definition to_csv (self : t) : list json :=
  [ JStr (system self);
    JFloat (dist_to_arrival self);
    JFloat (dist_rem self);
    JStr EmptyString;
    JInt (jumps self) ].

End NeutronPlotRow.

End RoutePlots.

(** ** [auto_neutron/utils/network.py] *)

Module Network.

(** What the code reads from a finished [QNetworkReply]. *)
Record reply : Type := {
  (** [reply.error() is NetworkError.NoError] *)
  no_error : bool;
  (** [reply.error_string()] *)
  error_string : string;
  (** [reply.read_all().data()] *)
  data : string
}.

Definition loads `{PyJson} (text : string) : result json :=
  match json_loads text with
  | Some j => Ok j
  | None => Raise JSONDecodeError
  end.

(** [json_from_network_req]; the [finally] clause only schedules the
    reply object for deletion. *)
Definition json_from_network_req `{PyJson} (r : reply) : result json :=
  if no_error r then loads (data r)
  else
    let text_response := data r in
    spansh_error <-
      (if (0 <? String.length text_response)%nat then
         j <- loads text_response ;; json_getitem j "error"
       else Ok JNull) ;;
    Raise (NetworkError (error_string r) spansh_error).

End Network.

(** ** [auto_neutron/route_plots.py]: [_spansh_job_callback] *)

Module SpanshJob.
Import Network.

Section Callback.
Context `{PyJson} `{PyShow}.
(** The decoded route type and [result_decode_func]. *)
Context {route : Type} (result_decode_func : json -> result route).

(** What the callback does at its end: schedule a new request for the
    job after a delay, hand over the route, or report an error text. *)
Inductive action : Type :=
| single_shot (msec : pynum) (job : string)
| result_callback (r : route)
| error_callback (text : string).

(** [next(delay_iterator)] on the values the iterator still holds. *)
Definition next (delay_iterator : list pynum)
  : list pynum * result pynum :=
  match delay_iterator with
  | [] => ([], Raise StopIteration)
  | d :: rest => (rest, Ok d)
  end.

(** [d.get(k)] on a decoded response: only a [dict] has the method. *)
Definition json_get (v : json) (k : string) : result json :=
  match v with
  | JObj fields =>
      match dict_get fields k with
      | Some x => Ok x
      | None => Ok JNull
      end
  | _ => Raise AttributeError
  end.

Definition is_None (v : json) : bool :=
  match v with
  | JNull => true
  | _ => false
  end.

(** [f"{v}"] *)
Definition format (v : json) : string :=
  match v with
  | JStr s => s
  | other => py_str other
  end.

(** The body of the [try]: the iterator after it and its outcome. *)
Definition try_body (r : reply) (delay_iterator : list pynum)
  : list pynum * result action :=
  match json_from_network_req r with
  | Raise e => (delay_iterator, Raise e)
  | Ok job_response =>
      match json_get job_response "status" with
      | Raise e => (delay_iterator, Raise e)
      | Ok status =>
          if json_eq_str status "queued" then
            let (delay_iterator', d) := next delay_iterator in
            (delay_iterator',
             sec_delay <- d ;;
             msec <- num_mul sec_delay (PInt 1000) ;;
             job <- json_getitem job_response "job" ;;
             match job with
             | JStr id => Ok (single_shot msec id)
             | _ => Raise TypeError
             end)
          else
            (delay_iterator,
             res <- json_get job_response "result" ;;
             if negb (is_None res) then
               res' <- json_getitem job_response "result" ;;
               decoded <- result_decode_func res' ;;
               Ok (result_callback decoded)
             else
               Ok (error_callback "Received invalid response from Spansh."))
      end
  end.

(** [_spansh_job_callback]: the [try] with its two handlers. *)
Definition _spansh_job_callback (r : reply) (delay_iterator : list pynum)
  : list pynum * action :=
  let (delay_iterator', outcome) := try_body r delay_iterator in
  (delay_iterator',
   match outcome with
   | Ok a => a
   | Raise (NetworkError error_message spansh_error) =>
       if negb (is_None spansh_error) then
         error_callback
           ("Received error from Spansh: " ++ format spansh_error)%string
       else error_callback error_message
   | Raise e => error_callback (exn_str e)
   end).

End Callback.

Section Session.
Context `{PyJson} `{PyShow}.
Context {route : Type} (result_decode_func : json -> result route).

(** One job from its first reply on.  A [single_shot] makes the request
    whose reply is handled by the same callback with the same
    [delay_iterator] object; the other two actions end the job.  [replies]
    are the replies in the order they finish, the value is what the
    callbacks did, one action for each reply handled. *)
Fixpoint session (replies : list reply) (delay_iterator : list pynum)
  : list (@action route) :=
  match replies with
  | [] => []
  | r :: rest =>
      let (delay_iterator', a) :=
        _spansh_job_callback result_decode_func r delay_iterator in
      a :: match a with
           | single_shot _ _ => session rest delay_iterator'
           | _ => []
           end
  end.

Definition is_single_shot (a : @action route) : bool :=
  match a with
  | single_shot _ _ => true
  | _ => false
  end.

End Session.

End SpanshJob.

(** ** [workers.py]: [SpanshPlot.plot] *)

Module SpanshPlotThread.
Import SpanshPlot RoutePlots.

(** What [requests.get] gives: the decoded content of the response, or
    [requests.exceptions.ConnectionError]. *)
Inductive response : Type :=
| ConnectionError
| content (body : string).

(** What [plot] does to the outside, apart from its requests. *)
Inductive effect : Type :=
| status_signal (message : string)
| sleep (seconds : Z)
| finished_signal (rows : list (list json)).

(** How a run of [plot] ends: it returns, an exception leaves it, or it
    is waiting for a response that has not come. *)
Inductive ending : Type :=
| returned
| raised (e : exn)
| raised_ConnectionError
| waiting.

(** The values a [for] gets out of a decoded JSON value. *)
Definition iter (v : json) : result (list json) :=
  match v with
  | JArr l => Ok l
  | JObj fields => Ok (map (fun kv => JStr (fst kv)) fields)
  | JStr s =>
      Ok (map (fun c => JStr (String c EmptyString)) (list_ascii_of_string s))
  | JNull | JBool _ | JInt _ | JFloat _ => Raise TypeError
  end.

Section Plot.
Context `{PyJson} `{PyConv}.

(** [[data['system'], round(float(data['distance_jumped']), 2),
      round(float(data['distance_left']), 2), int(data['jumps'])]] *)
Definition jump_row (data : json) : result (list json) :=
  sys <- json_getitem data "system" ;;
  dj <- json_getitem data "distance_jumped" ;;
  d <- to_float dj ;;
  dl <- json_getitem data "distance_left" ;;
  dr <- to_float dl ;;
  j <- json_getitem data "jumps" ;;
  n <- to_int j ;;
  Ok [sys; JFloat (round2 d); JFloat (round2 dr); JInt n].

(** The list comprehension over [system_jumps]. *)
Fixpoint jump_rows (items : list json) : result (list (list json)) :=
  match items with
  | [] => Ok []
  | data :: rest =>
      r <- jump_row data ;;
      rs <- jump_rows rest ;;
      Ok (r :: rs)
  end.

(** The argument of [finished_signal.emit]. *)
Definition finished_rows (job_json : json) : result (list (list json)) :=
  result <- json_getitem job_json "result" ;;
  system_jumps <- json_getitem result "system_jumps" ;;
  items <- iter system_jumps ;;
  jump_rows items.

(** A response that says the job is still queued. *)
Definition queued (body : string) : Prop :=
  exists job_json,
    json_loads body = Some job_json /\
    json_getitem job_json "status" = Ok (JStr "queued").

(** The [for sleep_base in itertools.count(1, 5)] loop, at its [n]-th
    pass, over the responses to the requests it makes. *)
Fixpoint poll_loop (responses : list response) (n : nat)
  : list effect * ending :=
  match responses with
  | [] => ([], waiting)
  | ConnectionError :: _ => ([], raised_ConnectionError)
  | content decodedjob :: rest =>
      match json_loads decodedjob with
      | None => ([], raised JSONDecodeError)
      | Some job_json =>
          match json_getitem job_json "status" with
          | Raise e => ([], raised e)
          | Ok status =>
              if json_eq_str status "queued" then
                match delay n with
                | Raise e => ([], raised e)
                | Ok d =>
                    let (out, e) := poll_loop rest (S n) in
                    (sleep d :: out, e)
                end
              else
                match finished_rows job_json with
                | Ok rows => ([finished_signal rows], returned)
                | Raise e => ([], raised e)
                end
          end
      end
  end.

(** [plot]: [job_request] is the response to the request that submits
    the route, [responses] those to the requests for its result.  The
    concatenation of the address with [job_id] fails on an identifier
    that is not a [str]. *)
Definition plot (job_request : response) (responses : list response)
  : list effect * ending :=
  match job_request with
  | ConnectionError =>
      ([status_signal "Cannot establish a connection to Spansh"], returned)
  | content body =>
      match json_loads body with
      | None => ([], raised JSONDecodeError)
      | Some job_json =>
          match json_getitem job_json "error" with
          | Ok error =>
              if json_eq_str error "Could not find starting system" then
                ([status_signal "Source system invalid"], returned)
              else if json_eq_str error "Could not find finishing system" then
                ([status_signal "Destination system invalid"], returned)
              else
                ([status_signal
                    "An error has occured when contacting Spansh's API"],
                 returned)
          | Raise (KeyError _) =>
              match json_getitem job_json "job" with
              | Raise e => ([], raised e)
              | Ok (JStr job_id) =>
                  let (out, e) := poll_loop responses 0 in
                  (status_signal "Plotting" :: out, e)
              | Ok _ => ([status_signal "Plotting"], raised TypeError)
              end
          | Raise e => ([], raised e)
          end
      end
  end.

End Plot.

End SpanshPlotThread.

(** ** [main_windows.py]: the csv and last-route pages of [PlotStartDialog] *)

Module PlotStartDialog.
Import RoutePlots.

Section Effects.
Context {R : Type}.

(** What the two submit slots do to the dialog and to its listeners;
    [R] is the type of a row of the route. *)
Inductive effect : Type :=
| cs_submit_setEnabled (b : bool)
| last_submit_setEnabled (b : bool)
| showMessage (message : string)
| data_signal (journal : string) (data : list R) (index : Z)
| close.

End Effects.

(** One row as [csv.DictReader] yields it: the cells under the names of
    the header, [None] for a cell the line does not have. *)
Definition csv_row : Type := list (string * json).

Section Csv.
Context `{PyConv}.

(** [[stuff['System Name'], round(float(stuff['Distance To Arrival']), 2),
      round(float(stuff['Distance Remaining']), 2), int(stuff['Jumps'])]] *)
Definition tlist (stuff : csv_row) : result (list json) :=
  name <- json_getitem (JObj stuff) "System Name" ;;
  a <- json_getitem (JObj stuff) "Distance To Arrival" ;;
  d <- to_float a ;;
  b <- json_getitem (JObj stuff) "Distance Remaining" ;;
  dr <- to_float b ;;
  c <- json_getitem (JObj stuff) "Jumps" ;;
  n <- to_int c ;;
  Ok [name; JFloat (round2 d); JFloat (round2 dr); JInt n].

(** The [for stuff in csv.DictReader(f, delimiter=',')] loop: [Some data]
    when it ends with [valid] set, [None] when a row cleared it. *)
Fixpoint read_rows (rows : list csv_row) (data : list (list json))
  : result (option (list (list json))) :=
  match rows with
  | [] => Ok (Some data)
  | stuff :: rest =>
      match tlist stuff with
      | Ok t => read_rows rest (data ++ [t])
      | Raise ValueError => Ok None
      | Raise (KeyError _) => Ok None
      | Raise e => Raise e
      end
  end.

(** [cs_submit_act]: [st_size] is [os.stat(cpath).st_size], [None] when
    the path raises [FileNotFoundError]; [rows] are the rows of the file;
    [journals] and [current_index] are [self.journals] and
    [self.cs_comb.currentIndex()]. *)
Definition cs_submit_act (st_size : option Z) (rows : list csv_row)
    (journals : list string) (current_index : Z)
  : list (@effect (list json)) * result unit :=
  match st_size with
  | None =>
      ([cs_submit_setEnabled false; showMessage "Invalid path to CSV file"],
       Ok tt)
  | Some size =>
      if 2097152 <? size then
        ([cs_submit_setEnabled false; showMessage "File too large";
          cs_submit_setEnabled true], Ok tt)
      else
        match read_rows rows [] with
        | Raise e => ([cs_submit_setEnabled false], Raise e)
        | Ok (Some data) =>
            match getitem journals current_index with
            | Ok journal =>
                ([cs_submit_setEnabled false; data_signal journal data (-1);
                  close], Ok tt)
            | Raise e => ([cs_submit_setEnabled false], Raise e)
            end
        | Ok None =>
            ([cs_submit_setEnabled false;
              showMessage "Error loading csv file";
              cs_submit_setEnabled true], Ok tt)
        end
  end.

End Csv.

(** What [self.settings.value("last_route")] holds: nothing, an empty
    value, or the pair [save_route] stored. *)
Inductive last_route (R : Type) : Type :=
| no_value
| empty_value
| saved (index : Z) (data : list R).
Arguments no_value {R}.
Arguments empty_value {R}.
Arguments saved {R} index data.

(** [last_submit_act] *)
Definition last_submit_act {R} (value : last_route R)
    (journals : list string) (current_index : Z)
  : list (@effect R) * result unit :=
  match value with
  | no_value | empty_value =>
      ([last_submit_setEnabled false; showMessage "No last route found";
        last_submit_setEnabled true], Ok tt)
  | saved index data =>
      if index =? len data then
        match getitem journals current_index with
        | Ok journal =>
            ([last_submit_setEnabled false; data_signal journal data 1;
              close], Ok tt)
        | Raise e => ([last_submit_setEnabled false], Raise e)
        end
      else
        match getitem journals current_index with
        | Ok journal =>
            ([last_submit_setEnabled false; data_signal journal data index;
              close], Ok tt)
        | Raise e => ([last_submit_setEnabled false], Raise e)
        end
  end.

(** The value [AhkWorker.save_route] leaves in the settings. *)
Definition stored (value : Z * list AhkWorker.row)
  : last_route AhkWorker.row :=
  saved (fst value) (snd value).

End PlotStartDialog.

(** ** [auto_neutron/route_plots.py]: [AhkPlotter] *)

Module AhkPlotter.

(** What one call reads from outside the plotter: the settings and the
    behaviour of the AHK process. *)
Record environment : Type := {
  (** [settings.Paths.ahk] *)
  ahk : option string;
  (** [settings.Paths.ahk.exists()] *)
  ahk_exists : bool;
  (** [settings.General.script] *)
  script : string;
  (** [settings.General.bind] *)
  bind : string;
  (** [self.process.poll() is None]: the process held is still running *)
  running : bool;
  (** [self.process.wait(0.1)] times out: a process spawned now is still
      running after 100 ms *)
  survives : bool
}.

(** The file behind the standard input of the AHK process. *)
Record file : Type := {
  closed : bool;
  text : string
}.

Record t : Type := {
  (** [self.process is not None] *)
  process : bool;
  _used_script : option string;
  _used_ahk_path : option string;
  _used_hotkey : option string;
  _last_system : option string;
  (** [self.ahk_infile]; [None] before the first assignment *)
  ahk_infile : option file
}.

Inductive effect : Type :=
| terminate
| spawn (path hotkey user_script : string).

(** How a call ends: it returns, or raises the [RuntimeError] of
    [_start_ahk], or another exception. *)
Inductive outcome : Type :=
| done
| RuntimeError (message : string)
| raised (e : exn).

Definition with_process (self : t) (p : bool) : t :=
  {| process := p; _used_script := _used_script self;
     _used_ahk_path := _used_ahk_path self;
     _used_hotkey := _used_hotkey self; _last_system := _last_system self;
     ahk_infile := ahk_infile self |}.

Definition with_ahk_infile (self : t) (f : file) : t :=
  {| process := process self; _used_script := _used_script self;
     _used_ahk_path := _used_ahk_path self;
     _used_hotkey := _used_hotkey self; _last_system := _last_system self;
     ahk_infile := Some f |}.

Definition with_used (self : t) (env : environment) : t :=
  {| process := process self; _used_script := Some (script env);
     _used_ahk_path := ahk env; _used_hotkey := Some (bind env);
     _last_system := _last_system self; ahk_infile := ahk_infile self |}.

Definition with_last_system (self : t) (system : string) : t :=
  {| process := process self; _used_script := _used_script self;
     _used_ahk_path := _used_ahk_path self;
     _used_hotkey := _used_hotkey self; _last_system := Some system;
     ahk_infile := ahk_infile self |}.

(** The fields as [AhkPlotter.__init__] sets them before it calls
    [Plotter.__init__]. *)
Definition fresh : t :=
  {| process := false; _used_script := None; _used_ahk_path := None;
     _used_hotkey := None; _last_system := None; ahk_infile := None |}.

(** [stop] *)
Definition stop (self : t) : t * list effect * outcome :=
  if process self then
    match ahk_infile self with
    | None => (self, [terminate], raised AttributeError)
    | Some f =>
        (with_process
           (with_ahk_infile self {| closed := true; text := text f |}) false,
         [terminate], done)
    end
  else (self, [], done).

(** [_start_ahk] *)
Definition _start_ahk (env : environment) (self : t)
  : t * list effect * outcome :=
  let '(self1, out1, r) := stop self in
  match r with
  | done =>
      let self2 :=
        with_ahk_infile self1 {| closed := false; text := EmptyString |} in
      match ahk env with
      | None => (self2, out1, done)
      | Some path =>
          if negb (ahk_exists env) then (self2, out1, done)
          else
            let self3 := with_process self2 true in
            let out := out1 ++ [spawn path (bind env) (script env)] in
            if survives env then (with_used self3 env, out, done)
            else (self3, out, RuntimeError "AHK failed to start.")
      end
  | other => (self1, out1, other)
  end.

(** [x != y] on two values that are a [str] or [None]. *)
Definition differ (x y : option string) : bool :=
  match x, y with
  | Some a, Some b => negb (String.eqb a b)
  | None, None => false
  | _, _ => true
  end.

Definition newline : string := String "010"%char EmptyString.

(** [update_system] *)
Definition update_system (system : string) (env : environment) (self : t)
  : t * list effect * outcome :=
  let '(self1, out1, r1) :=
    if differ (ahk env) (_used_ahk_path self)
       || differ (Some (script env)) (_used_script self)
       || differ (Some (bind env)) (_used_hotkey self)
    then stop self else (self, [], done) in
  match r1 with
  | done =>
      let '(self2, out2, r2) :=
        if negb (process self1) || negb (running env)
        then _start_ahk env self1 else (self1, [], done) in
      match r2 with
      | done =>
          let self3 := with_last_system self2 system in
          match ahk_infile self3 with
          | None => (self3, out1 ++ out2, raised AttributeError)
          | Some f =>
              if closed f then (self3, out1 ++ out2, raised ValueError)
              else
                (with_ahk_infile self3
                   {| closed := false; text := (system ++ newline)%string |},
                 out1 ++ out2, done)
          end
      | other => (self2, out1 ++ out2, other)
      end
  | other => (self1, out1, other)
  end.

(** [__init__] *)
Definition __init__ (start_system : option string) (env : environment)
  : t * list effect * outcome :=
  match start_system with
  | Some system => update_system system env fresh
  | None => (fresh, [], done)
  end.

(** The calls made on a plotter over its life. *)
Inductive call : Type :=
| call_update_system (system : string) (env : environment)
| call_stop.

Definition call_run (c : call) (self : t) : t * list effect * outcome :=
  match c with
  | call_update_system system env => update_system system env self
  | call_stop => stop self
  end.

(** A sequence of calls, each on the plotter as the one before left it,
    whether it returned or raised: the final plotter and all effects. *)
Fixpoint calls (cs : list call) (self : t) : t * list effect :=
  match cs with
  | [] => (self, [])
  | c :: rest =>
      let '(self1, out1, _) := call_run c self in
      let '(self2, out2) := calls rest self1 in
      (self2, out1 ++ out2)
  end.

(** Whether a process is held after some effects, starting from [h];
    [None] when a process was spawned while one was held, or terminated
    while none was. *)
Fixpoint held (h : bool) (out : list effect) : option bool :=
  match out with
  | [] => Some h
  | terminate :: rest => if h then held false rest else None
  | spawn _ _ _ :: rest => if h then None else held true rest
  end.

(** A plotter that holds a process has the file of its input open. *)
Definition wired (self : t) : Prop :=
  process self = true ->
  exists f, ahk_infile self = Some f /\ closed f = false.

(** The settings in use are those of [env]. *)
Definition uses (self : t) (env : environment) : Prop :=
  _used_ahk_path self = ahk env /\
  _used_script self = Some (script env) /\
  _used_hotkey self = Some (bind env).

End AhkPlotter.

(** ** [auto_neutron/journal.py]: [Journal.get_static_state] *)

Module Journal.

Section StaticState.
Context `{PyJson}.
(** [Location(entry["StarSystem"], *entry["StarPos"])]: the class is
    defined outside the files at hand; its construction from the name and
    the position is a parameter, and may raise. *)
Context {location : Type} (Location : json -> json -> result location).

(** [loadout, location, cargo, shut_down]; [cargo] is a decoded value,
    [JNull] for [None]. *)
Definition static_state : Type :=
  option json * option location * json * bool.

(** [entry["event"] == "Cargo" and entry["Vessel"] == "Ship"] *)
Definition is_ship_cargo (entry event : json) : result bool :=
  if json_eq_str event "Cargo" then
    vessel <- json_getitem entry "Vessel" ;;
    Ok (json_eq_str vessel "Ship")
  else Ok false.

(** The [for line in journal_file] loop of [get_static_state], from the
    values the three variables hold. *)
Fixpoint scan (lines : list string) (loadout : option json)
    (loc : option location) (cargo : json) : result static_state :=
  match lines with
  | [] => Ok (loadout, loc, cargo, false)
  | line :: rest =>
      match json_loads line with
      | None => Raise JSONDecodeError
      | Some entry =>
          event <- json_getitem entry "event" ;;
          if json_eq_str event "Loadout" then scan rest (Some entry) loc cargo
          else if json_eq_str event "Location" then
            name <- json_getitem entry "StarSystem" ;;
            pos <- json_getitem entry "StarPos" ;;
            l <- Location name pos ;;
            scan rest loadout (Some l) cargo
          else
            ship_cargo <- is_ship_cargo entry event ;;
            if ship_cargo then
              count <- json_getitem entry "Count" ;;
              scan rest loadout loc count
            else if json_eq_str event "Shutdown" then
              Ok (loadout, loc, cargo, true)
            else scan rest loadout loc cargo
      end
  end.

(** [get_static_state] on the lines of the journal file. *)
Definition get_static_state (lines : list string) : result static_state :=
  scan lines None None JNull.

End StaticState.

End Journal.

(** ** An instance of the runtime for closed examples

    The examples below run on ASCII text and on a handful of fixed lines, on
    which these functions agree with Python's. *)

Module Ascii7.

Definition lower_char (c : ascii) : ascii :=
  let n := nat_of_ascii c in
  if (65 <=? n)%nat && (n <=? 90)%nat then ascii_of_nat (n + 32) else c.

(** ASCII lowercasing: what [str.casefold] and [str.lower] do to a string
    of ASCII characters. *)
Fixpoint lower_ascii (s : string) : string :=
  match s with
  | EmptyString => EmptyString
  | String c rest => String (lower_char c) (lower_ascii rest)
  end.

End Ascii7.

(** ** Concrete data for the closed examples *)

Module Examples.
Import AhkWorker.

#[local] Instance ascii_str : PyStr :=
  {| casefold := Ascii7.lower_ascii; lower := Ascii7.lower_ascii |}.

Definition quoted (s : string) : string :=
  (String "034"%char s ++ String "034"%char EmptyString)%string.

(** The journal line of a completed jump to [name], cut down to the two
    fields the worker reads, and what [json.loads] makes of it. *)
Definition jump_line (name : string) : string :=
  ("{ " ++ quoted "event" ++ ":" ++ quoted "FSDJump" ++ ", "
        ++ quoted "StarSystem" ++ ":" ++ quoted name ++ " }")%string.

Definition jump_event (name : string) : json :=
  JObj [("event", JStr "FSDJump"); ("StarSystem", JStr name)].

(** A jump record that lost its system name. *)
Definition jump_without_system : json := JObj [("event", JStr "FSDJump")].

Definition known_names : list string :=
  ["sol"; "SOL"; "Sol"; "alpha centauri"; "sirius"].

Definition jump_without_system_line : string :=
  ("{ " ++ quoted "event" ++ ":" ++ quoted "FSDJump" ++ " }")%string.

(** A status snapshot, cut down to the two fields the fuel alert reads. *)
Definition status_line (flags fuel : string) : string :=
  ("{ " ++ quoted "Flags" ++ ":" ++ flags ++ ", " ++ quoted "Fuel"
        ++ ":{ " ++ quoted "FuelMain" ++ ":" ++ fuel ++ " } }")%string.

Definition status (flags : Z) (fuel : float) : json :=
  JObj [("Flags", JInt flags); ("Fuel", JObj [("FuelMain", JFloat fuel)])].

(** A snapshot without its fuel record. *)
Definition status_without_fuel_line : string :=
  ("{ " ++ quoted "Flags" ++ ":262160 }")%string.

Definition status_without_fuel : json := JObj [("Flags", JInt 262160)].

(** The body of a failed reply in which the service says what went wrong. *)
Definition error_body : string :=
  ("{" ++ quoted "error" ++ ":" ++ quoted "Could not find starting system"
       ++ "}")%string.

Definition error_payload : json :=
  JObj [("error", JStr "Could not find starting system")].

(** The lines of the examples and what they decode to.  The flags 262160
    are [2^18 + 2^4], FSD cooldown and supercruise; 16 is supercruise
    alone. *)
Definition known_lines : list (string * json) :=
  map (fun n => (jump_line n, jump_event n)) known_names ++
  [ (jump_without_system_line, jump_without_system);
    (status_line "262160" "2.5", status 262160 2.5);
    (status_line "262160" "16.0", status 262160 16);
    (status_line "16" "2.5", status 16 2.5);
    (status_without_fuel_line, status_without_fuel);
    (error_body, error_payload) ].

(** [json.loads] on the lines of the examples: the lines of [known_lines]
    decode as listed there, and text that is not JSON does not decode.  No
    other line is used. *)
Definition loads_examples (line : string) : option json :=
  match find (fun entry => String.eqb line (fst entry)) known_lines with
  | Some entry => Some (snd entry)
  | None => None
  end.

#[local] Instance table_json : PyJson := {| json_loads := loads_examples |}.

Definition waypoint (name : string) : row :=
  {| system := name; columns := [] |}.

(** The route of the scenarios of the specification. *)
Definition route : list row :=
  [waypoint "Sol"; waypoint "Alpha Centauri"; waypoint "Sirius"].

(** A route that passes through Sol twice. *)
Definition route_twice : list row :=
  [waypoint "Sol"; waypoint "Alpha Centauri"; waypoint "Sol";
   waypoint "Sirius"].

(** Settings [(script, bind, dark, copy)] in copy mode. *)
Definition settings : string * string * bool * bool :=
  ("|SYSTEMDATA|", "F5", false, true).

Definition worker (r : list row) (start_index : Z) : t :=
  __init__ [] r settings start_index.

(** The worker on [route] with the index on the first waypoint, where
    [set_index 0] puts it (a new worker starts at 1). *)
Definition at_start : t := with_list_index (worker route 0) 0.

(** The fuel alert of a ship with a 32 t tank and a modifier of 25 percent,
    as [__init__] builds it, and the same once armed. *)
Definition fuel_alert : FuelAlert.t :=
  {| FuelAlert.file := "Status.json"; FuelAlert.max_fuel := PInt 32;
     FuelAlert.loop := true; FuelAlert.alert := false;
     FuelAlert.jump_fuel := PFloat 8 |}.

Definition armed : FuelAlert.t := FuelAlert.change_alert fuel_alert true.

(** Renderings of values and exceptions; the examples never ask for one. *)
#[local] Instance plain_show : PyShow :=
  {| py_str := fun _ => "<value>"; exn_str := fun _ => "<exception>" |}.

(** A failed reply that carries the service's own message, and one that
    carries nothing. *)
Definition failed_reply : Network.reply :=
  {| Network.no_error := false;
     Network.error_string := "Error transferring - server replied: Bad Request";
     Network.data := error_body |}.

Definition empty_reply : Network.reply :=
  {| Network.no_error := false;
     Network.error_string := "Host spansh.co.uk not found";
     Network.data := EmptyString |}.

(** The journal record the game writes when it closes, and the one it
    writes when a ship is boarded. *)
Definition shutdown_line : string :=
  ("{ " ++ quoted "event" ++ ":" ++ quoted "Shutdown" ++ " }")%string.

Definition shutdown_event : json := JObj [("event", JStr "Shutdown")].

Definition loadout_line : string :=
  ("{ " ++ quoted "event" ++ ":" ++ quoted "Loadout" ++ " }")%string.

Definition loadout_event : json := JObj [("event", JStr "Loadout")].

(** The body of a reply for a job that is still queued, and of one for a
    job that has finished with an empty route. *)
Definition queued_body : string :=
  ("{" ++ quoted "status" ++ ":" ++ quoted "queued" ++ ","
       ++ quoted "job" ++ ":" ++ quoted "F2B5" ++ "}")%string.

Definition queued_payload : json :=
  JObj [("status", JStr "queued"); ("job", JStr "F2B5")].

Definition finished_body : string :=
  ("{" ++ quoted "status" ++ ":" ++ quoted "ok" ++ ","
       ++ quoted "result" ++ ":{" ++ quoted "system_jumps" ++ ":[]}}")%string.

Definition finished_payload : json :=
  JObj [("status", JStr "ok");
        ("result", JObj [("system_jumps", JArr [])])].

(** [json.loads] on the lines above as well. *)
Definition journal_lines : list (string * json) :=
  known_lines ++
  [ (shutdown_line, shutdown_event); (loadout_line, loadout_event);
    (queued_body, queued_payload); (finished_body, finished_payload) ].

Definition loads_journal (line : string) : option json :=
  match find (fun entry => String.eqb line (fst entry)) journal_lines with
  | Some entry => Some (snd entry)
  | None => None
  end.

#[local] Instance journal_json : PyJson := {| json_loads := loads_journal |}.

(** A worker on [route] whose journal already holds a jump and the closing
    of the game. *)
Definition after_shutdown : t :=
  __init__ [jump_line "sol"; shutdown_line] route settings 0.


(** Replies that arrived without a network error. *)
Definition ok_reply (body : string) : Network.reply :=
  {| Network.no_error := true; Network.error_string := "Unknown error";
     Network.data := body |}.

(** [round(x, 2)] on the distances of the examples, which have no more
    than two decimal places and so are kept as they are; the examples
    convert no text to a number. *)
#[local] Instance two_places : PyConv :=
  {| round2 := fun x => x;
     float_of_str := fun _ => None;
     int_of_str := fun _ => None |}.

(** One entry of [system_jumps]. *)
Definition jump_entry : json :=
  JObj [("system", JStr "Sol"); ("distance_jumped", JFloat 4.5);
        ("distance_left", JInt 10); ("jumps", JInt 1)].

(** Settings with an AHK executable in place, and processes that start
    and keep running. *)
Definition ahk_env : AhkPlotter.environment :=
  {| AhkPlotter.ahk := Some "C:/AutoHotkey/AutoHotkey.exe";
     AhkPlotter.ahk_exists := true;
     AhkPlotter.script := "|SYSTEMDATA|";
     AhkPlotter.bind := "F5";
     AhkPlotter.running := true;
     AhkPlotter.survives := true |}.

(** The same with the hotkey changed. *)
Definition rebound_env : AhkPlotter.environment :=
  {| AhkPlotter.ahk := Some "C:/AutoHotkey/AutoHotkey.exe";
     AhkPlotter.ahk_exists := true;
     AhkPlotter.script := "|SYSTEMDATA|";
     AhkPlotter.bind := "F6";
     AhkPlotter.running := true;
     AhkPlotter.survives := true |}.

(** A plotter after its first system. *)
Definition plotting : AhkPlotter.t :=
  fst (fst (AhkPlotter.update_system "Sol" ahk_env AhkPlotter.fresh)).

End Examples.

(** * Properties *)

(** ** Lists *)

Lemma len_nonneg {A} (l : list A) : 0 <= len l.
Proof. unfold len. lia. Qed.

Lemma contains_In x l : contains x l = true <-> In x l.
Proof.
  unfold contains. rewrite existsb_exists. split.
  - intros [y [Hy Heq]]. apply String.eqb_eq in Heq. now subst.
  - intros Hin. exists x. split; [assumption | apply String.eqb_refl].
Qed.

Lemma slice_from_incl {A} (l : list A) i x :
  In x (slice_from l i) -> In x l.
Proof.
  unfold slice_from. intros Hin.
  rewrite <- (firstn_skipn (Z.to_nat
    (if i <? 0 then Z.max 0 (i + len l) else Z.min i (len l))) l).
  apply in_or_app. now right.
Qed.

(** [index] succeeds exactly on the members of the list, and its value is
    the position of the first of them. *)
Lemma index_In l x : In x l -> exists i, index l x = Ok i /\ 0 <= i < len l.
Proof.
  induction l as [|y l IH]; intros Hin; [destruct Hin|].
  cbn [index]. destruct (String.eqb y x) eqn:E.
  - exists 0. split; [reflexivity|]. unfold len. cbn [List.length]. lia.
  - destruct Hin as [Hy|Hin].
    + subst. rewrite String.eqb_refl in E. discriminate.
    + destruct (IH Hin) as [i [Hi Hr]]. exists (i + 1). rewrite Hi.
      split; [reflexivity|]. unfold len in *. cbn [List.length]. lia.
Qed.

Lemma index_first l x i :
  index l x = Ok i ->
  nth_error l (Z.to_nat i) = Some x /\ ~ In x (firstn (Z.to_nat i) l) /\ 0 <= i.
Proof.
  revert i. induction l as [|y l IH]; intros i Hi; [discriminate|].
  cbn [index] in Hi. destruct (String.eqb y x) eqn:E.
  - injection Hi as <-. apply String.eqb_eq in E. subst.
    cbn. repeat split; [tauto | lia].
  - destruct (index l x) as [j|e] eqn:Hj; cbn in Hi; [|discriminate].
    injection Hi as <-. destruct (IH j eq_refl) as [Hn [Hf Hpos]].
    replace (Z.to_nat (j + 1)) with (S (Z.to_nat j)) by lia.
    cbn [nth_error firstn]. repeat split; [assumption | | lia].
    intros [Hy|Hin]; [|tauto].
    subst. rewrite String.eqb_refl in E. discriminate.
Qed.

(** ** The route tracker *)

Section Tracker.
Import AhkWorker.
Context `{PyStr}.

(** What the loop body does with a decoded jump record, spelled out. *)
Lemma on_loaded_jump self fields name :
  dict_get fields "event" = Some (JStr "FSDJump") ->
  dict_get fields "StarSystem" = Some (JStr name) ->
  on_loaded (JObj fields) self =
    if contains (casefold name) (slice_from (systems self) (list_index self))
    then
      match index (systems self) (casefold name) with
      | Raise e => (self, [], Raise e)
      | Ok i =>
          let self' := with_list_index self (i + 1) in
          if i + 1 =? len (data_values self) then
            (self', [hotkey_stop; route_finished_signal], Ok Break)
          else
            match getitem (systems self) (i + 1) with
            | Ok target =>
                (self',
                 push_effects self target ++ [sys_signal (i + 1) (dark self)],
                 Ok Continue)
            | Raise e =>
                (self', if copy self then [] else [hotkey_stop], Raise e)
            end
      end
    else (self, [], Ok Continue).
Proof.
  intros Hev Hsys.
  unfold on_loaded, jump_matches, bindM, lift, get, ret, json_getitem.
  rewrite Hev, Hsys. cbn.
  destruct (contains _ _); [|reflexivity].
  cbn. destruct (index _ _) as [i|e]; [|reflexivity].
  cbn. destruct (i + 1 =? len (data_values self)); [reflexivity|].
  unfold push_effects, copy_system, reset_ahk, start_hotkey, close_ahk,
    emit_sys_signal, bindM, lift, get, emit. cbn.
  destruct (copy self); cbn;
    destruct (getitem (systems self) (i + 1)); reflexivity.
Qed.

(** A record that is not a completed jump never moves the index. *)
Lemma on_loaded_other self loaded event :
  json_getitem loaded "event" = Ok event ->
  json_eq_str event "FSDJump" = false ->
  on_loaded loaded self =
    if json_eq_str event "Loadout" then (self, [], Ok Continue)
    else if json_eq_str event "Shutdown" then
      (self, [game_shut_signal (data_values self) (list_index self);
              hotkey_stop], Ok Break)
    else (self, [], Ok Continue).
Proof.
  intros Hev Hno.
  unfold on_loaded, jump_matches, bindM, lift, get, ret, emit, close_ahk.
  rewrite Hev. cbn. rewrite Hno. cbn.
  destruct (json_eq_str event "Loadout"); [reflexivity|].
  cbn. destruct (json_eq_str event "Shutdown"); reflexivity.
Qed.

Lemma on_loaded_outcome loaded self : body_outcome self (on_loaded loaded self).
Proof.
  destruct (json_getitem loaded "event") as [event|e] eqn:Hev.
  - destruct (json_eq_str event "FSDJump") eqn:Hj.
    + destruct loaded; try discriminate.
      unfold json_getitem in Hev.
      destruct (dict_get fields "event") as [ev|] eqn:Hd; [|discriminate].
      injection Hev as ->.
      destruct event; try discriminate. cbn in Hj.
      apply String.eqb_eq in Hj. subst s.
      destruct (dict_get fields "StarSystem") as [star|] eqn:Hs.
      * destruct star;
          try (unfold on_loaded, jump_matches, bindM, lift, get, ret,
                 json_getitem; rewrite Hd, Hs; cbn; constructor).
        rewrite (on_loaded_jump self fields s Hd Hs).
        destruct (contains _ _); [|constructor].
        destruct (index _ _) as [i|e]; [|constructor].
        cbn zeta. destruct (i + 1 =? len (data_values self)) eqn:E.
        -- apply Z.eqb_eq in E. now constructor.
        -- apply Z.eqb_neq in E.
           destruct (getitem _ _); now constructor.
      * unfold on_loaded, jump_matches, bindM, lift, get, ret, json_getitem.
        rewrite Hd, Hs. cbn. constructor.
    + rewrite (on_loaded_other self loaded event Hev Hj).
      destruct (json_eq_str event "Loadout"); [constructor|].
      destruct (json_eq_str event "Shutdown"); constructor.
  - unfold on_loaded, jump_matches, bindM, lift. rewrite Hev. constructor.
Qed.

End Tracker.

(** ** The route tracker: matching *)

Section Matching.
Import AhkWorker.
Context `{PyStr}.

Lemma is_jump_fields loaded name :
  is_jump loaded name ->
  exists fields, loaded = JObj fields /\
    dict_get fields "event" = Some (JStr "FSDJump") /\
    dict_get fields "StarSystem" = Some (JStr name).
Proof.
  intros [Hev Hsys]. destruct loaded; try discriminate.
  exists fields. unfold json_getitem in *.
  destruct (dict_get fields "event"); [|discriminate].
  destruct (dict_get fields "StarSystem"); [|discriminate].
  injection Hev as ->. injection Hsys as ->. auto.
Qed.

(** A jump to a system that is not in the route from the current index on
    (it lies behind, or is not in the route at all) is ignored. *)
Lemma jump_not_ahead_ignored self loaded name :
  is_jump loaded name ->
  ~ In (casefold name) (slice_from (systems self) (list_index self)) ->
  on_loaded loaded self = (self, [], Ok Continue).
Proof.
  intros Hj Hnot. destruct (is_jump_fields _ _ Hj) as [fields [-> [Hev Hsys]]].
  rewrite (on_loaded_jump self fields name Hev Hsys).
  destruct (contains _ _) eqn:E; [|reflexivity].
  apply contains_In in E. contradiction.
Qed.

(** A jump to a system found from the current index on sets the index to
    one past the first position of that name in the whole route. *)
Lemma jump_ahead_index self loaded name :
  is_jump loaded name ->
  In (casefold name) (slice_from (systems self) (list_index self)) ->
  exists i,
    index (systems self) (casefold name) = Ok i /\
    0 <= i < len (systems self) /\
    fst (fst (on_loaded loaded self)) = with_list_index self (i + 1).
Proof.
  intros Hj Hin. destruct (is_jump_fields _ _ Hj) as [fields [-> [Hev Hsys]]].
  rewrite (on_loaded_jump self fields name Hev Hsys).
  apply contains_In in Hin as Hc. rewrite Hc.
  destruct (index_In _ _ (slice_from_incl _ _ _ Hin)) as [i [Hi Hr]].
  exists i. rewrite Hi. repeat split; try lia.
  cbn zeta. destruct (i + 1 =? len (data_values self)); [reflexivity|].
  destruct (getitem _ _); reflexivity.
Qed.

Lemma index_skipn l x (n : nat) :
  ~ In x (firstn n l) -> (n <= List.length l)%nat ->
  index l x = (k <- index (skipn n l) x ;; Ok (Z.of_nat n + k)).
Proof.
  revert n. induction l as [|y l IH]; intros n Hnot Hn.
  - destruct n; [reflexivity | cbn in Hn; lia].
  - destruct n as [|n].
    + cbn [skipn]. destruct (index (y :: l) x); reflexivity.
    + cbn [firstn] in Hnot. cbn [skipn index].
      destruct (String.eqb y x) eqn:E.
      * apply String.eqb_eq in E. subst. exfalso. apply Hnot. now left.
      * rewrite (IH n); [| intro; apply Hnot; now right | cbn in Hn; lia].
        destruct (index (skipn n l) x); cbn [result_bind];
          [f_equal; lia | reflexivity].
Qed.

(** When the name does not occur before the current index, that position is
    the earliest occurrence at or after the current index: the index moves
    to the current index plus the offset of the match plus one. *)
Lemma jump_ahead_fresh self loaded name :
  is_jump loaded name ->
  0 <= list_index self ->
  In (casefold name) (slice_from (systems self) (list_index self)) ->
  ~ In (casefold name) (firstn (Z.to_nat (list_index self)) (systems self)) ->
  exists k,
    index (slice_from (systems self) (list_index self)) (casefold name)
      = Ok k /\
    list_index (fst (fst (on_loaded loaded self))) = list_index self + k + 1.
Proof.
  intros Hj Hpos Hin Hnot.
  destruct (jump_ahead_index self loaded name Hj Hin) as [i [Hi [_ Hst]]].
  destruct (index_In _ _ Hin) as [k [Hk Hkr]].
  exists k. split; [assumption|]. rewrite Hst. cbn.
  unfold slice_from in Hk, Hin.
  destruct (list_index self <? 0) eqn:E; [apply Z.ltb_lt in E; lia|].
  destruct (Z_le_gt_dec (list_index self) (len (systems self))) as [Hle|Hgt].
  - rewrite Z.min_l in Hk by assumption.
    rewrite (index_skipn _ _ (Z.to_nat (list_index self))) in Hi;
      [| assumption | unfold len in Hle; lia].
    rewrite Hk in Hi. cbn in Hi. injection Hi as <-. lia.
  - rewrite Z.min_r in Hin by lia. unfold len in Hin.
    rewrite Nat2Z.id, skipn_all in Hin. destruct Hin.
Qed.

End Matching.

(** ** The route tracker: claims *)

Section TrackerClaims.
Import AhkWorker.
Context `{PyStr} `{PyJson}.

(** C10.  The start index of a new worker: a saved index that is not
    positive gives 1 for every route whose length is not 1 and 0 for a route
    of one waypoint; a positive saved index is used as it is. *)
Theorem init_list_index journal data_values settings start_index :
  (start_index <= 0 -> len data_values <> 1 ->
   list_index (__init__ journal data_values settings start_index) = 1) /\
  (start_index <= 0 -> len data_values = 1 ->
   list_index (__init__ journal data_values settings start_index) = 0) /\
  (0 < start_index ->
   list_index (__init__ journal data_values settings start_index)
     = start_index).
Proof.
  destruct settings as [[[scr key] drk] cpy]. cbn.
  repeat split; intros.
  - destruct (0 <? start_index) eqn:E; [apply Z.ltb_lt in E; lia|].
    destruct (len data_values =? 1) eqn:E1; [apply Z.eqb_eq in E1; lia|].
    reflexivity.
  - destruct (0 <? start_index) eqn:E; [apply Z.ltb_lt in E; lia|].
    destruct (len data_values =? 1) eqn:E1; [|apply Z.eqb_neq in E1; lia].
    reflexivity.
  - destruct (0 <? start_index) eqn:E; [|apply Z.ltb_ge in E; lia].
    reflexivity.
Qed.

(** One raw line behaves as its decoded record. *)
Lemma on_line_outcome line self : body_outcome self (on_line line self).
Proof.
  unfold on_line. destruct (json_loads line).
  - apply on_loaded_outcome.
  - unfold lift. constructor.
Qed.

Lemma count_route_finished_app out out' :
  count_route_finished (out ++ out') =
  (count_route_finished out + count_route_finished out')%nat.
Proof.
  unfold count_route_finished. now rewrite filter_app, length_app.
Qed.

Lemma push_effects_not_finished self target :
  count_route_finished (push_effects self target) = 0%nat.
Proof. unfold push_effects. destruct (copy self); reflexivity. Qed.

(** While the loop is still running it has not announced the end. *)
Lemma main_loop_running_count lines : forall self self' out,
  main_loop lines self = (self', out, Ok Continue) ->
  count_route_finished out = 0%nat.
Proof.
  induction lines as [|line rest IH]; intros self self' out Hrun.
  - cbn in Hrun. injection Hrun as _ <-. reflexivity.
  - cbn [main_loop] in Hrun. unfold bindM in Hrun.
    pose proof (on_line_outcome line self) as Ho.
    destruct (on_line line self) as [[s1 o1] r1].
    inversion Ho; subst; cbn in Hrun; try discriminate.
    + destruct (main_loop rest _) as [[s2 o2] r2] eqn:Hrest.
      injection Hrun as _ <- ->. eapply IH. eassumption.
    + destruct (main_loop rest _) as [[s2 o2] r2] eqn:Hrest.
      injection Hrun as _ <- ->.
      rewrite !count_route_finished_app, push_effects_not_finished.
      cbn. eapply IH. eassumption.
Qed.

Lemma main_loop_app pre : forall rest self self1 out1,
  main_loop pre self = (self1, out1, Ok Continue) ->
  main_loop (pre ++ rest) self =
    let '(self2, out2, r) := main_loop rest self1 in (self2, out1 ++ out2, r).
Proof.
  induction pre as [|line pre IH]; intros rest self self1 out1 Hpre.
  - cbn in Hpre. injection Hpre as <- <-. cbn [app].
    destruct (main_loop rest self) as [[s o] r]. reflexivity.
  - cbn [main_loop app] in *. unfold bindM in *.
    destruct (on_line line self) as [[s1 o1] [c|e]]; [|discriminate].
    destruct c.
    + destruct (main_loop pre s1) as [[s2 o2] r2] eqn:Hp.
      injection Hpre as <- <- ->.
      rewrite (IH rest s1 s2 o2 Hp).
      destruct (main_loop rest s2) as [[s3 o3] r3].
      now rewrite app_assoc.
    + cbn in Hpre. discriminate.
Qed.

(** C8.  When a line moves the index onto the route length, that line emits
    the one route-complete notification of the whole run and ends the loop:
    whatever lines follow, the final state and the effects are those reached
    at that line. *)
Theorem route_complete_once self pre line post self1 out1 self2 out2 c :
  main_loop pre self = (self1, out1, Ok Continue) ->
  on_line line self1 = (self2, out2, Ok c) ->
  list_index self1 <> len (data_values self1) ->
  list_index self2 = len (data_values self2) ->
  out2 = [hotkey_stop; route_finished_signal] /\
  main_loop (pre ++ line :: post) self = (self2, out1 ++ out2, Ok Break) /\
  count_route_finished (out1 ++ out2) = 1%nat.
Proof.
  intros Hpre Hstep Hbefore Hafter.
  pose proof (on_line_outcome line self1) as Ho. rewrite Hstep in Ho.
  inversion Ho; subst; try contradiction;
    try (cbn in Hafter; congruence).
  split; [reflexivity|]. split.
  - rewrite (main_loop_app pre (line :: post) self self1 out1 Hpre).
    cbn [main_loop]. unfold bindM. rewrite Hstep. reflexivity.
  - rewrite count_route_finished_app.
    rewrite (main_loop_running_count pre self self1 out1 Hpre). reflexivity.
Qed.

End TrackerClaims.

(** ** The route tracker: the scenarios and a route with a repeated system *)

Section TrackerExamples.
Import AhkWorker Examples.
Existing Instance ascii_str.
Existing Instance table_json.

Lemma init_list_index_witness :
  list_index (__init__ [] route settings 0) = 1 /\
  list_index (__init__ [] [waypoint "Sol"] settings (-3)) = 0 /\
  list_index (__init__ [] route settings 2) = 2.
Proof.
  split; [|split].
  - apply (proj1 (init_list_index [] route settings 0));
      [lia | discriminate].
  - apply (proj1 (proj2 (init_list_index [] [waypoint "Sol"] settings (-3))));
      [lia | reflexivity].
  - apply (proj2 (proj2 (init_list_index [] route settings 2))). lia.
Defined.

(** Scenario A: from index 0 a jump to Sirius completes the route; a later
    jump to Sol changes nothing. *)
Lemma route_complete_once_witness :
  main_loop [jump_line "sirius"; jump_line "sol"] at_start =
    (with_list_index at_start 3,
     [hotkey_stop; route_finished_signal], Ok Break) /\
  count_route_finished [hotkey_stop; route_finished_signal] = 1%nat.
Proof.
  assert (Hpre : main_loop [] at_start = (at_start, [], Ok Continue))
    by reflexivity.
  assert (Hstep : on_line (jump_line "sirius") at_start =
                  (with_list_index at_start 3,
                   [hotkey_stop; route_finished_signal], Ok Break))
    by (vm_compute; reflexivity).
  assert (Hbefore : list_index at_start <>
                    len (data_values at_start)) by discriminate.
  assert (Hafter : list_index (with_list_index at_start 3) =
                   len (data_values (with_list_index at_start 3)))
    by reflexivity.
  exact (proj2 (route_complete_once at_start [] (jump_line "sirius")
                  [jump_line "sol"] _ _ _ _ _ Hpre Hstep Hbefore Hafter)).
Defined.

(** Jumps reported as "sol" and as "SOL" both move the index from the
    waypoint "Sol" to 1. *)
Example jump_to_sol_in_any_case :
  on_loaded (jump_event "sol") at_start =
    (with_list_index at_start 1,
     [set_clip "alpha centauri"; sys_signal 1 false], Ok Continue) /\
  on_loaded (jump_event "SOL") at_start =
    (with_list_index at_start 1,
     [set_clip "alpha centauri"; sys_signal 1 false], Ok Continue).
Proof. vm_compute. split; reflexivity. Qed.

(** Scenario B: a jump to Alpha Centauri moves the index to 2, and a jump
    back to Sol is then ignored. *)
Example scenario_B :
  main_loop [jump_line "alpha centauri"; jump_line "sol"] at_start =
    (with_list_index at_start 2,
     [set_clip "sirius"; sys_signal 2 false], Ok Continue).
Proof. vm_compute. reflexivity. Qed.

(** C1.  On a route that passes through Sol at positions 0 and 2, with the
    index at 1, a jump to Sol matches: its earliest occurrence from the
    index on is at offset 1, so the index should become 3.  The worker takes
    the position of the first Sol of the whole route instead and leaves the
    index at 1. *)
Theorem jump_to_repeated_system_takes_first_occurrence :
  list_index (worker route_twice 1) = 1 /\
  index (slice_from (systems (worker route_twice 1)) 1) (casefold "Sol")
    = Ok 1 /\
  on_loaded (jump_event "Sol") (worker route_twice 1) =
    (with_list_index (worker route_twice 1) 1,
     [set_clip "alpha centauri"; sys_signal 1 false], Ok Continue).
Proof. vm_compute. repeat split; reflexivity. Qed.

(** C2.  On the same route with the index at 2, a jump to Sol matches the
    waypoint at position 2 and the index goes back from 2 to 1. *)
Theorem jump_to_repeated_system_moves_back :
  list_index (worker route_twice 2) = 2 /\
  contains (casefold "Sol") (slice_from (systems (worker route_twice 2)) 2)
    = true /\
  list_index
    (fst (fst (on_loaded (jump_event "Sol") (worker route_twice 2)))) = 1.
Proof. vm_compute. repeat split; reflexivity. Qed.

End TrackerExamples.

(** ** The fuel alert: the status bits *)

Section FlagBits.
Import FuelAlert.

Lemma format_b_Z_digits z :
  0 <= z -> list_ascii_of_string (format_b_Z z) = rev (map digit (bits_of z)).
Proof.
  destruct z as [|p|p]; intros Hz; [reflexivity | | lia].
  cbn [format_b_Z bits_of]. unfold digits.
  apply list_ascii_of_string_of_list_ascii.
Qed.

Lemma bits_lsb_testbit p : forall n : nat,
  Z.testbit (Zpos p) (Z.of_nat n) = bit_at (bits_lsb p) n.
Proof.
  unfold bit_at.
  induction p as [p IH|p IH|]; intros [|n]; cbn [bits_lsb nth_error].
  - rewrite Pos2Z.inj_xI. apply Z.testbit_odd_0.
  - rewrite Pos2Z.inj_xI, Nat2Z.inj_succ, Z.testbit_odd_succ by lia. apply IH.
  - rewrite Pos2Z.inj_xO. apply Z.testbit_even_0.
  - rewrite Pos2Z.inj_xO, Nat2Z.inj_succ, Z.testbit_even_succ by lia. apply IH.
  - reflexivity.
  - rewrite Nat2Z.inj_succ.
    change 1 with (2 * 0 + 1). rewrite Z.testbit_odd_succ by lia.
    rewrite Z.bits_0. now destruct n.
Qed.

Lemma bits_of_testbit z (n : nat) :
  0 <= z -> Z.testbit z (Z.of_nat n) = bit_at (bits_of z) n.
Proof.
  destruct z as [|p|p]; intros Hz; [| apply bits_lsb_testbit | lia].
  rewrite Z.bits_0. unfold bit_at. cbn. now destruct n as [|[|n]].
Qed.

Lemma digit_is_1 b : String.eqb (String (digit b) EmptyString) "1" = b.
Proof. now destruct b. Qed.

(** Reading the character [k] places from the end of the rendering gives bit
    [k - 1]; when the rendering is shorter than [k] the read raises and the
    bit is 0. *)
Lemma getitem_from_end (bs : list bool) (k : nat) :
  (1 <= k)%nat ->
  getitem (rev (map digit bs)) (- Z.of_nat k) =
    match nth_error bs (k - 1) with
    | Some b => Ok (digit b)
    | None => Raise IndexError
    end.
Proof.
  intros Hk. unfold getitem, len.
  rewrite length_rev, length_map.
  destruct (- Z.of_nat k <? 0) eqn:E; [|apply Z.ltb_ge in E; lia].
  destruct (Nat.le_gt_cases k (List.length bs)) as [Hle|Hgt].
  - replace ((0 <=? - Z.of_nat k + Z.of_nat (List.length bs)) &&
             (- Z.of_nat k + Z.of_nat (List.length bs)
              <? Z.of_nat (List.length bs)))
      with true
      by (symmetry; apply andb_true_iff; split;
          [apply Z.leb_le | apply Z.ltb_lt]; lia).
    rewrite nth_error_rev, length_map.
    replace (Z.to_nat (- Z.of_nat k + Z.of_nat (List.length bs)))
      with (List.length bs - k)%nat by lia.
    replace (List.length bs - k <? List.length bs)%nat with true
      by (symmetry; apply Nat.ltb_lt; lia).
    replace (List.length bs - S (List.length bs - k))%nat with (k - 1)%nat
      by lia.
    rewrite nth_error_map.
    destruct (nth_error bs (k - 1)) eqn:En; [reflexivity|].
    apply nth_error_None in En. lia.
  - replace (0 <=? - Z.of_nat k + Z.of_nat (List.length bs)) with false
      by (symmetry; apply Z.leb_gt; lia).
    cbn [andb].
    destruct (nth_error bs (k - 1)) eqn:En; [|reflexivity].
    assert (k - 1 < List.length bs)%nat
      by (apply nth_error_Some; congruence).
    lia.
Qed.

(** The test [f"{loaded['Flags']:b}"[-k] == "1"] reads bit [k - 1] of the
    flags, counted from the least significant bit. *)
Lemma flag_is_1_testbit fields flags (k : nat) :
  dict_get fields "Flags" = Some (JInt flags) ->
  0 <= flags ->
  (1 <= k)%nat ->
  match flag_is_1 (JObj fields) (- Z.of_nat k) with
  | Ok b => b = Z.testbit flags (Z.of_nat (k - 1))
  | Raise e => e = IndexError /\ Z.testbit flags (Z.of_nat (k - 1)) = false
  end.
Proof.
  intros Hf Hpos Hk.
  unfold flag_is_1, json_getitem. rewrite Hf. cbn [result_bind format_b].
  unfold str_getitem. rewrite (format_b_Z_digits flags Hpos).
  rewrite (getitem_from_end (bits_of flags) k Hk).
  rewrite (bits_of_testbit flags (k - 1) Hpos). unfold bit_at.
  destruct (nth_error (bits_of flags) (k - 1)); cbn [result_bind].
  - apply digit_is_1.
  - auto.
Qed.

(** The binary rendering of a number below [2^n] has no more than [n]
    digits. *)
Lemma bits_lsb_short p : forall n : nat,
  Z.pos p < 2 ^ Z.of_nat n -> (List.length (bits_lsb p) <= n)%nat.
Proof.
  induction p as [p IH|p IH|]; intros [|n] Hp;
    try (change (2 ^ Z.of_nat 0) with 1 in Hp; lia);
    rewrite Nat2Z.inj_succ, Z.pow_succ_r in Hp by lia;
    cbn [bits_lsb List.length].
  - apply le_n_S, IH. lia.
  - apply le_n_S, IH. lia.
  - lia.
Qed.

(** So the test [f"{loaded['Flags']:b}"[-(n + 1)] == "1"] raises on flags
    below [2^n]: the rendering has no such place. *)
Lemma short_flags_have_no_digit fields flags (n : nat) :
  dict_get fields "Flags" = Some (JInt flags) ->
  0 <= flags < 2 ^ Z.of_nat n ->
  (1 <= n)%nat ->
  flag_is_1 (JObj fields) (- Z.of_nat (S n)) = Raise IndexError.
Proof.
  intros Hf [Hpos Hlt] Hn.
  unfold flag_is_1, json_getitem. rewrite Hf. cbn [result_bind format_b].
  unfold str_getitem. rewrite (format_b_Z_digits flags Hpos).
  rewrite (getitem_from_end (bits_of flags) (S n)) by lia.
  replace (S n - 1)%nat with n by lia.
  assert (Hshort : nth_error (bits_of flags) n = None).
  { apply nth_error_None. destruct flags as [|p|p]; cbn [bits_of].
    - cbn. lia.
    - now apply bits_lsb_short.
    - lia. }
  now rewrite Hshort.
Qed.

End FlagBits.

(** ** Python's order on numbers is asymmetric *)

Section NumberOrder.

Lemma SFcompare_Lt_asym a b :
  SFcompare a b = Some Lt -> SFcompare b a <> Some Lt.
Proof.
  destruct a as [sa|sa| |sa ma ea], b as [sb|sb| |sb mb eb]; cbn;
    try discriminate; try (destruct sa; discriminate);
    try (destruct sb; discriminate);
    try (destruct sa, sb; discriminate).
  destruct sa, sb; try discriminate.
  - rewrite (Z.compare_antisym ea eb).
    destruct (ea ?= eb) eqn:E; cbn; try discriminate.
    change (Pos.compare_cont Eq ma mb) with (Pos.compare ma mb).
    change (Pos.compare_cont Eq mb ma) with (Pos.compare mb ma).
    rewrite (Pos.compare_antisym ma mb).
    destruct (ma ?= mb)%positive; cbn; discriminate.
  - rewrite (Z.compare_antisym ea eb).
    destruct (ea ?= eb) eqn:E; cbn; try discriminate.
    change (Pos.compare_cont Eq ma mb) with (Pos.compare ma mb).
    change (Pos.compare_cont Eq mb ma) with (Pos.compare mb ma).
    rewrite (Pos.compare_antisym ma mb).
    destruct (ma ?= mb)%positive; cbn; discriminate.
Qed.

Lemma float_ltb_asym f g :
  PrimFloat.ltb f g = true -> PrimFloat.ltb g f = false.
Proof.
  rewrite !ltb_spec. unfold SFltb. intros Hlt.
  destruct (SFcompare (Prim2SF f) (Prim2SF g)) as [[| |]|] eqn:E;
    try discriminate.
  pose proof (SFcompare_Lt_asym _ _ E) as Hn.
  destruct (SFcompare (Prim2SF g) (Prim2SF f)) as [[| |]|]; congruence.
Qed.

Lemma num_lt_asym a b : num_lt a b = true -> num_lt b a = false.
Proof.
  destruct a as [x|f], b as [y|g]; cbn [num_lt].
  - intros Hlt. apply Z.ltb_lt in Hlt. apply Z.ltb_ge. lia.
  - unfold Z_lt_float, float_lt_Z.
    destruct (Prim2SF g) as [s|s| |s m e].
    + intros Hlt. apply Z.ltb_lt in Hlt. apply Z.ltb_ge. lia.
    + now destruct s.
    + discriminate.
    + cbn zeta. destruct (0 <=? e);
        intros Hlt; apply Z.ltb_lt in Hlt; apply Z.ltb_ge; lia.
  - unfold Z_lt_float, float_lt_Z.
    destruct (Prim2SF f) as [s|s| |s m e].
    + intros Hlt. apply Z.ltb_lt in Hlt. apply Z.ltb_ge. lia.
    + now destruct s.
    + discriminate.
    + cbn zeta. destruct (0 <=? e);
        intros Hlt; apply Z.ltb_lt in Hlt; apply Z.ltb_ge; lia.
  - apply float_ltb_asym.
Qed.

End NumberOrder.

(** ** The fuel alert: claims *)

Section FuelClaims.
Import FuelAlert.
Context `{PyJson}.

Lemma snapshot_fuel_main loaded fuel flags :
  is_snapshot loaded fuel flags -> fuel_main loaded = Ok fuel.
Proof.
  intros (fields & ffields & fv & -> & Hf & Hm & Hn & _).
  unfold fuel_main, json_getitem. rewrite Hf. cbn [result_bind]. rewrite Hm.
  cbn [result_bind]. exact Hn.
Qed.

Lemma snapshot_flag loaded fuel flags (k : nat) :
  is_snapshot loaded fuel flags -> 0 <= flags -> (1 <= k)%nat ->
  match flag_is_1 loaded (- Z.of_nat k) with
  | Ok b => b = Z.testbit flags (Z.of_nat (k - 1))
  | Raise e => e = IndexError /\ Z.testbit flags (Z.of_nat (k - 1)) = false
  end.
Proof.
  intros (fields & ffields & fv & -> & _ & _ & _ & Hflags) Hpos Hk.
  now apply flag_is_1_testbit.
Qed.

(** What [check] does on a snapshot, by cases. *)
Lemma check_snapshot self hold loaded fuel flags :
  is_snapshot loaded fuel flags -> 0 <= flags ->
  let fires := num_lt fuel (jump_fuel self) && Z.testbit flags 18
               && Z.testbit flags 4 && negb hold && alert self in
  (fires = true -> check self hold loaded = Ok (true, [alert_signal])) /\
  (fires = false ->
   check self hold loaded = Raise IndexError \/
   check self hold loaded =
     Ok (if num_gt fuel (jump_fuel self) then false else hold, [])) /\
  (hold = true ->
   check self hold loaded =
     Ok (if num_gt fuel (jump_fuel self) then false else hold, [])) /\
  (num_gt fuel (jump_fuel self) = true ->
   check self hold loaded = Ok (false, [])).
Proof.
  intros Hs Hpos fires. subst fires.
  pose proof (snapshot_fuel_main _ _ _ Hs) as Hfm.
  pose proof (snapshot_flag _ _ _ 19 Hs Hpos ltac:(lia)) as H19.
  pose proof (snapshot_flag _ _ _ 5 Hs Hpos ltac:(lia)) as H5.
  change (- Z.of_nat 19) with (-19) in H19.
  change (Z.of_nat (19 - 1)) with 18 in H19.
  change (- Z.of_nat 5) with (-5) in H5.
  change (Z.of_nat (5 - 1)) with 4 in H5.
  unfold check, and_then. rewrite Hfm. cbn [result_bind].
  pose proof (num_lt_asym fuel (jump_fuel self)) as Hasym.
  unfold num_gt.
  destruct (flag_is_1 loaded (-19)) as [b19|e19];
    [subst b19 | destruct H19 as [-> E18]; rewrite E18];
    (destruct (flag_is_1 loaded (-5)) as [b5|e5];
     [subst b5 | destruct H5 as [-> E4]; rewrite E4]);
    (destruct (num_lt fuel (jump_fuel self)) eqn:Elt;
     [rewrite (Hasym eq_refl) | destruct (num_lt (jump_fuel self) fuel)]);
    destruct hold;
    try destruct (Z.testbit flags 18);
    try destruct (Z.testbit flags 4);
    destruct (alert self);
    cbn [result_bind andb negb];
    repeat split; intros; try discriminate; auto.
Qed.

(** One well-formed snapshot.  The alert fires exactly when the fuel is
    below the threshold, bits 18 (FSD cooldown) and 4 (supercruise) of the
    flags are set, [hold] is false and the alert is armed; firing sets
    [hold]; while [hold] is set nothing fires; a snapshot with the fuel above
    the threshold clears [hold]; and the threshold is
    [max_fuel * modifier / 100].  A snapshot that does not fire can raise
    [IndexError] instead of being passed over. *)
Lemma fuel_alert_fires_exactly_when self hold line loaded fuel flags :
  (0 < String.length line)%nat ->
  json_loads line = Some loaded ->
  is_snapshot loaded fuel flags ->
  0 <= flags ->
  let fires := num_lt fuel (jump_fuel self) && Z.testbit flags 18
               && Z.testbit flags 4 && negb hold && alert self in
  (fires = true -> on_line self hold line = Ok (true, [alert_signal])) /\
  (fires = false ->
   on_line self hold line = Raise IndexError \/
   exists hold', on_line self hold line = Ok (hold', [])) /\
  (hold = true -> exists hold', on_line self hold line = Ok (hold', [])) /\
  (hold = true -> num_gt fuel (jump_fuel self) = false ->
   on_line self hold line = Ok (true, [])) /\
  (num_gt fuel (jump_fuel self) = true ->
   on_line self hold line = Ok (false, [])) /\
  (forall modifier self',
     set_jump_fuel self modifier = Ok self' ->
     exists product,
       num_mul (max_fuel self) modifier = Ok product /\
       num_truediv product (PInt 100) = Ok (jump_fuel self')).
Proof.
  intros Hlen Hloads Hs Hpos fires.
  destruct (check_snapshot self hold loaded fuel flags Hs Hpos)
    as (Hfire & Hquiet & Hheld & Habove).
  assert (Hline : on_line self hold line =
                  except_KeyError (check self hold loaded) (hold, [])).
  { unfold on_line. apply Nat.ltb_lt in Hlen. rewrite Hlen, Hloads.
    reflexivity. }
  rewrite Hline. repeat split.
  - intros Hf. now rewrite (Hfire Hf).
  - intros Hf. destruct (Hquiet Hf) as [-> | ->]; [now left | right].
    eexists. reflexivity.
  - intros Hh. rewrite (Hheld Hh). eexists. reflexivity.
  - intros Hh Hgt. rewrite (Hheld Hh), Hgt, Hh. reflexivity.
  - intros Hgt. now rewrite (Habove Hgt).
  - intros modifier self' Hset. unfold set_jump_fuel, threshold in Hset.
    destruct (num_mul (max_fuel self) modifier) as [product|e];
      [|discriminate].
    cbn [result_bind] in Hset. exists product. split; [reflexivity|].
    destruct (num_truediv product (PInt 100)) as [jf|e]; [|discriminate].
    cbn [result_bind] in Hset. injection Hset as <-. reflexivity.
Qed.

(** When that happens.  A snapshot with the fuel below the threshold, read
    while [hold] is false, whose flags are below [2^18]: the rendering of
    the flags has fewer than 19 digits, the read of the nineteenth from the
    end raises [IndexError], which [except KeyError] does not catch, and
    the loop is left, whether the alert is armed or not. *)
Lemma below_threshold_short_flags_raise self line loaded fuel flags :
  (0 < String.length line)%nat ->
  json_loads line = Some loaded ->
  is_snapshot loaded fuel flags ->
  0 <= flags < 2 ^ 18 ->
  num_lt fuel (jump_fuel self) = true ->
  on_line self false line = Raise IndexError /\
  forall rest, run self false (poll line :: rest) = Raise IndexError.
Proof.
  intros Hlen Hloads Hs Hflags Hlow.
  assert (Hline : on_line self false line = Raise IndexError).
  { unfold on_line. apply Nat.ltb_lt in Hlen. rewrite Hlen, Hloads.
    pose proof (snapshot_fuel_main _ _ _ Hs) as Hfm.
    destruct Hs as (fields & ffields & fv & -> & _ & _ & _ & Hf).
    unfold check, and_then. rewrite Hfm. cbn [result_bind]. rewrite Hlow.
    cbn [result_bind negb].
    change (-19) with (- Z.of_nat 19).
    rewrite (short_flags_have_no_digit fields flags 18 Hf) by (cbn; lia).
    reflexivity. }
  split; [exact Hline|].
  intros rest. cbn [run]. rewrite Hline. reflexivity.
Qed.

End FuelClaims.

(** ** Decoding failures *)

Section DecodingClaims.
Context `{PyStr} `{PyJson}.

(** C4, as the code has it.  The fuel alert ignores a snapshot that has no
    fuel record or no main-tank amount in it: nothing is raised, no alert is
    emitted, [hold] keeps its value and the run goes on with the next input.
    A snapshot that has its fuel but no flags raises nothing and emits no
    alert.  A line that is not JSON raises out of both workers, and the
    route worker raises on a record without an event kind and on a jump
    record without a system name. *)
Theorem missing_fuel_fields_ignored :
  (forall self hold line fields,
     (0 < String.length line)%nat ->
     json_loads line = Some (JObj fields) ->
     (dict_get fields "Fuel" = None \/
      exists ffields, dict_get fields "Fuel" = Some (JObj ffields) /\
                      dict_get ffields "FuelMain" = None) ->
     FuelAlert.on_line self hold line = Ok (hold, []) /\
     forall rest,
       FuelAlert.run self hold (FuelAlert.poll line :: rest) =
       FuelAlert.run self hold rest) /\
  (forall self hold line fields ffields fv fuel,
     (0 < String.length line)%nat ->
     json_loads line = Some (JObj fields) ->
     dict_get fields "Fuel" = Some (JObj ffields) ->
     dict_get ffields "FuelMain" = Some fv ->
     json_num fv = Ok fuel ->
     dict_get fields "Flags" = None ->
     exists hold', FuelAlert.on_line self hold line = Ok (hold', [])) /\
  (forall line,
     json_loads line = None ->
     (forall self hold,
        (0 < String.length line)%nat ->
        FuelAlert.on_line self hold line = Raise JSONDecodeError) /\
     (forall worker,
        AhkWorker.on_line line worker = (worker, [], Raise JSONDecodeError))) /\
  (forall line fields worker,
     json_loads line = Some (JObj fields) ->
     (dict_get fields "event" = None ->
      AhkWorker.on_line line worker =
        (worker, [], Raise (KeyError (JStr "event")))) /\
     (dict_get fields "event" = Some (JStr "FSDJump") ->
      dict_get fields "StarSystem" = None ->
      AhkWorker.on_line line worker =
        (worker, [], Raise (KeyError (JStr "StarSystem"))))).
Proof.
  split; [|split; [|split]].
  - intros self hold line fields Hlen Hloads Hmissing.
    assert (Hline : FuelAlert.on_line self hold line = Ok (hold, [])).
    { unfold FuelAlert.on_line. apply Nat.ltb_lt in Hlen.
      rewrite Hlen, Hloads.
      unfold FuelAlert.check, FuelAlert.and_then, FuelAlert.fuel_main,
        json_getitem.
      destruct Hmissing as [Hf | [ffields [Hf Hm]]]; rewrite Hf;
        cbn [result_bind].
      - reflexivity.
      - rewrite Hm. reflexivity. }
    split; [exact Hline|].
    intros rest. cbn [FuelAlert.run]. rewrite Hline. cbn [result_bind fst snd].
    destruct (FuelAlert.run self hold rest) as [[[s h] o]|e]; reflexivity.
  - intros self hold line fields ffields fv fuel Hlen Hloads Hf Hm Hn Hflags.
    unfold FuelAlert.on_line. apply Nat.ltb_lt in Hlen.
    rewrite Hlen, Hloads.
    unfold FuelAlert.check, FuelAlert.and_then, FuelAlert.fuel_main,
      FuelAlert.flag_is_1, json_getitem.
    rewrite Hf. cbn [result_bind]. rewrite Hm. cbn [result_bind].
    rewrite Hn. cbn [result_bind].
    rewrite Hflags.
    destruct (num_lt fuel (FuelAlert.jump_fuel self)), hold; cbn;
      try (eexists; reflexivity);
      destruct (num_gt fuel (FuelAlert.jump_fuel self));
      eexists; reflexivity.
  - intros line Hloads. split.
    + intros self hold Hlen. unfold FuelAlert.on_line.
      apply Nat.ltb_lt in Hlen. now rewrite Hlen, Hloads.
    + intros worker. unfold AhkWorker.on_line. now rewrite Hloads.
  - intros line fields worker Hloads. split.
    + intros Hev. unfold AhkWorker.on_line. rewrite Hloads.
      unfold AhkWorker.on_loaded, AhkWorker.jump_matches, AhkWorker.bindM,
        AhkWorker.lift, json_getitem.
      now rewrite Hev.
    + intros Hev Hsys. unfold AhkWorker.on_line. rewrite Hloads.
      unfold AhkWorker.on_loaded, AhkWorker.jump_matches, AhkWorker.bindM,
        AhkWorker.lift, json_getitem.
      rewrite Hev, Hsys. reflexivity.
Qed.

End DecodingClaims.

(** ** The fuel alert and decoding failures on concrete lines *)

Section FuelExamples.
Import FuelAlert Examples.
Existing Instance ascii_str.
Existing Instance table_json.

(** The example alert is what [__init__] and [change_alert] build. *)
Example fuel_alert_init :
  __init__ (PInt 32) "Status.json" (PInt 25) = Ok fuel_alert.
Proof. vm_compute. reflexivity. Qed.

Lemma fuel_alert_fires_exactly_when_witness :
  on_line armed false (status_line "262160" "2.5") = Ok (true, [alert_signal]).
Proof.
  assert (Hlen : (0 < String.length (status_line "262160" "2.5"))%nat)
    by (vm_compute; lia).
  assert (Hloads : json_loads (status_line "262160" "2.5") =
                   Some (status 262160 2.5)) by (vm_compute; reflexivity).
  assert (Hs : is_snapshot (status 262160 2.5) (PFloat 2.5) 262160).
  { exists [("Flags", JInt 262160); ("Fuel", JObj [("FuelMain", JFloat 2.5)])],
      [("FuelMain", JFloat 2.5)], (JFloat 2.5).
    repeat split; reflexivity. }
  assert (Hpos : 0 <= 262160) by lia.
  apply (proj1 (fuel_alert_fires_exactly_when armed false
                  (status_line "262160" "2.5") (status 262160 2.5)
                  (PFloat 2.5) 262160 Hlen Hloads Hs Hpos)).
  vm_compute. reflexivity.
Defined.

(** Scenario D: armed, cooldown and supercruise set.  The first snapshot
    below the threshold fires, the second does not, a snapshot above the
    threshold clears [hold], and the next one below fires again. *)
Example scenario_D :
  main fuel_alert
    [ next_jump true;
      poll (status_line "262160" "2.5");
      poll (status_line "262160" "2.5");
      poll (status_line "262160" "16.0");
      poll (status_line "262160" "2.5") ]
  = Ok (armed, true, [alert_signal; alert_signal]).
Proof. vm_compute. reflexivity. Qed.

(** With only the supercruise bit set the rendering of the flags has five
    digits, and reading the nineteenth from the end raises. *)
Example short_flags_raise :
  on_line armed false (status_line "16" "2.5") = Raise IndexError.
Proof. vm_compute. reflexivity. Qed.

(** C5.  A snapshot sequence on which the alert does not fire although the
    claim says it does.  The alert is armed, [hold] is false and the fuel,
    2.5 t, is below the threshold of 8 t.  The snapshot with FSD cooldown
    and supercruise set fires when it is the one read.  Read after a
    snapshot in supercruise alone (flags 16, rendered ["10000"]), it is
    never reached: the first snapshot, which should only be passed over,
    raises [IndexError] out of [main], and no alert is emitted. *)
Theorem short_flags_end_the_fuel_alert :
  main armed [poll (status_line "262160" "2.5")] =
    Ok (armed, true, [alert_signal]) /\
  on_line armed false (status_line "16" "2.5") = Raise IndexError /\
  main armed [poll (status_line "16" "2.5");
              poll (status_line "262160" "2.5")] = Raise IndexError.
Proof.
  split; [|split]; vm_compute; reflexivity.
Qed.

(** The same on every alert and every snapshot of that kind. *)
Lemma short_flags_raise_witness :
  on_line fuel_alert false (status_line "16" "2.5") = Raise IndexError /\
  forall rest,
    run fuel_alert false (poll (status_line "16" "2.5") :: rest) =
    Raise IndexError.
Proof.
  apply (below_threshold_short_flags_raise fuel_alert
           (status_line "16" "2.5") (status 16 2.5) (PFloat 2.5) 16).
  - vm_compute. lia.
  - vm_compute. reflexivity.
  - exists [("Flags", JInt 16); ("Fuel", JObj [("FuelMain", JFloat 2.5)])],
      [("FuelMain", JFloat 2.5)], (JFloat 2.5).
    repeat split; reflexivity.
  - cbn. lia.
  - vm_compute. reflexivity.
Defined.

(** Against C4 as stated: a jump record without a system name raises out of
    the route worker; the line is not skipped and the valid jump behind it
    is never read. *)
Lemma jump_without_system_raises :
  AhkWorker.main_loop [jump_without_system_line; jump_line "sirius"]
    (worker route 0) =
    (worker route 0, [], Raise (KeyError (JStr "StarSystem"))).
Proof. vm_compute. reflexivity. Qed.

Lemma missing_fuel_fields_ignored_witness :
  on_line armed false status_without_fuel_line = Ok (false, []).
Proof.
  assert (Hlen : (0 < String.length status_without_fuel_line)%nat)
    by (vm_compute; lia).
  assert (Hloads : json_loads status_without_fuel_line =
                   Some (JObj [("Flags", JInt 262160)]))
    by (vm_compute; reflexivity).
  assert (Hmissing :
            dict_get [("Flags", JInt 262160)] "Fuel" = None \/
            exists ffields,
              dict_get [("Flags", JInt 262160)] "Fuel" = Some (JObj ffields) /\
              dict_get ffields "FuelMain" = None)
    by (left; reflexivity).
  exact (proj1 (proj1 missing_fuel_fields_ignored armed false
                  status_without_fuel_line _ Hlen Hloads Hmissing)).
Defined.

End FuelExamples.

(** ** The re-poll delay *)

Section Delay.
Import SpanshPlot.



Lemma delay_agrees_first_1000 : forallb delay_agrees (seq 0 1000) = true.
Proof. vm_compute. reflexivity. Qed.




(** The delays of the first eighteen queued responses, as listed in the
    comment of the source. *)
Example first_delays :
  map delay (seq 0 18) =
  map Ok [1; 1; 2; 2; 3; 4; 6; 7; 9; 12; 15; 17; 20; 24; 27; 30; 30; 30].
Proof. vm_compute. reflexivity. Qed.

End Delay.

(** ** Route rows *)

Section Rows.
Import RoutePlots.
Context `{PyConv}.

(** A neutron row comes back from its csv row with its distances rounded
    and every other field as it was. *)
Lemma neutron_round_trip (r : NeutronPlotRow.t) :
  NeutronPlotRow.from_csv_row (NeutronPlotRow.to_csv r) =
  Ok {| NeutronPlotRow.system := NeutronPlotRow.system r;
        NeutronPlotRow.dist_to_arrival :=
          round2 (NeutronPlotRow.dist_to_arrival r);
        NeutronPlotRow.dist_rem := round2 (NeutronPlotRow.dist_rem r);
        NeutronPlotRow.jumps := NeutronPlotRow.jumps r |}.
Proof. reflexivity. Qed.

(** An exact row comes back with its distances rounded, and with its
    neutron-star flag replaced by its refuel flag. *)
Lemma exact_round_trip (r : ExactPlotRow.t) :
  ExactPlotRow.from_csv_row (ExactPlotRow.to_csv r) =
  Ok {| ExactPlotRow.system := ExactPlotRow.system r;
        ExactPlotRow.dist := round2 (ExactPlotRow.dist r);
        ExactPlotRow.dist_rem := round2 (ExactPlotRow.dist_rem r);
        ExactPlotRow.refuel := ExactPlotRow.refuel r;
        ExactPlotRow.neutron_star := ExactPlotRow.refuel r |}.
Proof.
  unfold ExactPlotRow.from_csv_row, ExactPlotRow.to_csv. cbn.
  destruct (ExactPlotRow.refuel r); reflexivity.
Qed.

(** C3.  An exact row for a neutron star at which no refuelling is needed
    comes back from its own csv row without the neutron star: [to_csv]
    writes the refuel flag into both of the last two columns. *)
Theorem exact_row_loses_neutron_star (d dr : float) :
  let r := {| ExactPlotRow.system := "Sol";
              ExactPlotRow.dist := d;
              ExactPlotRow.dist_rem := dr;
              ExactPlotRow.refuel := false;
              ExactPlotRow.neutron_star := true |} in
  ExactPlotRow.to_csv r =
    [JStr "Sol"; JFloat d; JFloat dr; JStr EmptyString; JStr EmptyString;
     JStr "No"; JStr "No"] /\
  ExactPlotRow.from_csv_row (ExactPlotRow.to_csv r) =
    Ok {| ExactPlotRow.system := "Sol";
          ExactPlotRow.dist := round2 d;
          ExactPlotRow.dist_rem := round2 dr;
          ExactPlotRow.refuel := false;
          ExactPlotRow.neutron_star := false |}.
Proof. split; reflexivity. Qed.

End Rows.

(** ** The Spansh job callback *)

Section JobCallback.
Import Network SpanshJob.
Context `{PyJson} `{PyShow}.
Context {route : Type} (result_decode_func : json -> result route).

(** C9.  For a failed request whose body carries the service's error
    message, the text handed to the error callback is that message behind a
    fixed prefix, whatever the transport message is; the transport message
    is handed over when the body is empty or its error entry is null. *)
Theorem service_error_preferred (r : reply) (delay_iterator : list pynum) :
  no_error r = false ->
  (forall fields message,
     (0 < String.length (data r))%nat ->
     json_loads (data r) = Some (JObj fields) ->
     dict_get fields "error" = Some (JStr message) ->
     _spansh_job_callback result_decode_func r delay_iterator =
       (delay_iterator,
        error_callback ("Received error from Spansh: " ++ message)%string)) /\
  (data r = EmptyString \/
   (exists fields,
      json_loads (data r) = Some (JObj fields) /\
      dict_get fields "error" = Some JNull) ->
   _spansh_job_callback result_decode_func r delay_iterator =
     (delay_iterator, error_callback (error_string r))).
Proof.
  intros Herr. split.
  - intros fields message Hlen Hloads Hmsg.
    unfold _spansh_job_callback, try_body, json_from_network_req, loads.
    apply Nat.ltb_lt in Hlen. rewrite Herr, Hlen, Hloads.
    cbn [result_bind]. unfold json_getitem. rewrite Hmsg. reflexivity.
  - intros Hnone.
    unfold _spansh_job_callback, try_body, json_from_network_req, loads.
    rewrite Herr.
    destruct Hnone as [Hempty | [fields [Hloads Hnull]]].
    + rewrite Hempty. reflexivity.
    + rewrite Hloads. cbn [result_bind]. unfold json_getitem. rewrite Hnull.
      destruct (0 <? String.length (data r))%nat; reflexivity.
Qed.

End JobCallback.

Section JobCallbackExamples.
Import Network SpanshJob Examples.
Existing Instance table_json.
Existing Instance plain_show.

Lemma service_error_preferred_witness :
  _spansh_job_callback (fun _ => Ok tt) failed_reply [PInt 1] =
    ([PInt 1],
     error_callback
       "Received error from Spansh: Could not find starting system") /\
  _spansh_job_callback (fun _ => Ok tt) empty_reply [PInt 1] =
    ([PInt 1], error_callback "Host spansh.co.uk not found").
Proof.
  split.
  - assert (Herr : no_error failed_reply = false) by reflexivity.
    assert (Hlen : (0 < String.length (data failed_reply))%nat)
      by (vm_compute; lia).
    assert (Hloads : json_loads (data failed_reply) =
              Some (JObj [("error", JStr "Could not find starting system")]))
      by (vm_compute; reflexivity).
    assert (Hmsg : dict_get [("error", JStr "Could not find starting system")]
                     "error" = Some (JStr "Could not find starting system"))
      by reflexivity.
    exact (proj1 (service_error_preferred (fun _ => Ok tt) failed_reply
                    [PInt 1] Herr) _ _ Hlen Hloads Hmsg).
  - assert (Herr : no_error empty_reply = false) by reflexivity.
    exact (proj2 (service_error_preferred (fun _ => Ok tt) empty_reply
                    [PInt 1] Herr) (or_introl eq_refl)).
Defined.

End JobCallbackExamples.

(** * Further properties of the modelled code *)

(** ** Indexing and item assignment *)

Lemma getitem_in_range {A} (l : list A) i :
  0 <= i < len l ->
  exists a, getitem l i = Ok a /\ nth_error l (Z.to_nat i) = Some a.
Proof.
  intros Hi. unfold getitem.
  destruct (i <? 0) eqn:E; [apply Z.ltb_lt in E; lia|].
  replace ((0 <=? i) && (i <? len l)) with true
    by (symmetry; apply andb_true_iff; split;
        [apply Z.leb_le | apply Z.ltb_lt]; lia).
  destruct (nth_error l (Z.to_nat i)) as [a|] eqn:En.
  - exists a. auto.
  - apply nth_error_None in En. unfold len in Hi. lia.
Qed.

Lemma getitem_out_of_range {A} (l : list A) i :
  i < - len l \/ len l <= i -> getitem l i = Raise IndexError.
Proof.
  intros Hi. unfold getitem. pose proof (len_nonneg l) as Hl.
  destruct (i <? 0) eqn:E.
  - apply Z.ltb_lt in E.
    replace (0 <=? i + len l) with false
      by (symmetry; apply Z.leb_gt; lia).
    reflexivity.
  - apply Z.ltb_ge in E.
    replace (i <? len l) with false by (symmetry; apply Z.ltb_ge; lia).
    now rewrite andb_false_r.
Qed.

Lemma setitem_out_of_range {A} (l : list A) i x :
  i < - len l \/ len l <= i -> setitem l i x = Raise IndexError.
Proof.
  intros Hi. unfold setitem. pose proof (len_nonneg l) as Hl.
  destruct (i <? 0) eqn:E.
  - apply Z.ltb_lt in E.
    replace (0 <=? i + len l) with false
      by (symmetry; apply Z.leb_gt; lia).
    reflexivity.
  - apply Z.ltb_ge in E.
    replace (i <? len l) with false by (symmetry; apply Z.ltb_ge; lia).
    now rewrite andb_false_r.
Qed.

Lemma len_map {A B} (f : A -> B) (l : list A) : len (map f l) = len l.
Proof. unfold len. now rewrite length_map. Qed.

(** Assigning through a map: the mapped list is assigned the mapped value
    at the same place, and fails at the same places. *)
Lemma setitem_map {A B} (f : A -> B) (l : list A) i x :
  setitem (map f l) i (f x) =
  match setitem l i x with
  | Ok l' => Ok (map f l')
  | Raise e => Raise e
  end.
Proof.
  unfold setitem. rewrite len_map.
  destruct ((0 <=? (if i <? 0 then i + len l else i)) &&
            ((if i <? 0 then i + len l else i) <? len l)); [|reflexivity].
  now rewrite map_app, firstn_map, map_cons, skipn_map.
Qed.

(** Assignment in range changes the one place and keeps the length. *)
Lemma setitem_in_range {A} (l : list A) i x :
  0 <= i < len l ->
  exists l',
    setitem l i x = Ok l' /\
    len l' = len l /\
    nth_error l' (Z.to_nat i) = Some x /\
    forall n, n <> Z.to_nat i -> nth_error l' n = nth_error l n.
Proof.
  intros Hi. unfold setitem.
  destruct (i <? 0) eqn:E; [apply Z.ltb_lt in E; lia|].
  replace ((0 <=? i) && (i <? len l)) with true
    by (symmetry; apply andb_true_iff; split;
        [apply Z.leb_le | apply Z.ltb_lt]; lia).
  eexists. split; [reflexivity|].
  unfold len in *.
  assert (Hn : (Z.to_nat i < List.length l)%nat) by lia.
  assert (Hf : List.length (firstn (Z.to_nat i) l) = Z.to_nat i)
    by (rewrite length_firstn; lia).
  split; [|split].
  - rewrite length_app, Hf. cbn [List.length]. rewrite length_skipn. lia.
  - rewrite nth_error_app2 by lia. rewrite Hf, Nat.sub_diag. reflexivity.
  - intros n Hne.
    destruct (Nat.lt_ge_cases n (Z.to_nat i)) as [Hlt|Hge].
    + rewrite nth_error_app1 by lia. rewrite nth_error_firstn.
      apply Nat.ltb_lt in Hlt. now rewrite Hlt.
    + rewrite nth_error_app2 by lia. rewrite Hf.
      destruct (n - Z.to_nat i)%nat as [|m] eqn:Em; [lia|].
      cbn [nth_error]. rewrite nth_error_skipn. f_equal. lia.
Qed.

(** ** The route tracker: one line, case by case *)

Section TrackerSteps.
Import AhkWorker.
Context `{PyStr} `{PyJson}.

(** The loop body on a decoded record, with the position [index] found. *)
Lemma on_loaded_cases loaded self :
  (exists e, on_loaded loaded self = (self, [], Raise e)) \/
  on_loaded loaded self = (self, [], Ok Continue) \/
  on_loaded loaded self =
    (self, [game_shut_signal (data_values self) (list_index self);
            hotkey_stop], Ok Break) \/
  exists i name,
    In name (slice_from (systems self) (list_index self)) /\
    index (systems self) name = Ok i /\
    0 <= i < len (systems self) /\
    on_loaded loaded self =
      if i + 1 =? len (data_values self) then
        (with_list_index self (i + 1),
         [hotkey_stop; route_finished_signal], Ok Break)
      else
        match getitem (systems self) (i + 1) with
        | Ok target =>
            (with_list_index self (i + 1),
             push_effects self target ++ [sys_signal (i + 1) (dark self)],
             Ok Continue)
        | Raise e =>
            (with_list_index self (i + 1),
             if copy self then [] else [hotkey_stop], Raise e)
        end.
Proof.
  destruct (json_getitem loaded "event") as [event|e] eqn:Hev.
  - destruct (json_eq_str event "FSDJump") eqn:Hj.
    + destruct loaded; try discriminate.
      unfold json_getitem in Hev.
      destruct (dict_get fields "event") as [ev|] eqn:Hd; [|discriminate].
      injection Hev as ->.
      destruct event; try discriminate. cbn in Hj.
      apply String.eqb_eq in Hj. subst s.
      destruct (dict_get fields "StarSystem") as [star|] eqn:Hs.
      * destruct star;
          try (left; eexists;
               unfold on_loaded, jump_matches, bindM, lift, get, ret,
                 json_getitem; rewrite Hd, Hs; cbn; reflexivity).
        rewrite (on_loaded_jump self fields s Hd Hs).
        destruct (contains _ _) eqn:Hc; [|right; left; reflexivity].
        apply contains_In in Hc.
        destruct (index_In _ _ (slice_from_incl _ _ _ Hc)) as [i [Hi Hr]].
        rewrite Hi. right. right. right. exists i, (casefold s).
        split; [assumption|]. split; [assumption|]. split; [assumption|].
        reflexivity.
      * left. eexists.
        unfold on_loaded, jump_matches, bindM, lift, get, ret, json_getitem.
        rewrite Hd, Hs. cbn. reflexivity.
    + rewrite (on_loaded_other self loaded event Hev Hj).
      destruct (json_eq_str event "Loadout"); [right; left; reflexivity|].
      destruct (json_eq_str event "Shutdown"); auto.
  - left. exists e. unfold on_loaded, jump_matches, bindM, lift.
    rewrite Hev. reflexivity.
Qed.

Lemma on_line_cases line self :
  (exists e, on_line line self = (self, [], Raise e)) \/
  on_line line self = (self, [], Ok Continue) \/
  on_line line self =
    (self, [game_shut_signal (data_values self) (list_index self);
            hotkey_stop], Ok Break) \/
  exists i name,
    In name (slice_from (systems self) (list_index self)) /\
    index (systems self) name = Ok i /\
    0 <= i < len (systems self) /\
    on_line line self =
      if i + 1 =? len (data_values self) then
        (with_list_index self (i + 1),
         [hotkey_stop; route_finished_signal], Ok Break)
      else
        match getitem (systems self) (i + 1) with
        | Ok target =>
            (with_list_index self (i + 1),
             push_effects self target ++ [sys_signal (i + 1) (dark self)],
             Ok Continue)
        | Raise e =>
            (with_list_index self (i + 1),
             if copy self then [] else [hotkey_stop], Raise e)
        end.
Proof.
  unfold on_line. destruct (json_loads line).
  - apply on_loaded_cases.
  - left. eexists. reflexivity.
Qed.

(** The state after one line: the worker as it was, or with the index moved
    to one past a position of the route. *)
Lemma on_line_state line self :
  fst (fst (on_line line self)) = self \/
  exists i, 0 <= i < len (systems self) /\
    fst (fst (on_line line self)) = with_list_index self (i + 1).
Proof.
  destruct (on_line_cases line self)
    as [[e ->]|[->|[->|[i [name [_ [_ [Hi ->]]]]]]]]; auto.
  right. exists i. split; [assumption|].
  destruct (i + 1 =? _); [reflexivity|].
  destruct (getitem _ _); reflexivity.
Qed.

(** One step of the loop. *)
Lemma main_loop_cons line rest self :
  main_loop (line :: rest) self =
    let '(s1, o1, r) := on_line line self in
    match r with
    | Ok Continue =>
        let '(s2, o2, r2) := main_loop rest s1 in (s2, o1 ++ o2, r2)
    | Ok Break => (s1, o1, Ok Break)
    | Raise e => (s1, o1, Raise e)
    end.
Proof.
  cbn [main_loop]. unfold bindM.
  destruct (on_line line self) as [[s1 o1] [[|]|e]]; try reflexivity.
  unfold ret. now rewrite app_nil_r.
Qed.

End TrackerSteps.

(** ** The route tracker: what a run of the loop keeps *)

Section TrackerRuns.
Import AhkWorker.
Context `{PyStr} `{PyJson}.

Lemma with_list_index_same self : with_list_index self (list_index self) = self.
Proof. destruct self. reflexivity. Qed.

(** X1.  A jump record never raises when the worker holds as many names as
    rows: the name looked up was just found in the route, and the push that
    follows reads a position below the route length. *)
Theorem jump_record_never_raises self loaded name :
  is_jump loaded name ->
  len (systems self) = len (data_values self) ->
  exists c, snd (on_loaded loaded self) = Ok c.
Proof.
  intros Hj Hlen. destruct (is_jump_fields _ _ Hj) as [fields [-> [Hev Hsys]]].
  rewrite (on_loaded_jump self fields name Hev Hsys).
  destruct (contains _ _) eqn:Hc; [|eexists; reflexivity].
  apply contains_In in Hc.
  destruct (index_In _ _ (slice_from_incl _ _ _ Hc)) as [i [Hi Hr]].
  rewrite Hi. cbn zeta.
  destruct (i + 1 =? len (data_values self)) eqn:E; [eexists; reflexivity|].
  apply Z.eqb_neq in E.
  destruct (getitem_in_range (systems self) (i + 1)) as [a [Ha _]]; [lia|].
  rewrite Ha. eexists; reflexivity.
Qed.

(** A line that raises has changed nothing and done nothing. *)
Lemma failed_line_changes_nothing line self self' out e :
  len (systems self) = len (data_values self) ->
  on_line line self = (self', out, Raise e) ->
  self' = self /\ out = [].
Proof.
  intros Hlen Hrun.
  destruct (on_line_cases line self)
    as [[e' Hc]|[Hc|[Hc|[i [name [_ [_ [Hi Hc]]]]]]]];
    rewrite Hc in Hrun; try discriminate.
  - injection Hrun as <- <- _. auto.
  - destruct (i + 1 =? len (data_values self)) eqn:E; [discriminate|].
    apply Z.eqb_neq in E.
    destruct (getitem_in_range (systems self) (i + 1)) as [a [Ha _]]; [lia|].
    rewrite Ha in Hrun. discriminate.
Qed.

(** The loop writes no field of the worker but the index. *)
Lemma main_loop_state lines : forall self,
  exists k,
    fst (fst (main_loop lines self)) = with_list_index self k /\
    (k = list_index self \/ 1 <= k <= len (systems self)).
Proof.
  induction lines as [|line rest IH]; intros self.
  - exists (list_index self). cbn. rewrite with_list_index_same. auto.
  - rewrite main_loop_cons.
    destruct (on_line_state line self) as [Hs|[i [Hi Hs]]];
      destruct (on_line line self) as [[s1 o1] r]; cbn [fst] in Hs; subst s1.
    + destruct r as [[|]|e].
      * destruct (IH self) as [k [Hk Hr]].
        destruct (main_loop rest self) as [[s2 o2] r2]. exists k. auto.
      * exists (list_index self). cbn. rewrite with_list_index_same. auto.
      * exists (list_index self). cbn. rewrite with_list_index_same. auto.
    + destruct r as [[|]|e]; try (exists (i + 1); split; [reflexivity|lia]).
      destruct (IH (with_list_index self (i + 1))) as [k [Hk Hr]].
      destruct (main_loop rest _) as [[s2 o2] r2]. exists k.
      cbn [fst] in *. split; [exact Hk|].
      cbn in Hr. destruct Hr as [->|Hr]; [right; lia | right; exact Hr].
Qed.

(** X2.  Whatever lines the journal yields, the loop changes nothing of the
    worker but the index (route, names, settings and mode stay), and the
    index it ends on is the one it started with or lies between 1 and the
    number of names. *)
Theorem journal_moves_only_the_index lines self :
  fst (fst (main_loop lines self)) =
    with_list_index self (list_index (fst (fst (main_loop lines self)))) /\
  (list_index (fst (fst (main_loop lines self))) = list_index self \/
   1 <= list_index (fst (fst (main_loop lines self))) <= len (systems self)).
Proof.
  destruct (main_loop_state lines self) as [k [-> Hk]]. cbn. auto.
Qed.

(** X3.  A run that ends in an exception stopped at the line that raised:
    the state and the effects are those of the lines before it, that line
    itself changed nothing, and nothing after it was read. *)
Theorem run_stops_at_the_failing_line lines : forall self self' out e,
  len (systems self) = len (data_values self) ->
  main_loop lines self = (self', out, Raise e) ->
  exists pre line post,
    lines = pre ++ line :: post /\
    main_loop pre self = (self', out, Ok Continue) /\
    on_line line self' = (self', [], Raise e).
Proof.
  induction lines as [|line rest IH]; intros self self' out e Hlen Hrun.
  - discriminate.
  - rewrite main_loop_cons in Hrun.
    destruct (on_line line self) as [[s1 o1] r] eqn:Hline.
    destruct r as [[|]|e1].
    + destruct (main_loop rest s1) as [[s2 o2] r2] eqn:Hrest.
      injection Hrun as -> <- ->.
      assert (Hlen1 : len (systems s1) = len (data_values s1)).
      { destruct (on_line_state line self) as [Hs|[i [_ Hs]]];
          rewrite Hline in Hs; cbn [fst] in Hs; subst s1; exact Hlen. }
      destruct (IH s1 self' o2 e Hlen1 Hrest) as [pre [l [post [-> [Hp Hl]]]]].
      exists (line :: pre), l, post. split; [reflexivity|].
      split; [|exact Hl].
      rewrite main_loop_cons, Hline, Hp. reflexivity.
    + discriminate.
    + injection Hrun as -> <- ->.
      destruct (failed_line_changes_nothing _ _ _ _ _ Hlen Hline) as [-> ->].
      exists [], line, rest. split; [reflexivity|].
      split; [reflexivity | exact Hline].
Qed.

End TrackerRuns.

(** ** The route tracker: the slots *)

Section TrackerSlots.
Import AhkWorker.
Context `{PyStr} `{PyJson}.

Lemma copy_system_run s :
  copy_system s =
    match getitem (systems s) (list_index s) with
    | Ok target => (s, [set_clip target], Ok tt)
    | Raise e => (s, [], Raise e)
    end.
Proof.
  unfold copy_system, bindM, get, lift, emit. cbn.
  destruct (getitem _ _); reflexivity.
Qed.

Lemma start_hotkey_run s :
  start_hotkey s =
    match getitem (systems s) (list_index s) with
    | Ok target => (s, [hotkey_start (bind s) (script s) target], Ok tt)
    | Raise e => (s, [], Raise e)
    end.
Proof.
  unfold start_hotkey, bindM, get, lift, emit. cbn.
  destruct (getitem _ _); reflexivity.
Qed.

Lemma reset_ahk_run s :
  reset_ahk s =
    match getitem (systems s) (list_index s) with
    | Ok target =>
        (s, [hotkey_stop; hotkey_start (bind s) (script s) target], Ok tt)
    | Raise e => (s, [hotkey_stop], Raise e)
    end.
Proof.
  unfold reset_ahk, close_ahk, bindM, emit. rewrite start_hotkey_run.
  destruct (getitem _ _); reflexivity.
Qed.

(** The push of the current system, in either mode. *)
Lemma push_run s :
  (if copy s then copy_system else reset_ahk) s =
    match getitem (systems s) (list_index s) with
    | Ok target => (s, push_effects s target, Ok tt)
    | Raise e => (s, if copy s then [] else [hotkey_stop], Raise e)
    end.
Proof.
  unfold push_effects. destruct (copy s).
  - apply copy_system_run.
  - apply reset_ahk_run.
Qed.

Lemma scan_shutdown_state lines : forall b self,
  fst (fst (scan_shutdown lines b self)) = self.
Proof.
  induction lines as [|l rest IH]; intros b self; [reflexivity|].
  cbn [scan_shutdown]. destruct (json_loads l) as [j|]; [|reflexivity].
  unfold bindM at 1. unfold lift.
  destruct (json_getitem j "event") as [event|e]; [|reflexivity].
  destruct (json_eq_str event "Shutdown").
  - unfold bindM, get, emit. cbn.
    specialize (IH true self).
    destruct (scan_shutdown rest true self) as [[s o] r]. exact IH.
  - specialize (IH b self).
    destruct (scan_shutdown rest b self) as [[s o] r]. exact IH.
Qed.

Lemma main_route appended self :
  route_of (fst (fst (main appended self))) = route_of self.
Proof.
  unfold main, bindM at 1. unfold get.
  unfold bindM at 1.
  pose proof (scan_shutdown_state (journal self) false self) as Hs.
  destruct (scan_shutdown (journal self) false self) as [[s o] r].
  cbn [fst] in Hs. subst s.
  destruct r as [[|]|e]; try reflexivity.
  unfold bindM at 1.
  assert (Hp : (if copy self then copy_system else start_hotkey) self =
               match getitem (systems self) (list_index self) with
               | Ok target =>
                   (self, if copy self then [set_clip target]
                          else [hotkey_start (bind self) (script self) target],
                    Ok tt)
               | Raise e => (self, [], Raise e)
               end).
  { destruct (copy self);
      [rewrite copy_system_run | rewrite start_hotkey_run];
      destruct (getitem _ _); reflexivity. }
  rewrite Hp. destruct (getitem _ _) as [target|e]; [|reflexivity].
  unfold bindM, emit_sys_signal, get, emit, ret. cbn.
  destruct (main_loop_state appended self) as [k [Hk _]].
  destruct (main_loop appended self) as [[s2 o2] [c|e]];
    cbn [fst] in Hk; subst s2; reflexivity.
Qed.

Lemma set_index_route i self :
  route_of (fst (fst (set_index i self))) = route_of self.
Proof.
  unfold set_index, set_list_index, bindM at 1. unfold bindM at 1, get.
  unfold bindM at 1.
  change (bindM close_ahk (fun _ => start_hotkey)) with reset_ahk.
  rewrite push_run.
  destruct (getitem _ _); reflexivity.
Qed.

Lemma update_script_route tup self :
  route_of (fst (fst (update_script tup self))) = route_of self.
Proof.
  destruct tup as [[b s] d].
  unfold update_script, bindM at 1. unfold get. unfold bindM at 1.
  destruct (negb (String.eqb (bind self) b) || negb (String.eqb (script self) s)).
  - unfold bindM at 1. destruct (copy self); cbn [negb].
    + reflexivity.
    + rewrite reset_ahk_run. destruct (getitem _ _); reflexivity.
  - reflexivity.
Qed.

Lemma set_copy_route setting self :
  route_of (fst (fst (set_copy setting self))) = route_of self.
Proof.
  unfold set_copy, bindM at 1. unfold get.
  destruct (negb (Bool.eqb setting (copy self))); [|reflexivity].
  unfold bindM at 1. destruct setting.
  - unfold bindM at 1, close_ahk, emit. rewrite copy_system_run.
    destruct (getitem _ _); reflexivity.
  - rewrite reset_ahk_run. destruct (getitem _ _); reflexivity.
Qed.

(** [update_sys], spelled out for a worker whose names are those of its
    rows. *)
Lemma update_sys_folded self i new_sys :
  names_folded self ->
  update_sys i new_sys self =
    match getitem (data_values self) i with
    | Raise e => (self, [], Raise e)
    | Ok data =>
        match setitem (data_values self) i
                {| system := new_sys; columns := columns data |} with
        | Ok dv =>
            let self' :=
              with_route self dv
                (map (fun data => casefold (system data)) dv) in
            if list_index self =? i then
              (if copy self then copy_system else reset_ahk) self'
            else (self', [], Ok tt)
        | Raise e => (self, [], Raise e)
        end
    end.
Proof.
  intros Hn. unfold update_sys. rewrite Hn.
  destruct (getitem (data_values self) i) as [data|e]; [|reflexivity].
  change (casefold new_sys) with
    ((fun data => casefold (system data))
       {| system := new_sys; columns := columns data |}).
  rewrite setitem_map.
  destruct (setitem (data_values self) i _); reflexivity.
Qed.

(** X4.  The names the worker matches against are the casefolded names of
    its rows, in order: [__init__] makes it so, and every slot and the
    journal loop keep it so, also when they raise. *)
Theorem names_stay_folded self :
  names_folded self ->
  (forall journal data_values settings start_index,
      names_folded (__init__ journal data_values settings start_index)) /\
  (forall i new_sys, names_folded (fst (fst (update_sys i new_sys self)))) /\
  (forall appended, names_folded (fst (fst (main appended self)))) /\
  (forall lines, names_folded (fst (fst (main_loop lines self)))) /\
  (forall i, names_folded (fst (fst (set_index i self)))) /\
  (forall tup, names_folded (fst (fst (update_script tup self)))) /\
  (forall setting, names_folded (fst (fst (set_copy setting self)))) /\
  names_folded (fst (fst (quit_loop self))).
Proof.
  intros Hn.
  assert (Hroute : forall s, route_of s = route_of self -> names_folded s).
  { intros s Hs. unfold route_of in Hs. injection Hs as Hd Hs.
    unfold names_folded. now rewrite Hs, Hd. }
  split; [|split; [|split; [|split; [|split; [|split; [|split]]]]]].
  - intros j dv [[[scr key] drk] cpy] i. reflexivity.
  - intros i new_sys. rewrite (update_sys_folded self i new_sys Hn).
    destruct (getitem (data_values self) i) as [data|e]; [|exact Hn].
    destruct (setitem (data_values self) i _) as [dv|e]; [|exact Hn].
    cbn zeta. destruct (list_index self =? i); [|reflexivity].
    change (copy self) with
      (copy (with_route self dv (map (fun d => casefold (system d)) dv))).
    rewrite push_run. destruct (getitem _ _); reflexivity.
  - intros appended. apply Hroute, main_route.
  - intros lines. destruct (main_loop_state lines self) as [k [-> _]].
    exact Hn.
  - intros i. apply Hroute, set_index_route.
  - intros tup. apply Hroute, update_script_route.
  - intros setting. apply Hroute, set_copy_route.
  - exact Hn.
Qed.

(** [update_sys] at a position of the route. *)
Lemma update_sys_in_range self i new_sys :
  names_folded self ->
  0 <= i < len (data_values self) ->
  exists old dv,
    nth_error (data_values self) (Z.to_nat i) = Some old /\
    nth_error dv (Z.to_nat i) =
      Some {| system := new_sys; columns := columns old |} /\
    (forall n, n <> Z.to_nat i ->
               nth_error dv n = nth_error (data_values self) n) /\
    len dv = len (data_values self) /\
    update_sys i new_sys self =
      (with_route self dv (map (fun data => casefold (system data)) dv),
       (if list_index self =? i
        then push_effects self (casefold new_sys) else []),
       Ok tt).
Proof.
  intros Hn Hi. rewrite (update_sys_folded self i new_sys Hn).
  destruct (getitem_in_range (data_values self) i Hi) as [old [Hg Hold]].
  rewrite Hg.
  destruct (setitem_in_range (data_values self) i
              {| system := new_sys; columns := columns old |} Hi)
    as [dv [Hset [Hlen [Hnew Hrest]]]].
  rewrite Hset. exists old, dv.
  split; [exact Hold|]. split; [exact Hnew|]. split; [exact Hrest|].
  split; [exact Hlen|].
  cbn zeta. destruct (list_index self =? i) eqn:E; [|reflexivity].
  apply Z.eqb_eq in E.
  change (copy self) with
    (copy (with_route self dv (map (fun d => casefold (system d)) dv))).
  rewrite push_run.
  change (list_index (with_route self dv _)) with (list_index self).
  change (systems (with_route self dv
                     (map (fun d => casefold (system d)) dv)))
    with (map (fun d => casefold (system d)) dv).
  destruct (getitem_in_range (map (fun d => casefold (system d)) dv)
              (list_index self)) as [a [Ha Hnth]].
  { rewrite len_map, Hlen. lia. }
  rewrite Ha. rewrite E in Hnth. rewrite nth_error_map, Hnew in Hnth.
  injection Hnth as <-. reflexivity.
Qed.

(** X5.  Editing the name of a waypoint.  At a position of the route the
    row keeps its other columns and takes the new name, every other row
    stays, the names follow the rows, the index stays, and the new name is
    pushed exactly when the edited waypoint is the current one.  At a
    position outside the route the slot raises [IndexError] and the worker
    is as it was. *)
Theorem update_sys_edits_one_waypoint self i new_sys :
  names_folded self ->
  (0 <= i < len (data_values self) ->
   exists old dv,
     nth_error (data_values self) (Z.to_nat i) = Some old /\
     nth_error dv (Z.to_nat i) =
       Some {| system := new_sys; columns := columns old |} /\
     (forall n, n <> Z.to_nat i ->
                nth_error dv n = nth_error (data_values self) n) /\
     update_sys i new_sys self =
       (with_route self dv (map (fun data => casefold (system data)) dv),
        (if list_index self =? i
         then push_effects self (casefold new_sys) else []),
        Ok tt)) /\
  (i < - len (data_values self) \/ len (data_values self) <= i ->
   update_sys i new_sys self = (self, [], Raise IndexError)).
Proof.
  intros Hn. split.
  - intros Hi.
    destruct (update_sys_in_range self i new_sys Hn Hi)
      as [old [dv [Hold [Hnew [Hrest [_ Hrun]]]]]].
    exists old, dv. auto.
  - intros Hi. unfold update_sys.
    now rewrite (getitem_out_of_range _ _ Hi).
Qed.

(** X6.  The two script modes do not mix: in copy mode no slot and no run
    of [main] starts a hotkey process, and in hotkey mode none writes the
    clipboard. *)
Theorem modes_do_not_mix self :
  (forall appended,
      existsb (foreign_to_mode (copy self))
        (snd (fst (main appended self))) = false) /\
  (forall i,
      existsb (foreign_to_mode (copy self))
        (snd (fst (set_index i self))) = false) /\
  (forall tup,
      existsb (foreign_to_mode (copy self))
        (snd (fst (update_script tup self))) = false) /\
  (forall i new_sys,
      existsb (foreign_to_mode (copy self))
        (snd (fst (update_sys i new_sys self))) = false).
Proof.
  assert (Hpush : forall s target,
             existsb (foreign_to_mode (copy s)) (push_effects s target)
             = false).
  { intros s target. unfold push_effects. destruct (copy s); reflexivity. }
  assert (Hline : forall line s,
             existsb (foreign_to_mode (copy s)) (snd (fst (on_line line s)))
             = false).
  { intros line s.
    destruct (on_line_cases line s)
      as [[e ->]|[->|[->|[i [name [_ [_ [_ ->]]]]]]]]; try reflexivity.
    destruct (i + 1 =? _); [reflexivity|].
    destruct (getitem _ _); cbn [fst snd].
    - rewrite existsb_app, Hpush. reflexivity.
    - destruct (copy s); reflexivity. }
  assert (Hloop : forall lines s,
             existsb (foreign_to_mode (copy s)) (snd (fst (main_loop lines s)))
             = false).
  { induction lines as [|line rest IH]; intros s; [reflexivity|].
    rewrite main_loop_cons.
    pose proof (Hline line s) as Hl.
    pose proof (on_line_state line s) as Hs.
    destruct (on_line line s) as [[s1 o1] r]. cbn [fst snd] in Hl, Hs.
    destruct r as [[|]|e]; try exact Hl.
    assert (Hc : copy s1 = copy s)
      by (destruct Hs as [->|[i [_ ->]]]; reflexivity).
    pose proof (IH s1) as Hr. rewrite Hc in Hr.
    destruct (main_loop rest s1) as [[s2 o2] r2]. cbn [fst snd] in *.
    now rewrite existsb_app, Hl, Hr. }
  assert (Hscan : forall lines b s,
             existsb (foreign_to_mode (copy s))
               (snd (fst (scan_shutdown lines b s))) = false).
  { induction lines as [|l rest IH]; intros b s; [reflexivity|].
    cbn [scan_shutdown]. destruct (json_loads l) as [j|]; [|reflexivity].
    unfold bindM at 1. unfold lift.
    destruct (json_getitem j "event") as [event|e]; [|reflexivity].
    destruct (json_eq_str event "Shutdown").
    - unfold bindM, get, emit. cbn.
      specialize (IH true s).
      destruct (scan_shutdown rest true s) as [[s' o] r]. exact IH.
    - specialize (IH b s).
      destruct (scan_shutdown rest b s) as [[s' o] r]. exact IH. }
  split; [|split; [|split]].
  - intros appended. unfold main, bindM at 1. unfold get.
    unfold bindM at 1.
    pose proof (scan_shutdown_state (journal self) false self) as Hs.
    pose proof (Hscan (journal self) false self) as Ho.
    destruct (scan_shutdown (journal self) false self) as [[s o] r].
    cbn [fst snd] in Hs, Ho. subst s.
    destruct r as [[|]|e];
      [unfold ret; cbn [fst snd]; rewrite app_nil_r; exact Ho | | exact Ho].
    unfold bindM at 1.
    assert (Hp : exists o1 r1,
               (if copy self then copy_system else start_hotkey) self =
                 (self, o1, r1) /\
               existsb (foreign_to_mode (copy self)) o1 = false).
    { destruct (copy self) eqn:Hc;
        [rewrite copy_system_run | rewrite start_hotkey_run];
        destruct (getitem _ _); do 2 eexists; split; try reflexivity;
        cbn; rewrite ?Hc; reflexivity. }
    destruct Hp as [o1 [r1 [-> Ho1]]].
    destruct r1 as [[]|e]; cbn [fst snd app];
      [|rewrite existsb_app, Ho, Ho1; reflexivity].
    unfold emit_sys_signal. unfold bindM, get, emit, ret. cbn [fst snd app].
    pose proof (Hloop appended self) as Hl.
    destruct (main_loop appended self) as [[s2 o2] [c|e]]; cbn [fst snd] in *;
      rewrite ?app_nil_r, !existsb_app, Ho, Ho1; cbn [existsb app orb];
      rewrite ?Hl; reflexivity.
  - intros i. unfold set_index, set_list_index, bindM at 1.
    unfold bindM at 1, get. unfold bindM at 1.
    change (bindM close_ahk (fun _ => start_hotkey)) with reset_ahk.
    rewrite push_run.
    destruct (getitem _ _) as [target|e]; cbn [fst snd app].
    + unfold emit_sys_signal, bindM, get, emit. cbn [fst snd app].
      rewrite existsb_app.
      change (copy self) with (copy (with_list_index self i)).
      rewrite Hpush. reflexivity.
    + cbn. destruct (copy self); reflexivity.
  - intros [[b s] d]. unfold update_script, bindM at 1. unfold get.
    unfold bindM at 1.
    destruct (negb (String.eqb (bind self) b)
              || negb (String.eqb (script self) s)); [|reflexivity].
    unfold bindM at 1. destruct (copy self) eqn:Hc; cbn [negb].
    + reflexivity.
    + rewrite reset_ahk_run. destruct (getitem _ _); reflexivity.
  - intros i new_sys. unfold update_sys.
    destruct (getitem (data_values self) i) as [data|e]; [|reflexivity].
    destruct (setitem (data_values self) i _) as [dv|e]; [|reflexivity].
    destruct (setitem (systems self) i _) as [sys|e]; [|reflexivity].
    cbn zeta. destruct (_ =? i); [|reflexivity].
    match goal with
    | |- context [(if copy ?s then copy_system else reset_ahk) ?s] =>
        rewrite (push_run s);
        destruct (getitem (systems s) (list_index s)); cbn [fst snd];
        [exact (Hpush s _) | cbn [copy]; destruct (copy self); reflexivity]
    end.
Qed.

End TrackerSlots.

(** ** The route tracker: the end of the game and routes without repeats *)

Section TrackerShutdown.
Import AhkWorker.
Context `{PyStr} `{PyJson}.

Lemma shutdown_line_run line self :
  is_shutdown line = true ->
  on_line line self =
    (self, [game_shut_signal (data_values self) (list_index self);
            hotkey_stop], Ok Break).
Proof.
  unfold is_shutdown, on_line. intros Hs.
  destruct (json_loads line) as [loaded|]; [|discriminate].
  destruct (json_getitem loaded "event") as [event|e] eqn:Hev; [|discriminate].
  destruct event; try discriminate. cbn in Hs.
  apply String.eqb_eq in Hs. subst s.
  now rewrite (on_loaded_other self loaded (JStr "Shutdown") Hev eq_refl).
Qed.

(** X7.  A [Shutdown] record in the lines that follow ends the loop: the
    route and the index reached are handed over in [game_shut_signal], the
    hotkey is stopped, and no later line is read. *)
Theorem shutdown_ends_the_loop pre line post self self1 out1 :
  main_loop pre self = (self1, out1, Ok Continue) ->
  is_shutdown line = true ->
  main_loop (pre ++ line :: post) self =
    (self1,
     out1 ++ [game_shut_signal (data_values self1) (list_index self1);
              hotkey_stop],
     Ok Break).
Proof.
  intros Hpre Hs.
  rewrite (main_loop_app pre (line :: post) self self1 out1 Hpre).
  rewrite main_loop_cons, (shutdown_line_run line self1 Hs). reflexivity.
Qed.

Lemma scan_shutdown_run lines :
  Forall has_event lines -> forall b self,
  scan_shutdown lines b self =
    (self,
     map (fun _ => game_shut_signal (data_values self) (list_index self))
         (filter is_shutdown lines),
     Ok (b || existsb is_shutdown lines)).
Proof.
  induction 1 as [|l rest [loaded [event [Hl Hev]]] _ IH]; intros b self.
  - cbn. now rewrite orb_false_r.
  - assert (Hsd : is_shutdown l = json_eq_str event "Shutdown")
      by (unfold is_shutdown; now rewrite Hl, Hev).
    cbn [scan_shutdown filter existsb]. rewrite Hsd, Hl.
    unfold bindM at 1. unfold lift. rewrite Hev.
    destruct (json_eq_str event "Shutdown").
    + unfold bindM, get, emit. cbn [app]. rewrite IH.
      cbn [map app orb]. now rewrite orb_true_r.
    + rewrite IH. reflexivity.
Qed.

Lemma filter_none {A} (f : A -> bool) (l : list A) :
  existsb f l = false -> filter f l = [].
Proof.
  induction l as [|a l IH]; [reflexivity|]. cbn.
  destruct (f a); [discriminate|]. exact IH.
Qed.

(** X8.  [main] looks for a [Shutdown] record in the journal before
    anything else.  When the journal holds one, [main] hands the route over
    once for each such record and returns: it pushes no system, announces no
    index and reads no line written later.  When it holds none, [main]
    pushes the current system, announces the index and then follows the
    journal. *)
Theorem main_checks_for_shutdown_first self appended :
  Forall has_event (journal self) ->
  (existsb is_shutdown (journal self) = true ->
   main appended self =
     (self,
      map (fun _ => game_shut_signal (data_values self) (list_index self))
          (filter is_shutdown (journal self)),
      Ok tt)) /\
  (existsb is_shutdown (journal self) = false ->
   0 <= list_index self < len (systems self) ->
   exists target,
     nth_error (systems self) (Z.to_nat (list_index self)) = Some target /\
     main appended self =
       let '(self', out, r) := main_loop appended self in
       (self',
        (if copy self then set_clip target
         else hotkey_start (bind self) (script self) target)
        :: sys_signal (list_index self) (dark self) :: out,
        match r with
        | Ok _ => Ok tt
        | Raise e => Raise e
        end)).
Proof.
  intros Hev. split.
  - intros Hs. unfold main, bindM at 1. unfold get. unfold bindM at 1.
    rewrite (scan_shutdown_run _ Hev), Hs. cbn. now rewrite app_nil_r.
  - intros Hs Hi. unfold main, bindM at 1. unfold get. unfold bindM at 1.
    rewrite (scan_shutdown_run _ Hev), Hs.
    rewrite (filter_none _ _ Hs).
    destruct (getitem_in_range (systems self) (list_index self) Hi)
      as [target [Hg Hn]].
    exists target. split; [exact Hn|].
    cbn [orb map app]. unfold bindM at 1.
    assert (Hp : (if copy self then copy_system else start_hotkey) self =
                 (self, [if copy self then set_clip target
                         else hotkey_start (bind self) (script self) target],
                  Ok tt)).
    { destruct (copy self);
        [rewrite copy_system_run | rewrite start_hotkey_run];
        rewrite Hg; reflexivity. }
    rewrite Hp. unfold emit_sys_signal. unfold bindM, get, emit, ret.
    cbn [app].
    destruct (main_loop appended self) as [[s2 o2] [c|e]];
      rewrite ?app_nil_r; reflexivity.
Qed.

End TrackerShutdown.

Section TrackerDistinct.
Import AhkWorker.
Context `{PyStr} `{PyJson}.

Lemma In_slice_from_nth {A} (l : list A) i x :
  0 <= i -> In x (slice_from l i) ->
  exists j, i <= j < len l /\ nth_error l (Z.to_nat j) = Some x.
Proof.
  intros Hi Hin. unfold slice_from in Hin.
  destruct (i <? 0) eqn:E; [apply Z.ltb_lt in E; lia|].
  apply In_nth_error in Hin. destruct Hin as [n Hn].
  rewrite nth_error_skipn in Hn.
  assert (Hlt : (Z.to_nat (Z.min i (len l)) + n < List.length l)%nat)
    by (apply nth_error_Some; congruence).
  unfold len in *.
  exists (Z.of_nat (Z.to_nat (Z.min i (Z.of_nat (List.length l))) + n)).
  split; [lia|]. now rewrite Nat2Z.id.
Qed.

Lemma nth_slice_from {A} (l : list A) i j x :
  0 <= i <= j -> nth_error l (Z.to_nat j) = Some x -> In x (slice_from l i).
Proof.
  intros Hij Hn. unfold slice_from.
  destruct (i <? 0) eqn:E; [apply Z.ltb_lt in E; lia|].
  assert (Hlt : (Z.to_nat j < List.length l)%nat)
    by (apply nth_error_Some; congruence).
  apply nth_error_In with (n := (Z.to_nat j - Z.to_nat i)%nat).
  rewrite nth_error_skipn. unfold len.
  replace (Z.to_nat (Z.min i (Z.of_nat (List.length l))) +
           (Z.to_nat j - Z.to_nat i))%nat with (Z.to_nat j) by lia.
  exact Hn.
Qed.

(** The position [index] finds in a list without repeats is the position
    of the element. *)
Lemma index_NoDup l x i j :
  NoDup l -> index l x = Ok i -> nth_error l (Z.to_nat j) = Some x ->
  0 <= j -> i = j.
Proof.
  intros Hnd Hi Hj Hpos. destruct (index_first l x i Hi) as [Hn [_ Hi0]].
  assert (Hlt : (Z.to_nat i < List.length l)%nat)
    by (apply nth_error_Some; congruence).
  pose proof (proj1 (NoDup_nth_error l) Hnd (Z.to_nat i) (Z.to_nat j) Hlt)
    as Heq.
  rewrite Hn, Hj in Heq. specialize (Heq eq_refl). lia.
Qed.

(** X9.  On a route in which no name occurs twice, a jump to the waypoint
    at a position [j] at or after the index moves the index to [j + 1]. *)
Theorem distinct_names_track_forward self loaded name j :
  NoDup (systems self) ->
  is_jump loaded name ->
  0 <= list_index self <= j ->
  nth_error (systems self) (Z.to_nat j) = Some (casefold name) ->
  fst (fst (on_loaded loaded self)) = with_list_index self (j + 1).
Proof.
  intros Hnd Hj Hij Hn.
  pose proof (nth_slice_from _ _ _ _ Hij Hn) as Hin.
  destruct (jump_ahead_index self loaded name Hj Hin) as [i [Hi [_ ->]]].
  rewrite (index_NoDup _ _ i j Hnd Hi Hn) by lia. reflexivity.
Qed.

Lemma distinct_names_step line self :
  NoDup (systems self) -> 0 <= list_index self ->
  fst (fst (on_line line self)) = self \/
  exists k, list_index self < k /\
            fst (fst (on_line line self)) = with_list_index self k.
Proof.
  intros Hnd Hpos.
  destruct (on_line_cases line self)
    as [[e ->]|[->|[->|[i [name [Hin [Hi [_ ->]]]]]]]]; auto.
  right. exists (i + 1).
  destruct (In_slice_from_nth _ _ _ Hpos Hin) as [j [Hj Hn]].
  rewrite (index_NoDup _ _ i j Hnd Hi Hn) by lia.
  split; [lia|].
  destruct (j + 1 =? _); [reflexivity|].
  destruct (getitem _ _); reflexivity.
Qed.

(** X10.  On a route in which no name occurs twice the index never goes
    back, whatever the journal holds. *)
Theorem distinct_names_index_never_decreases lines : forall self,
  NoDup (systems self) -> 0 <= list_index self ->
  list_index self <= list_index (fst (fst (main_loop lines self))).
Proof.
  induction lines as [|line rest IH]; intros self Hnd Hpos.
  - cbn. lia.
  - rewrite main_loop_cons.
    destruct (distinct_names_step line self Hnd Hpos) as [Hs|[k [Hk Hs]]];
      destruct (on_line line self) as [[s1 o1] r]; cbn [fst] in Hs; subst s1.
    + destruct r as [[|]|e]; cbn [fst]; try lia.
      specialize (IH self Hnd Hpos).
      destruct (main_loop rest self) as [[s2 o2] r2]. exact IH.
    + destruct r as [[|]|e]; cbn [fst list_index with_list_index]; try lia.
      assert (Hpos' : 0 <= list_index (with_list_index self k))
        by (cbn; lia).
      specialize (IH (with_list_index self k) Hnd Hpos').
      destruct (main_loop rest _) as [[s2 o2] r2].
      cbn [fst list_index with_list_index] in *. lia.
Qed.

(** X24.  A waypoint that was renamed is tracked under its new name.
    After [update_sys] has renamed the waypoint at a position [i] at or
    after the index, and the names of the route are still distinct, a jump
    to the new name, in any case, moves the index to [i + 1]. *)
Theorem renamed_waypoint_is_tracked self i new_sys loaded name :
  names_folded self ->
  0 <= list_index self <= i ->
  i < len (data_values self) ->
  NoDup (systems (fst (fst (update_sys i new_sys self)))) ->
  is_jump loaded name ->
  same_name name new_sys ->
  fst (fst (on_loaded loaded (fst (fst (update_sys i new_sys self))))) =
  with_list_index (fst (fst (update_sys i new_sys self))) (i + 1).
Proof.
  intros Hn Hidx Hi.
  assert (Hrange : 0 <= i < len (data_values self)) by lia.
  destruct (update_sys_in_range self i new_sys Hn Hrange)
    as [old [dv [_ [Hnew [_ [_ ->]]]]]].
  cbn [fst]. intros Hnd Hj Hsame.
  assert (Hnth : nth_error
            (systems (with_route self dv
                        (map (fun data => casefold (system data)) dv)))
            (Z.to_nat i) = Some (casefold name)).
  { cbn [systems with_route]. rewrite nth_error_map, Hnew. cbn.
    now rewrite Hsame. }
  assert (Hin : In (casefold name)
            (slice_from
               (systems (with_route self dv
                           (map (fun data => casefold (system data)) dv)))
               (list_index (with_route self dv
                           (map (fun data => casefold (system data)) dv))))).
  { apply (nth_slice_from _ _ i); [cbn; lia | exact Hnth]. }
  destruct (jump_ahead_index _ loaded name Hj Hin) as [k [Hk [_ ->]]].
  rewrite (index_NoDup _ _ k i Hnd Hk Hnth) by lia. reflexivity.
Qed.

End TrackerDistinct.

(** ** The route tracker: letter case *)

Section TrackerCase.
Import AhkWorker.
Context `{PyStr} `{PyJson}.

(** The position [index] finds is not after any position of the
    element. *)
Lemma index_le_position l x i (j : nat) :
  index l x = Ok i -> nth_error l j = Some x -> i <= Z.of_nat j.
Proof.
  intros Hi Hj. destruct (index_first l x i Hi) as [_ [Hnot Hpos]].
  destruct (Z_le_gt_dec i (Z.of_nat j)) as [Hle|Hgt]; [exact Hle|].
  exfalso. apply Hnot. apply (nth_error_In _ j).
  rewrite nth_error_firstn.
  replace (j <? Z.to_nat i)%nat with true
    by (symmetry; apply Nat.ltb_lt; lia).
  exact Hj.
Qed.

(** C7.  Matching ignores letter case.  Take a worker as [__init__] builds
    it from any rows, with its index at any position [k], and a jump to a
    name [s].  A jump to a case variant [s'] of [s] does exactly what the
    jump to [s] does.  When a waypoint at or after the index has a name of
    which [s] is a case variant, whatever the case of either, both jumps
    are matched and move the index to one past the first waypoint of the
    route with such a name; when no waypoint at or after the index has
    one, the jump is ignored.  A row of either shape compared with a
    string is equal to it exactly when the two lowercase to one string, so
    it is equal to every case variant of a string it is equal to. *)
Theorem jump_matching_ignores_case
    journal data_values settings start_index k loaded loaded' s s' :
  0 <= k ->
  is_jump loaded s ->
  is_jump loaded' s' ->
  same_name s s' ->
  let self :=
    with_list_index (__init__ journal data_values settings start_index) k in
  on_loaded loaded self = on_loaded loaded' self /\
  (forall j data,
      k <= j ->
      nth_error data_values (Z.to_nat j) = Some data ->
      same_name s (system data) ->
      exists i first,
        0 <= i <= j /\
        nth_error data_values (Z.to_nat i) = Some first /\
        same_name s (system first) /\
        fst (fst (on_loaded loaded self)) = with_list_index self (i + 1) /\
        fst (fst (on_loaded loaded' self)) = with_list_index self (i + 1)) /\
  ((forall j data,
       k <= j ->
       nth_error data_values (Z.to_nat j) = Some data ->
       ~ same_name s (system data)) ->
   on_loaded loaded self = (self, [], Ok Continue) /\
   on_loaded loaded' self = (self, [], Ok Continue)) /\
  (forall (r : RoutePlots.ExactPlotRow.t) x y,
      (RoutePlots.ExactPlotRow.__eq__ r x = true <->
       lower (RoutePlots.ExactPlotRow.system r) = lower x) /\
      (lower x = lower y ->
       RoutePlots.ExactPlotRow.__eq__ r x =
       RoutePlots.ExactPlotRow.__eq__ r y)) /\
  (forall (r : RoutePlots.NeutronPlotRow.t) x y,
      (RoutePlots.NeutronPlotRow.__eq__ r x = true <->
       lower (RoutePlots.NeutronPlotRow.system r) = lower x) /\
      (lower x = lower y ->
       RoutePlots.NeutronPlotRow.__eq__ r x =
       RoutePlots.NeutronPlotRow.__eq__ r y)).
Proof.
  intros Hk Hj Hj' Hsame self.
  assert (Hsys : systems self =
                 map (fun data => casefold (system data)) data_values)
    by (destruct settings as [[[scr key] drk] cpy]; reflexivity).
  assert (Hidx : list_index self = k)
    by (destruct settings as [[[scr key] drk] cpy]; reflexivity).
  assert (Hboth : on_loaded loaded self = on_loaded loaded' self).
  { destruct (is_jump_fields _ _ Hj) as [f [-> [Hev Hname]]].
    destruct (is_jump_fields _ _ Hj') as [f' [-> [Hev' Hname']]].
    rewrite (on_loaded_jump self f s Hev Hname).
    rewrite (on_loaded_jump self f' s' Hev' Hname').
    unfold same_name in Hsame. rewrite Hsame. reflexivity. }
  split; [exact Hboth|]. split; [|split; [|split]].
  - intros j data Hkj Hnth Hvariant.
    assert (Hpos : nth_error (systems self) (Z.to_nat j) = Some (casefold s)).
    { rewrite Hsys, nth_error_map, Hnth. cbn.
      unfold same_name in Hvariant. now rewrite Hvariant. }
    assert (Hin : In (casefold s)
                    (slice_from (systems self) (list_index self))).
    { apply (nth_slice_from _ _ j); [rewrite Hidx; lia | exact Hpos]. }
    destruct (jump_ahead_index self loaded s Hj Hin) as [i [Hi [Hrange Hst]]].
    pose proof (index_le_position _ _ _ _ Hi Hpos) as Hle.
    destruct (index_first _ _ _ Hi) as [Hfirst _].
    rewrite Hsys, nth_error_map in Hfirst.
    destruct (nth_error data_values (Z.to_nat i)) as [first|] eqn:Hf;
      [|discriminate].
    cbn in Hfirst. injection Hfirst as Hfirst.
    exists i, first. split; [lia|]. split; [exact Hf|].
    split; [unfold same_name; now rewrite Hfirst|].
    split; [exact Hst | now rewrite <- Hboth].
  - intros Hnone.
    assert (Hnot : ~ In (casefold s)
                     (slice_from (systems self) (list_index self))).
    { intros Hin. rewrite Hidx in Hin.
      destruct (In_slice_from_nth _ _ _ Hk Hin) as [j [Hkj Hpos]].
      rewrite Hsys, nth_error_map in Hpos.
      destruct (nth_error data_values (Z.to_nat j)) as [data|] eqn:Hd;
        [|discriminate].
      cbn in Hpos. injection Hpos as Hpos.
      apply (Hnone j data); [lia | exact Hd |].
      unfold same_name. now rewrite Hpos. }
    rewrite <- Hboth.
    split; exact (jump_not_ahead_ignored self loaded s Hj Hnot).
  - intros r x y. unfold RoutePlots.ExactPlotRow.__eq__.
    split; [apply String.eqb_eq | intros ->; reflexivity].
  - intros r x y. unfold RoutePlots.NeutronPlotRow.__eq__.
    split; [apply String.eqb_eq | intros ->; reflexivity].
Qed.

End TrackerCase.

(** ** The route tracker: the further properties on the example route *)

Section TrackerRunExamples.
Import AhkWorker Examples.
Existing Instance ascii_str.
Existing Instance journal_json.

Lemma route_names_distinct : NoDup (systems at_start).
Proof.
  repeat constructor; cbn; intuition discriminate.
Qed.

Lemma jump_record_never_raises_witness :
  is_jump (jump_event "sirius") "sirius" /\
  len (systems at_start) = len (data_values at_start) /\
  exists c, snd (on_loaded (jump_event "sirius") at_start) = Ok c.
Proof.
  assert (H1 : is_jump (jump_event "sirius") "sirius") by (split; reflexivity).
  assert (H2 : len (systems at_start) = len (data_values at_start))
    by reflexivity.
  split; [exact H1 | split; [exact H2 |]].
  exact (jump_record_never_raises at_start _ _ H1 H2).
Defined.

(** A jump record without its system name between two jumps: the first
    jump is tracked, the record raises, the second jump is never read. *)
Lemma run_stops_at_the_failing_line_witness :
  exists pre line post,
    [jump_line "alpha centauri"; jump_without_system_line; jump_line "sirius"]
      = pre ++ line :: post /\
    main_loop pre at_start =
      (with_list_index at_start 2, [set_clip "sirius"; sys_signal 2 false],
       Ok Continue) /\
    on_line line (with_list_index at_start 2) =
      (with_list_index at_start 2, [], Raise (KeyError (JStr "StarSystem"))).
Proof.
  apply (run_stops_at_the_failing_line
           [jump_line "alpha centauri"; jump_without_system_line;
            jump_line "sirius"] at_start).
  - reflexivity.
  - vm_compute. reflexivity.
Defined.

Lemma names_stay_folded_witness :
  names_folded at_start /\
  (forall i new_sys,
      names_folded (fst (fst (update_sys i new_sys at_start)))) /\
  (forall lines, names_folded (fst (fst (main_loop lines at_start)))).
Proof.
  assert (H1 : names_folded at_start) by reflexivity.
  split; [exact H1 | split].
  - exact (proj1 (proj2 (names_stay_folded at_start H1))).
  - exact (proj1 (proj2 (proj2 (proj2 (names_stay_folded at_start H1))))).
Defined.

(** Renaming the second waypoint while the index is on the first, and
    renaming a waypoint the route does not have. *)
Lemma update_sys_edits_one_waypoint_witness :
  (exists old dv,
     nth_error (data_values at_start) 1 = Some old /\
     nth_error dv 1 = Some {| system := "Wolf 359"; columns := columns old |} /\
     (forall n, n <> 1%nat ->
                nth_error dv n = nth_error (data_values at_start) n) /\
     update_sys 1 "Wolf 359" at_start =
       (with_route at_start dv (map (fun data => casefold (system data)) dv),
        [], Ok tt)) /\
  update_sys 3 "Wolf 359" at_start = (at_start, [], Raise IndexError).
Proof.
  assert (H1 : names_folded at_start) by reflexivity.
  split.
  - apply (proj1 (update_sys_edits_one_waypoint at_start 1 "Wolf 359" H1)).
    unfold len. cbn. lia.
  - apply (proj2 (update_sys_edits_one_waypoint at_start 3 "Wolf 359" H1)).
    right. unfold len. cbn. lia.
Defined.

(** The game closes after the jump to Sol: the jump to Sirius that follows
    in the journal is not tracked. *)
Lemma shutdown_ends_the_loop_witness :
  main_loop ([jump_line "sol"] ++ shutdown_line :: [jump_line "sirius"])
    at_start =
    (with_list_index at_start 1,
     [set_clip "alpha centauri"; sys_signal 1 false] ++
     [game_shut_signal route 1; hotkey_stop],
     Ok Break).
Proof.
  apply (shutdown_ends_the_loop [jump_line "sol"] shutdown_line
           [jump_line "sirius"] at_start (with_list_index at_start 1)
           [set_clip "alpha centauri"; sys_signal 1 false]).
  - vm_compute. reflexivity.
  - vm_compute. reflexivity.
Defined.

Lemma journal_has_events :
  Forall has_event [jump_line "sol"; shutdown_line].
Proof.
  constructor; [|constructor; [|constructor]].
  - exists (jump_event "sol"), (JStr "FSDJump"). split; reflexivity.
  - exists shutdown_event, (JStr "Shutdown"). split; reflexivity.
Qed.

(** A worker started on a journal of a game that has closed, and one
    started on an empty journal. *)
Lemma main_checks_for_shutdown_first_witness :
  main [jump_line "sirius"] after_shutdown =
    (after_shutdown, [game_shut_signal route 1], Ok tt) /\
  exists target,
    nth_error (systems (worker route 0)) 1 = Some target /\
    main [jump_line "sirius"] (worker route 0) =
      let '(self', out, r) := main_loop [jump_line "sirius"] (worker route 0) in
      (self', set_clip target :: sys_signal 1 false :: out,
       match r with
       | Ok _ => Ok tt
       | Raise e => Raise e
       end).
Proof.
  split.
  - apply (proj1 (main_checks_for_shutdown_first after_shutdown
                    [jump_line "sirius"] journal_has_events)).
    vm_compute. reflexivity.
  - apply (proj2 (main_checks_for_shutdown_first (worker route 0)
                    [jump_line "sirius"] (Forall_nil _))).
    + reflexivity.
    + unfold len. cbn. lia.
Defined.

Lemma distinct_names_track_forward_witness :
  fst (fst (on_loaded (jump_event "SIRIUS") at_start)) =
  with_list_index at_start (2 + 1).
Proof.
  apply (distinct_names_track_forward at_start (jump_event "SIRIUS")
           "SIRIUS" 2 route_names_distinct).
  - split; reflexivity.
  - cbn. lia.
  - reflexivity.
Defined.

Lemma distinct_names_index_never_decreases_witness :
  list_index at_start <=
  list_index
    (fst (fst (main_loop [jump_line "alpha centauri"; jump_line "sol"]
                 at_start))).
Proof.
  apply (distinct_names_index_never_decreases
           [jump_line "alpha centauri"; jump_line "sol"] at_start
           route_names_distinct).
  cbn. lia.
Defined.

(** The route has the waypoint "Sol"; the journal reports the jump as "sol"
    or as "SOL".  Both are matched and move the index from 0 to 1, and the
    rows named "Sol" are equal to both strings. *)
Lemma jump_matching_ignores_case_witness :
  on_loaded (jump_event "sol") at_start =
    (with_list_index at_start 1,
     [set_clip "alpha centauri"; sys_signal 1 false], Ok Continue) /\
  on_loaded (jump_event "sol") at_start =
  on_loaded (jump_event "SOL") at_start /\
  (exists i first,
      0 <= i <= 0 /\
      nth_error route (Z.to_nat i) = Some first /\
      same_name "sol" (system first) /\
      fst (fst (on_loaded (jump_event "sol") at_start)) =
        with_list_index at_start (i + 1) /\
      fst (fst (on_loaded (jump_event "SOL") at_start)) =
        with_list_index at_start (i + 1)) /\
  RoutePlots.NeutronPlotRow.__eq__
    {| RoutePlots.NeutronPlotRow.system := "Sol";
       RoutePlots.NeutronPlotRow.dist_to_arrival := 0;
       RoutePlots.NeutronPlotRow.dist_rem := 8.5;
       RoutePlots.NeutronPlotRow.jumps := 1 |} "sol" =
  RoutePlots.NeutronPlotRow.__eq__
    {| RoutePlots.NeutronPlotRow.system := "Sol";
       RoutePlots.NeutronPlotRow.dist_to_arrival := 0;
       RoutePlots.NeutronPlotRow.dist_rem := 8.5;
       RoutePlots.NeutronPlotRow.jumps := 1 |} "SOL".
Proof.
  assert (H1 : is_jump (jump_event "sol") "sol") by (split; reflexivity).
  assert (H2 : is_jump (jump_event "SOL") "SOL") by (split; reflexivity).
  assert (H3 : same_name "sol" "SOL") by reflexivity.
  assert (H0 : 0 <= 0) by lia.
  destruct (jump_matching_ignores_case [] route settings 0 0
              (jump_event "sol") (jump_event "SOL") "sol" "SOL"
              H0 H1 H2 H3) as [Hboth [Hmatch [_ [_ Hrow]]]].
  split; [vm_compute; reflexivity|].
  split; [exact Hboth|].
  split.
  - apply (Hmatch 0 (waypoint "Sol")); [lia | reflexivity | reflexivity].
  - apply (proj2 (Hrow _ "sol" "SOL")). reflexivity.
Defined.

(** Sirius is renamed to Wolf 359 and then jumped to. *)
Lemma renamed_waypoint_is_tracked_witness :
  list_index
    (fst (fst (on_loaded (jump_event "WOLF 359")
                 (fst (fst (update_sys 2 "Wolf 359" at_start)))))) = 3.
Proof.
  rewrite (renamed_waypoint_is_tracked at_start 2 "Wolf 359"
             (jump_event "WOLF 359") "WOLF 359").
  - reflexivity.
  - reflexivity.
  - cbn. lia.
  - unfold len. cbn. lia.
  - vm_compute. repeat constructor; cbn; intuition discriminate.
  - split; reflexivity.
  - reflexivity.
Defined.

End TrackerRunExamples.

(** ** The fuel alert over a run *)

Section FuelRuns.
Import FuelAlert.
Context `{PyJson}.

Lemma and_then_true a b :
  a &&& b = Ok true -> a = Ok true /\ b = Ok true.
Proof.
  unfold and_then. destruct a as [[|]|e]; cbn [result_bind]; intros Hab;
    try discriminate. auto.
Qed.

(** What [check] has done when it returns, on any decoded value. *)
Lemma check_cases self hold loaded hold' sigs :
  check self hold loaded = Ok (hold', sigs) ->
  (sigs = [alert_signal] /\ hold' = true /\ hold = false /\
   alert self = true) \/
  (sigs = [] /\ hold' = false /\
   exists fm, fuel_main loaded = Ok fm /\
              num_gt fm (jump_fuel self) = true) \/
  (sigs = [] /\ hold' = hold).
Proof.
  unfold check.
  destruct ((fm <- fuel_main loaded ;; Ok (num_lt fm (jump_fuel self)))
            &&& Ok (negb hold) &&& flag_is_1 loaded (-19)
            &&& flag_is_1 loaded (-5) &&& Ok (alert self))
    as [[|]|e] eqn:Hlow; cbn [result_bind]; [| |discriminate].
  - intros Hr. injection Hr as <- <-. left.
    apply and_then_true in Hlow. destruct Hlow as [Hlow Ha].
    apply and_then_true in Hlow. destruct Hlow as [Hlow _].
    apply and_then_true in Hlow. destruct Hlow as [Hlow _].
    apply and_then_true in Hlow. destruct Hlow as [_ Hh].
    injection Ha as Ha. injection Hh as Hh.
    destruct hold; [discriminate|]. auto.
  - destruct (fuel_main loaded) as [fm|e]; cbn [result_bind]; [|discriminate].
    destruct (num_gt fm (jump_fuel self)) eqn:Hgt; intros Hr;
      injection Hr as <- <-.
    + right. left. split; [reflexivity|]. split; [reflexivity|].
      exists fm. auto.
    + right. right. auto.
Qed.

(** One poll, when it returns. *)
Lemma poll_cases self hold line hold' sigs :
  on_line self hold line = Ok (hold', sigs) ->
  (sigs = [alert_signal] /\ hold' = true /\ hold = false /\
   alert self = true) \/
  (sigs = [] /\ hold' = false /\ releases self line = true) \/
  (sigs = [] /\ hold' = hold).
Proof.
  unfold on_line, releases.
  destruct (0 <? String.length line)%nat.
  - destruct (json_loads line) as [loaded|]; [|discriminate].
    destruct (check self hold loaded) as [[h s]|e] eqn:Hc.
    + cbn [except_KeyError]. intros Hr. injection Hr as <- <-.
      destruct (check_cases _ _ _ _ _ Hc)
        as [Hf|[[Hs [Hh [fm [Hfm Hgt]]]]|Hk]]; auto.
      right. left. rewrite Hfm. auto.
    + destruct e; cbn [except_KeyError]; try discriminate.
      intros Hr. injection Hr as <- <-. auto.
  - intros Hr. injection Hr as <- <-. auto.
Qed.

Lemma set_jump_fuel_alert self m self' :
  set_jump_fuel self m = Ok self' -> alert self' = alert self.
Proof.
  unfold set_jump_fuel. destruct (threshold _ _); cbn [result_bind];
    [|discriminate].
  intros Hr. injection Hr as <-. reflexivity.
Qed.

(** X11.  One alert for each dip.  Over polls of which none shows the fuel
    above the threshold, the alert fires at most once; it does not fire at
    all when [hold] was set at the start; and once it has fired [hold] is
    set at the end. *)
Theorem one_alert_per_dip lines : forall self hold self' hold' sigs,
  Forall (fun line => releases self line = false) lines ->
  run self hold (map poll lines) = Ok (self', hold', sigs) ->
  (List.length sigs <= 1)%nat /\
  (hold = true -> sigs = [] /\ hold' = true) /\
  (sigs <> [] -> hold' = true).
Proof.
  induction lines as [|line rest IH]; intros self hold self' hold' sigs Hno Hrun.
  - cbn in Hrun. injection Hrun as <- <- <-. cbn.
    split; [lia|]. split; [auto | congruence].
  - inversion Hno as [|? ? Hline Hrest]; subst.
    cbn [map run] in Hrun.
    destruct (on_line self hold line) as [[h1 s1]|e] eqn:Hl;
      cbn [result_bind fst snd] in Hrun; [|discriminate].
    destruct (run self h1 (map poll rest)) as [[[s2 h2] sg2]|e] eqn:Hr;
      cbn [result_bind fst snd] in Hrun; [|discriminate].
    injection Hrun as <- <- <-.
    destruct (IH self h1 s2 h2 sg2 Hrest Hr) as [Hlen [Hheld Hfired]].
    destruct (poll_cases _ _ _ _ _ Hl)
      as [[-> [-> [-> _]]]|[[_ [_ Hrel]]|[-> ->]]].
    + destruct (Hheld eq_refl) as [-> ->]. cbn.
      split; [lia|]. split; [discriminate | reflexivity].
    + congruence.
    + cbn [app]. auto.
Qed.

(** X12.  An alert that is not armed stays silent: as long as no
    [next_jump_signal] arms it, no poll fires, whatever the status file
    shows and however the threshold is changed. *)
Theorem unarmed_alert_is_silent inputs : forall self hold self' hold' sigs,
  alert self = false ->
  ~ In (next_jump true) inputs ->
  run self hold inputs = Ok (self', hold', sigs) ->
  sigs = [] /\ alert self' = false.
Proof.
  induction inputs as [|i rest IH]; intros self hold self' hold' sigs Ha Hno Hrun.
  - cbn in Hrun. injection Hrun as <- <- <-. auto.
  - assert (Hrest : ~ In (next_jump true) rest)
      by (intro; apply Hno; now right).
    destruct i as [line|status|m]; cbn [run] in Hrun.
    + destruct (on_line self hold line) as [[h1 s1]|e] eqn:Hl;
        cbn [result_bind fst snd] in Hrun; [|discriminate].
      destruct (run self h1 rest) as [[[s2 h2] sg2]|e] eqn:Hr;
        cbn [result_bind fst snd] in Hrun; [|discriminate].
      injection Hrun as <- <- <-.
      destruct (IH self h1 s2 h2 sg2 Ha Hrest Hr) as [-> Ha2].
      destruct (poll_cases _ _ _ _ _ Hl)
        as [[_ [_ [_ Hon]]]|[[-> _]|[-> _]]]; [congruence | auto | auto].
    + destruct status; [exfalso; apply Hno; now left|].
      apply (IH (change_alert self false) hold self' hold' sigs); auto.
    + destruct (set_jump_fuel self m) as [s1|e] eqn:Hs;
        cbn [result_bind] in Hrun; [|discriminate].
      apply (IH s1 hold self' hold' sigs); auto.
      rewrite (set_jump_fuel_alert _ _ _ Hs). exact Ha.
Qed.

End FuelRuns.

Section FuelRunExamples.
Import FuelAlert Examples.
Existing Instance table_json.

(** Three polls of a status file that shows 2.5 t in supercruise with the
    FSD cooling down, against a threshold of 8 t. *)
Lemma one_alert_per_dip_witness :
  run armed false
    (map poll [status_line "262160" "2.5"; status_line "262160" "2.5";
               status_line "262160" "2.5"])
    = Ok (armed, true, [alert_signal]) /\
  (List.length [alert_signal] <= 1)%nat.
Proof.
  assert (Hrun : run armed false
            (map poll [status_line "262160" "2.5"; status_line "262160" "2.5";
                       status_line "262160" "2.5"])
            = Ok (armed, true, [alert_signal]))
    by (vm_compute; reflexivity).
  split; [exact Hrun|].
  apply (one_alert_per_dip
           [status_line "262160" "2.5"; status_line "262160" "2.5";
            status_line "262160" "2.5"] armed false armed true [alert_signal]);
    [|exact Hrun].
  repeat constructor.
Defined.

Lemma unarmed_alert_is_silent_witness :
  run fuel_alert false
    [poll (status_line "262160" "2.5"); next_jump false;
     modifier_changed (PInt 50); poll (status_line "262160" "2.5")]
    = Ok (change_alert
            {| file := "Status.json"; max_fuel := PInt 32; loop := true;
               alert := false; jump_fuel := PFloat 16 |} false,
          false, []) /\
  ([] : list signal) = [].
Proof.
  assert (Hrun : run fuel_alert false
            [poll (status_line "262160" "2.5"); next_jump false;
             modifier_changed (PInt 50); poll (status_line "262160" "2.5")]
            = Ok (change_alert
                    {| file := "Status.json"; max_fuel := PInt 32;
                       loop := true; alert := false;
                       jump_fuel := PFloat 16 |} false,
                  false, []))
    by (vm_compute; reflexivity).
  split; [exact Hrun|].
  refine (proj1 (unarmed_alert_is_silent _ fuel_alert false _ _ _ eq_refl _ Hrun)).
  cbn. intuition discriminate.
Defined.

End FuelRunExamples.

(** ** The job callback over a whole job *)

Section JobSession.
Import Network SpanshJob.
Context `{PyJson} `{PyShow}.
Context {route : Type} (result_decode_func : json -> result route).

(** A failed request never yields a value. *)
Lemma failed_request_raises r :
  no_error r = false -> exists e, json_from_network_req r = Raise e.
Proof.
  intros Hr. unfold json_from_network_req. rewrite Hr.
  destruct (0 <? String.length (data r))%nat.
  - destruct (loads (data r)) as [j|e]; cbn [result_bind]; [|eauto].
    destruct (json_getitem j "error"); cbn [result_bind]; eauto.
  - cbn [result_bind]. eauto.
Qed.

(** X13.  A reply that finished with a network error is always reported
    through the error callback: no route is handed over, no new request is
    scheduled and the delay iterator is left as it was. *)
Theorem failed_request_reports_error r delay_iterator :
  no_error r = false ->
  exists text,
    _spansh_job_callback result_decode_func r delay_iterator =
      (delay_iterator, error_callback text).
Proof.
  intros Hr. destruct (failed_request_raises r Hr) as [e He].
  unfold _spansh_job_callback, try_body. rewrite He.
  destruct e; try (eexists; reflexivity).
  destruct (negb (is_None spansh_error)); eexists; reflexivity.
Qed.

(** A scheduled request has taken the first value of the iterator for its
    delay. *)
Lemma single_shot_takes_next r delay_iterator delay_iterator' msec job :
  _spansh_job_callback result_decode_func r delay_iterator =
    (delay_iterator', single_shot msec job) ->
  exists d, delay_iterator = d :: delay_iterator' /\
            num_mul d (PInt 1000) = Ok msec.
Proof.
  unfold _spansh_job_callback, try_body.
  destruct (json_from_network_req r) as [job_response|e];
    [|destruct e; intros Hr; try discriminate;
      destruct (negb (is_None spansh_error)); discriminate].
  destruct (json_get job_response "status") as [status|e];
    [|destruct e; intros Hr; try discriminate;
      destruct (negb (is_None spansh_error)); discriminate].
  destruct (json_eq_str status "queued").
  - destruct delay_iterator as [|d rest]; cbn [next result_bind];
      [intros Hr; discriminate|].
    destruct (num_mul d (PInt 1000)) as [ms|e] eqn:Hm; cbn [result_bind];
      [|destruct e; intros Hr; try discriminate;
        destruct (negb (is_None spansh_error)); discriminate].
    destruct (json_getitem job_response "job") as [j|e]; cbn [result_bind];
      [|destruct e; intros Hr; try discriminate;
        destruct (negb (is_None spansh_error)); discriminate].
    destruct j; intros Hr; try discriminate.
    injection Hr as <- <- <-. eauto.
  - destruct (json_get job_response "result") as [res|e]; cbn [result_bind];
      [|destruct e; intros Hr; try discriminate;
        destruct (negb (is_None spansh_error)); discriminate].
    destruct (negb (is_None res)); [|intros Hr; discriminate].
    destruct (json_getitem job_response "result") as [res'|e];
      cbn [result_bind];
      [|destruct e; intros Hr; try discriminate;
        destruct (negb (is_None spansh_error)); discriminate].
    destruct (result_decode_func res') as [decoded|e]; cbn [result_bind];
      [intros Hr; discriminate|].
    destruct e; intros Hr; try discriminate;
      destruct (negb (is_None spansh_error)); discriminate.
Qed.

(** X14.  The delays of a job are the values of its iterator, in order: the
    request scheduled at the [k]-th reply waits for the [k]-th value, in
    milliseconds.  So an iterator of [n] values schedules at most [n]
    requests, and every action before the last is such a request. *)
Theorem session_delays_follow_iterator replies :
  forall delay_iterator k msec job,
  nth_error (session result_decode_func replies delay_iterator) k =
    Some (single_shot msec job) ->
  (exists d, nth_error delay_iterator k = Some d /\
             num_mul d (PInt 1000) = Ok msec) /\
  forallb is_single_shot
    (firstn k (session result_decode_func replies delay_iterator)) = true.
Proof.
  induction replies as [|r rest IH]; intros it k msec job Hk.
  - destruct k; discriminate.
  - cbn [session] in *.
    destruct (_spansh_job_callback result_decode_func r it) as [it' a] eqn:Hr.
    destruct k as [|k].
    + cbn in Hk. injection Hk as ->.
      destruct (single_shot_takes_next _ _ _ _ _ Hr) as [d [-> Hd]].
      split; [exists d; auto | reflexivity].
    + cbn [nth_error] in Hk.
      destruct a as [ms j| |]; try (destruct k; discriminate).
      destruct (single_shot_takes_next _ _ _ _ _ Hr) as [d [-> Hd]].
      destruct (IH it' k msec job Hk) as [[d' [Hn Hm]] Hall].
      split; [exists d'; auto|].
      cbn [firstn forallb is_single_shot andb]. exact Hall.
Qed.

End JobSession.

Section JobSessionExamples.
Import Network SpanshJob Examples.
Existing Instance journal_json.
Existing Instance plain_show.

Lemma failed_request_reports_error_witness :
  no_error failed_reply = false /\
  exists text,
    _spansh_job_callback (fun j => Ok j) failed_reply [PInt 2; PInt 4] =
      ([PInt 2; PInt 4], error_callback text).
Proof.
  split; [reflexivity|].
  exact (failed_request_reports_error (fun j => Ok j) failed_reply
           [PInt 2; PInt 4] eq_refl).
Defined.

(** A job that is queued twice and then finishes, against delays of 2 and
    4 seconds. *)
Lemma session_delays_follow_iterator_witness :
  session (fun j => Ok j)
    [ok_reply queued_body; ok_reply queued_body; ok_reply finished_body]
    [PInt 2; PInt 4] =
    [single_shot (PInt 2000) "F2B5"; single_shot (PInt 4000) "F2B5";
     result_callback (JObj [("system_jumps", JArr [])])] /\
  (exists d, nth_error [PInt 2; PInt 4] 1 = Some d /\
             num_mul d (PInt 1000) = Ok (PInt 4000)).
Proof.
  assert (Hrun : session (fun j => Ok j)
            [ok_reply queued_body; ok_reply queued_body;
             ok_reply finished_body] [PInt 2; PInt 4] =
            [single_shot (PInt 2000) "F2B5"; single_shot (PInt 4000) "F2B5";
             result_callback (JObj [("system_jumps", JArr [])])])
    by (vm_compute; reflexivity).
  split; [exact Hrun|].
  refine (proj1 (session_delays_follow_iterator (fun j => Ok j)
           [ok_reply queued_body; ok_reply queued_body;
            ok_reply finished_body] [PInt 2; PInt 4] 1 (PInt 4000) "F2B5" _)).
  rewrite Hrun. reflexivity.
Defined.

End JobSessionExamples.

(** ** The plot thread of [workers.py] *)

Section PlotThread.
Import SpanshPlot SpanshPlotThread.
Context `{PyJson} `{PyConv}.

(** The shape of what the poll loop does, from its [n]-th pass on: it
    sleeps for the delays of the passes it makes, in order, and then either
    hands over a route and returns, or ends in another way. *)
Lemma poll_loop_shape responses : forall n,
  exists ds,
    Forall2 (fun i d => delay i = Ok d) (seq n (List.length ds)) ds /\
    ((exists e, e <> returned /\
                poll_loop responses n = (map sleep ds, e)) \/
     (exists rows,
         poll_loop responses n =
           (map sleep ds ++ [finished_signal rows], returned))).
Proof.
  induction responses as [|r rest IH]; intros n.
  - exists []. split; [constructor|]. left. exists waiting.
    split; [discriminate | reflexivity].
  - destruct r as [|body]; cbn [poll_loop].
    + exists []. split; [constructor|]. left. exists raised_ConnectionError.
      split; [discriminate | reflexivity].
    + destruct (json_loads body) as [job_json|].
      2:{ exists []. split; [constructor|]. left. eexists.
          split; [|reflexivity]. discriminate. }
      destruct (json_getitem job_json "status") as [status|e].
      2:{ exists []. split; [constructor|]. left. eexists.
          split; [|reflexivity]. discriminate. }
      destruct (json_eq_str status "queued").
      * destruct (delay n) as [d|e] eqn:Hd.
        2:{ exists []. split; [constructor|]. left. eexists.
            split; [|reflexivity]. discriminate. }
        destruct (IH (S n)) as [ds [Hds [[e [He Hr]]|[rows Hr]]]];
          rewrite Hr; exists (d :: ds);
          (split; [cbn [List.length seq]; constructor; assumption|]).
        -- left. exists e. split; [assumption | reflexivity].
        -- right. exists rows. reflexivity.
      * destruct (finished_rows job_json) as [rows|e].
        -- exists []. split; [constructor|]. right. exists rows. reflexivity.
        -- exists []. split; [constructor|]. left. eexists.
           split; [|reflexivity]. discriminate.
Qed.

(** X15.  Every run of [plot] has one of four shapes: it fails before it
    has said anything; it shows one message and returns (no connection, or
    an error entry in the reply, and then it makes no further request); it
    shows "Plotting", sleeps and ends without a route; or it shows
    "Plotting", sleeps, hands over one route and returns.  The route is the
    last thing it does, and the sleeps are the delays of the passes, in
    order. *)
Theorem plot_shapes job_request responses :
  (exists x, plot job_request responses = ([], raised x)) \/
  (exists message,
      forall others,
        plot job_request others = ([status_signal message], returned)) \/
  exists ds,
    Forall2 (fun i d => delay i = Ok d) (seq 0 (List.length ds)) ds /\
    ((exists e, e <> returned /\
        plot job_request responses =
          (status_signal "Plotting" :: map sleep ds, e)) \/
     (exists rows,
        plot job_request responses =
          (status_signal "Plotting" :: map sleep ds ++ [finished_signal rows],
           returned))).
Proof.
  unfold plot. destruct job_request as [|body].
  - right. left. eexists. intros others. reflexivity.
  - destruct (json_loads body) as [job_json|]; [|left; eexists; reflexivity].
    destruct (json_getitem job_json "error") as [error|e].
    + right. left.
      destruct (json_eq_str error "Could not find starting system");
        [eexists; intros others; reflexivity|].
      destruct (json_eq_str error "Could not find finishing system");
        eexists; intros others; reflexivity.
    + destruct e; try (left; eexists; reflexivity).
      destruct (json_getitem job_json "job") as [job_id|e];
        [|left; eexists; reflexivity].
      right. right.
      destruct job_id;
        try (exists []; split; [constructor|]; left; exists (raised TypeError);
             split; [discriminate | reflexivity]).
      destruct (poll_loop_shape responses 0%nat)
        as [ds [Hds [[e [He Hr]]|[rows Hr]]]]; rewrite Hr; exists ds;
        (split; [assumption|]).
      * left. exists e. split; [assumption | reflexivity].
      * right. exists rows. reflexivity.
Qed.

Lemma delay_first_1000 n : (n < 1000)%nat -> delay n = Ok (delay_exact n).
Proof.
  intros Hn. pose proof delay_agrees_first_1000 as Hall.
  rewrite forallb_forall in Hall.
  assert (Hin : In n (seq 0 1000)) by (apply in_seq; lia).
  specialize (Hall n Hin). unfold delay_agrees in Hall.
  destruct (delay n) as [d|e]; [|discriminate].
  apply Z.eqb_eq in Hall. now subst.
Qed.

Lemma poll_loop_queued bodies : forall n final later job_json status rows,
  Forall queued bodies ->
  (n + List.length bodies <= 1000)%nat ->
  json_loads final = Some job_json ->
  json_getitem job_json "status" = Ok status ->
  json_eq_str status "queued" = false ->
  finished_rows job_json = Ok rows ->
  poll_loop (map content (bodies ++ final :: later)) n =
    (map (fun i => sleep (delay_exact i)) (seq n (List.length bodies))
       ++ [finished_signal rows],
     returned).
Proof.
  induction bodies as [|b rest IH];
    intros n final later job_json status rows Hq Hn Hl Hs Hnq Hrows.
  - cbn [app map poll_loop List.length seq]. now rewrite Hl, Hs, Hnq, Hrows.
  - inversion Hq as [|? ? [j [Hj Hst]] Hrest]; subst.
    cbn [app map poll_loop List.length seq]. rewrite Hj, Hst.
    cbn [json_eq_str]. rewrite String.eqb_refl.
    cbn [List.length] in Hn.
    rewrite (delay_first_1000 n) by lia.
    rewrite (IH (S n) final later job_json status rows); auto; lia.
Qed.

(** X16.  A job that is reported queued [k] times and then finished: [plot]
    shows "Plotting", sleeps [k] times, for the delays 1, 1, 2, 2, 3, 4, ...
    of the first [k] passes, and hands over the rows of the finished
    response; no response after that one is asked for. *)
Theorem queued_then_finished
    body job_json job_id bodies final later final_json status rows :
  json_loads body = Some job_json ->
  json_getitem job_json "error" = Raise (KeyError (JStr "error")) ->
  json_getitem job_json "job" = Ok (JStr job_id) ->
  Forall queued bodies ->
  (List.length bodies <= 1000)%nat ->
  json_loads final = Some final_json ->
  json_getitem final_json "status" = Ok status ->
  json_eq_str status "queued" = false ->
  finished_rows final_json = Ok rows ->
  plot (content body) (map content (bodies ++ final :: later)) =
    (status_signal "Plotting"
       :: map (fun i => sleep (delay_exact i)) (seq 0 (List.length bodies))
       ++ [finished_signal rows],
     returned).
Proof.
  intros Hb He Hj Hq Hn Hl Hs Hnq Hrows. unfold plot.
  rewrite Hb, He, Hj.
  rewrite (poll_loop_queued bodies 0%nat final later final_json status rows);
    auto.
Qed.

(** X17.  The rows handed over have the four cells of the route table, each
    from its own entry of [system_jumps], in order: the entry's system as it
    came, its jumped distance and then its remaining distance as floats
    rounded to two places, and its jumps as an integer; there is one row for
    each entry. *)
Theorem finished_rows_fit_the_table items rows :
  jump_rows items = Ok rows ->
  List.length rows = List.length items /\
  Forall2 (fun data row =>
             exists sys dj d dl dr j n,
               json_getitem data "system" = Ok sys /\
               json_getitem data "distance_jumped" = Ok dj /\
               RoutePlots.to_float dj = Ok d /\
               json_getitem data "distance_left" = Ok dl /\
               RoutePlots.to_float dl = Ok dr /\
               json_getitem data "jumps" = Ok j /\
               RoutePlots.to_int j = Ok n /\
               row = [sys; JFloat (round2 d); JFloat (round2 dr); JInt n])
          items rows.
Proof.
  revert rows. induction items as [|data rest IH]; intros rows Hr.
  - cbn in Hr. injection Hr as <-. split; [reflexivity | constructor].
  - cbn [jump_rows] in Hr.
    destruct (jump_row data) as [r|e] eqn:Hrow; cbn [result_bind] in Hr;
      [|discriminate].
    destruct (jump_rows rest) as [rs|e]; cbn [result_bind] in Hr;
      [|discriminate].
    injection Hr as <-. destruct (IH rs eq_refl) as [Hlen Hall].
    split; [cbn; now rewrite Hlen|].
    constructor; [|assumption].
    unfold jump_row in Hrow.
    destruct (json_getitem data "system") as [sys|e]; cbn [result_bind] in Hrow;
      [|discriminate].
    destruct (json_getitem data "distance_jumped") as [dj|e];
      cbn [result_bind] in Hrow; [|discriminate].
    destruct (RoutePlots.to_float dj) as [d|e] eqn:Hd;
      cbn [result_bind] in Hrow; [|discriminate].
    destruct (json_getitem data "distance_left") as [dl|e];
      cbn [result_bind] in Hrow; [|discriminate].
    destruct (RoutePlots.to_float dl) as [dr|e] eqn:Hdr;
      cbn [result_bind] in Hrow; [|discriminate].
    destruct (json_getitem data "jumps") as [j|e]; cbn [result_bind] in Hrow;
      [|discriminate].
    destruct (RoutePlots.to_int j) as [n|e] eqn:Hn;
      cbn [result_bind] in Hrow; [|discriminate].
    injection Hrow as <-. exists sys, dj, d, dl, dr, j, n.
    repeat (split; [first [reflexivity | assumption]|]). reflexivity.
Qed.

End PlotThread.

Section PlotThreadExamples.
Import SpanshPlot SpanshPlotThread Examples.
Existing Instance journal_json.
Existing Instance two_places.

(** Scenario C: the job is reported queued twice and then finished. *)
Lemma queued_then_finished_witness :
  plot (content queued_body)
    (map content ([queued_body; queued_body] ++ finished_body :: [queued_body]))
  = ([status_signal "Plotting"; sleep 1; sleep 1; finished_signal []],
     returned).
Proof.
  apply (queued_then_finished queued_body queued_payload "F2B5"
           [queued_body; queued_body] finished_body [queued_body]
           finished_payload (JStr "ok") []); try reflexivity.
  - constructor; [|constructor; [|constructor]];
      exists queued_payload; split; reflexivity.
  - cbn. lia.
Defined.

Lemma finished_rows_fit_the_table_witness :
  jump_rows [jump_entry] = Ok [[JStr "Sol"; JFloat 4.5; JFloat 10; JInt 1]] /\
  List.length [[JStr "Sol"; JFloat 4.5; JFloat 10; JInt 1]] =
    List.length [jump_entry].
Proof.
  assert (Hrows : jump_rows [jump_entry] =
                  Ok [[JStr "Sol"; JFloat 4.5; JFloat 10; JInt 1]])
    by (vm_compute; reflexivity).
  split; [exact Hrows|].
  exact (proj1 (finished_rows_fit_the_table [jump_entry] _ Hrows)).
Defined.

End PlotThreadExamples.

(** ** The csv and last-route pages of the plot dialog *)

Section PlotDialog.
Import PlotStartDialog.
Context `{PyStr} `{PyConv}.

(** The rows read so far are kept in order, and a run that stays valid has
    converted every row. *)
Lemma read_rows_all rows : forall data out,
  read_rows rows data = Ok (Some out) ->
  exists converted,
    out = data ++ converted /\
    Forall2 (fun stuff t => tlist stuff = Ok t) rows converted.
Proof.
  induction rows as [|stuff rest IH]; intros data out Hr.
  - cbn in Hr. injection Hr as <-. exists []. rewrite app_nil_r.
    split; [reflexivity | constructor].
  - cbn [read_rows] in Hr.
    destruct (tlist stuff) as [t|e] eqn:Ht.
    + destruct (IH _ _ Hr) as [converted [-> Hall]].
      exists (t :: converted). rewrite <- app_assoc.
      split; [reflexivity | constructor; assumption].
    + destruct e; discriminate.
Qed.

(** X18.  A csv file is loaded whole or not at all.  When the slot hands
    over a route, the file was not larger than 2 MiB, every one of its rows
    was converted and the route holds them all, in order; the route starts
    at index -1, the dialog closes and no message is shown.  In every other
    run that returns, one message is shown and no route is handed over; the
    button is enabled again, except after a path that does not exist. *)
Theorem csv_route_is_all_or_nothing st_size rows journals current_index :
  (exists size journal data,
      st_size = Some size /\ size <= 2097152 /\
      getitem journals current_index = Ok journal /\
      Forall2 (fun stuff t => tlist stuff = Ok t) rows data /\
      cs_submit_act st_size rows journals current_index =
        ([cs_submit_setEnabled false; data_signal journal data (-1); close],
         Ok tt)) \/
  (exists message,
      cs_submit_act st_size rows journals current_index =
        ([cs_submit_setEnabled false; showMessage message] ++
         match st_size with
         | Some _ => [cs_submit_setEnabled true]
         | None => []
         end,
         Ok tt)) \/
  (exists e,
      cs_submit_act st_size rows journals current_index =
        ([cs_submit_setEnabled false], Raise e)).
Proof.
  unfold cs_submit_act. destruct st_size as [size|].
  - destruct (2097152 <? size) eqn:Hs.
    + right. left. eexists. reflexivity.
    + apply Z.ltb_ge in Hs.
      destruct (read_rows rows []) as [[data|]|e] eqn:Hr.
      * destruct (getitem journals current_index) as [journal|e] eqn:Hj.
        -- left. exists size, journal, data.
           destruct (read_rows_all _ _ _ Hr) as [converted [-> Hall]].
           auto.
        -- right. right. eexists. reflexivity.
      * right. left. eexists. reflexivity.
      * right. right. eexists. reflexivity.
  - right. left. eexists. reflexivity.
Qed.

(** X19.  A route saved by the worker and restored by the dialog resumes
    inside the route.  For a route of two waypoints or more, saved with an
    index not beyond its end, the dialog hands the saved rows over, and the
    worker built from them (on the lines of the journal chosen, with the
    index handed over as its start index) starts on a position of the
    route: on the saved index when that is a position after the first, on 1
    when the route was finished or the saved index was not positive. *)
Theorem saved_route_resumes_inside self journals current_index journal
    lines settings :
  2 <= len (AhkWorker.data_values self) ->
  AhkWorker.list_index self <= len (AhkWorker.data_values self) ->
  getitem journals current_index = Ok journal ->
  exists index,
    last_submit_act (stored (AhkWorker.save_route self)) journals
      current_index =
      ([last_submit_setEnabled false;
        data_signal journal (AhkWorker.data_values self) index; close],
       Ok tt) /\
    let worker :=
      AhkWorker.__init__ lines (AhkWorker.data_values self) settings
        index in
    AhkWorker.data_values worker = AhkWorker.data_values self /\
    0 <= AhkWorker.list_index worker < len (AhkWorker.systems worker) /\
    (1 <= AhkWorker.list_index self < len (AhkWorker.data_values self) ->
     AhkWorker.list_index worker = AhkWorker.list_index self) /\
    (AhkWorker.list_index self = len (AhkWorker.data_values self) \/
     AhkWorker.list_index self <= 0 ->
     AhkWorker.list_index worker = 1).
Proof.
  intros Hlen Hidx Hj.
  unfold last_submit_act, stored, AhkWorker.save_route. cbn [fst snd].
  rewrite Hj. destruct settings as [[[scr key] drk] cpy].
  destruct (AhkWorker.list_index self =? len (AhkWorker.data_values self))
    eqn:E.
  - apply Z.eqb_eq in E. exists 1. split; [reflexivity|].
    cbn. rewrite len_map. repeat split; try lia.
  - apply Z.eqb_neq in E. exists (AhkWorker.list_index self).
    split; [reflexivity|]. cbn. rewrite len_map.
    destruct (0 <? AhkWorker.list_index self) eqn:Hp.
    + apply Z.ltb_lt in Hp. repeat split; try lia.
    + apply Z.ltb_ge in Hp.
      destruct (len (AhkWorker.data_values self) =? 1) eqn:H1;
        [apply Z.eqb_eq in H1; lia|].
      cbn. repeat split; try lia.
Qed.

End PlotDialog.

Section PlotDialogExamples.
Import PlotStartDialog Examples.
Existing Instance ascii_str.
Existing Instance two_places.

(** The worker on the example route is saved at index 2 and restored. *)
Lemma saved_route_resumes_inside_witness :
  exists index,
    last_submit_act
      (stored (AhkWorker.save_route (AhkWorker.with_list_index at_start 2)))
      ["Journal.01.log"] 0 =
      ([last_submit_setEnabled false;
        data_signal "Journal.01.log" route index; close], Ok tt) /\
    AhkWorker.list_index (AhkWorker.__init__ [] route settings index) = 2.
Proof.
  destruct (saved_route_resumes_inside
              (AhkWorker.with_list_index at_start 2) ["Journal.01.log"] 0
              "Journal.01.log" [] settings)
    as [index [Hrun [_ [_ [Hsame _]]]]].
  - unfold len. cbn. lia.
  - unfold len. cbn. lia.
  - reflexivity.
  - exists index. split; [exact Hrun|].
    apply Hsame. unfold len. cbn. lia.
Defined.

End PlotDialogExamples.

(** ** The AHK plotter *)

Section Plotter.
Import AhkPlotter.

Lemma differ_false x y : differ x y = false -> x = y.
Proof.
  destruct x as [a|], y as [b|]; cbn; try discriminate; [|reflexivity].
  intros Hd. apply negb_false_iff, String.eqb_eq in Hd. now subst.
Qed.

Lemma differ_same x : differ x x = false.
Proof. destruct x as [a|]; cbn; [now rewrite String.eqb_refl | reflexivity]. Qed.

Lemma held_app h out1 out2 h1 :
  held h out1 = Some h1 -> held h (out1 ++ out2) = held h1 out2.
Proof.
  revert h. induction out1 as [|e rest IH]; intros h Hh.
  - cbn in Hh. injection Hh as ->. reflexivity.
  - destruct e; cbn [app held] in *; destruct h; try discriminate;
      now apply IH.
Qed.

(** [stop] on a plotter that is wired. *)
Lemma stop_wired self :
  wired self ->
  exists self',
    stop self = (self', if process self then [terminate] else [], done) /\
    process self' = false /\
    _used_ahk_path self' = _used_ahk_path self /\
    _used_script self' = _used_script self /\
    _used_hotkey self' = _used_hotkey self.
Proof.
  intros Hw. unfold stop. destruct (process self) eqn:Hp.
  - destruct (Hw Hp) as [f [Hf _]]. rewrite Hf. eexists.
    split; [reflexivity|]. cbn. auto.
  - exists self. auto.
Qed.

(** The state and the outcome a call has computed. *)
Ltac pick_state :=
  match goal with
  | |- exists s r, (?a, _, ?b) = _ /\ _ => exists a, b
  end.

(** [_start_ahk] on a plotter that is wired. *)
Lemma start_wired env self :
  wired self ->
  exists self' r,
    _start_ahk env self =
      (self',
       (if process self then [terminate] else []) ++
       (if process self' then
          match ahk env with
          | Some path => [spawn path (bind env) (script env)]
          | None => []
          end
        else []), r) /\
    ahk_infile self' = Some {| closed := false; text := EmptyString |} /\
    (r = done \/ r = RuntimeError "AHK failed to start.") /\
    (r = done -> process self' = true -> uses self' env) /\
    (r = done -> forall path,
        ahk env = Some path -> ahk_exists env = true ->
        process self' = true) /\
    (process self' = true -> exists path, ahk env = Some path).
Proof.
  intros Hw. unfold _start_ahk.
  destruct (stop_wired self Hw) as [s1 [-> [Hp1 _]]].
  destruct (ahk env) as [path|] eqn:Ha.
  - destruct (ahk_exists env) eqn:He; cbn [negb].
    + destruct (survives env); pick_state.
      * split; [reflexivity|]. cbn.
        repeat split; auto. eauto.
      * split; [reflexivity|]. cbn.
        repeat split; auto; try discriminate. eauto.
    + pick_state. cbn [process with_ahk_infile]. rewrite Hp1.
      rewrite app_nil_r. split; [reflexivity|]. cbn.
      repeat split; auto; try congruence.
  - pick_state. cbn [process with_ahk_infile]. rewrite Hp1.
    rewrite app_nil_r. split; [reflexivity|]. cbn.
    repeat split; auto; try congruence.
Qed.

(** [update_system] on a plotter that is wired. *)
Lemma update_system_wired system env self :
  wired self ->
  exists self' out r,
    update_system system env self = (self', out, r) /\
    wired self' /\
    held (process self) out = Some (process self') /\
    (r = done \/ r = RuntimeError "AHK failed to start.") /\
    (r = done ->
     _last_system self' = Some system /\
     ahk_infile self' =
       Some {| closed := false; text := (system ++ newline)%string |} /\
     (process self' = true -> uses self' env) /\
     (forall path, ahk env = Some path -> ahk_exists env = true ->
                   process self' = true)).
Proof.
  intros Hw. unfold update_system.
  destruct (differ (ahk env) (_used_ahk_path self)
            || differ (Some (script env)) (_used_script self)
            || differ (Some (bind env)) (_used_hotkey self)) eqn:Hd.
  - destruct (stop_wired self Hw) as [s1 [-> [Hp1 _]]].
    rewrite Hp1. cbn [negb orb].
    assert (Hw1 : wired s1) by (intros Hp; congruence).
    destruct (start_wired env s1 Hw1)
      as [s2 [r [-> [Hf [Hr [Huses [Hheld Hpath]]]]]]].
    rewrite Hp1. cbn [app].
    destruct Hr as [-> | ->].
    + cbn [ahk_infile with_last_system]. rewrite Hf. cbn [closed].
      do 3 eexists. split; [reflexivity|].
      split; [intros _; eexists; split; reflexivity|].
      split.
      { cbn [process with_ahk_infile with_last_system].
        destruct (process self), (process s2) eqn:Hp2; cbn;
          try reflexivity;
          destruct (Hpath eq_refl) as [path ->]; reflexivity. }
      split; [auto|]. intros _. cbn.
      split; [reflexivity|]. split; [reflexivity|].
      split; [exact (Huses eq_refl) | exact (Hheld eq_refl)].
    + do 3 eexists. split; [reflexivity|].
      split; [intros _; rewrite Hf; eexists; split; reflexivity|].
      split.
      { destruct (process self), (process s2) eqn:Hp2; cbn;
          try reflexivity;
          destruct (Hpath eq_refl) as [path ->]; reflexivity. }
      split; [auto|]. discriminate.
  - apply orb_false_iff in Hd. destruct Hd as [Hd Hb].
    apply orb_false_iff in Hd. destruct Hd as [Ha Hs].
    apply differ_false in Ha, Hs, Hb.
    destruct (process self) eqn:Hp; cbn [negb orb].
    + destruct (running env); cbn [negb].
      * destruct (Hw Hp) as [f [Hf Hc]].
        cbn [ahk_infile with_last_system]. rewrite Hf, Hc.
        do 3 eexists. split; [reflexivity|].
        split; [intros _; eexists; split; reflexivity|].
        split; [cbn; now rewrite Hp|].
        split; [auto|]. intros _. cbn.
        split; [reflexivity|]. split; [reflexivity|].
        split; [intros _; unfold uses; auto | intros; assumption].
      * destruct (start_wired env self Hw)
          as [s2 [r [-> [Hf [Hr [Huses [Hheld Hpath]]]]]]].
        rewrite Hp. cbn [app].
        destruct Hr as [-> | ->].
        -- cbn [ahk_infile with_last_system]. rewrite Hf. cbn [closed].
           do 3 eexists. split; [reflexivity|].
           split; [intros _; eexists; split; reflexivity|].
           split.
           { cbn [process with_ahk_infile with_last_system].
             destruct (process s2) eqn:Hp2; cbn; try reflexivity.
             destruct (Hpath eq_refl) as [path ->]. reflexivity. }
           split; [auto|]. intros _. cbn.
           split; [reflexivity|]. split; [reflexivity|].
           split; [exact (Huses eq_refl) | exact (Hheld eq_refl)].
        -- do 3 eexists. split; [reflexivity|].
           split; [intros _; rewrite Hf; eexists; split; reflexivity|].
           split.
           { destruct (process s2) eqn:Hp2; cbn; try reflexivity.
             destruct (Hpath eq_refl) as [path ->]. reflexivity. }
           split; [auto|]. discriminate.
    + destruct (start_wired env self Hw)
        as [s2 [r [-> [Hf [Hr [Huses [Hheld Hpath]]]]]]].
      rewrite Hp. cbn [app].
      destruct Hr as [-> | ->].
      * cbn [ahk_infile with_last_system]. rewrite Hf. cbn [closed].
        do 3 eexists. split; [reflexivity|].
        split; [intros _; eexists; split; reflexivity|].
        split.
        { cbn [process with_ahk_infile with_last_system].
          destruct (process s2) eqn:Hp2; cbn; try reflexivity.
          destruct (Hpath eq_refl) as [path ->]. reflexivity. }
        split; [auto|]. intros _. cbn.
        split; [reflexivity|]. split; [reflexivity|].
        split; [exact (Huses eq_refl) | exact (Hheld eq_refl)].
      * do 3 eexists. split; [reflexivity|].
        split; [intros _; rewrite Hf; eexists; split; reflexivity|].
        split.
        { destruct (process s2) eqn:Hp2; cbn; try reflexivity.
          destruct (Hpath eq_refl) as [path ->]. reflexivity. }
        split; [auto|]. discriminate.
Qed.

Lemma call_run_wired c self :
  wired self ->
  exists self' out r,
    call_run c self = (self', out, r) /\
    wired self' /\
    held (process self) out = Some (process self').
Proof.
  intros Hw. destruct c as [system env|]; cbn [call_run].
  - destruct (update_system_wired system env self Hw)
      as [s' [out [r [-> [Hw' [Hh _]]]]]]. eauto 6.
  - destruct (stop_wired self Hw) as [s' [-> [Hp _]]].
    do 3 eexists. split; [reflexivity|].
    split; [intros Hp'; congruence|].
    rewrite Hp. destruct (process self); reflexivity.
Qed.

Lemma calls_wired cs : forall self,
  wired self ->
  held (process self) (snd (calls cs self)) =
    Some (process (fst (calls cs self))) /\
  wired (fst (calls cs self)).
Proof.
  induction cs as [|c rest IH]; intros self Hw.
  - cbn. auto.
  - cbn [calls].
    destruct (call_run_wired c self Hw) as [s1 [o1 [r [-> [Hw1 Hh1]]]]].
    destruct (IH s1 Hw1) as [Hh2 Hw2].
    destruct (calls rest s1) as [s2 o2]. cbn [fst snd] in *.
    split; [|exact Hw2].
    now rewrite (held_app _ _ _ _ Hh1).
Qed.

(** X20.  A call of [update_system] on a wired plotter returns or raises
    the [RuntimeError] of a process that did not start, nothing else; it
    leaves the plotter wired; it spawns a process only when none is held.
    When it returns, the system is the last system and the only line of
    the input file, a process that is held was started with the settings
    of the call, and one is held whenever the AHK path exists. *)
Theorem update_system_lands system env self :
  wired self ->
  exists self' out r,
    update_system system env self = (self', out, r) /\
    wired self' /\
    held (process self) out = Some (process self') /\
    (r = done \/ r = RuntimeError "AHK failed to start.") /\
    (r = done ->
     _last_system self' = Some system /\
     ahk_infile self' =
       Some {| closed := false; text := (system ++ newline)%string |} /\
     (process self' = true -> uses self' env) /\
     (forall path, ahk env = Some path -> ahk_exists env = true ->
                   process self' = true)).
Proof. exact (update_system_wired system env self). Qed.

(** X21.  Over any calls of [update_system] and [stop] on a new plotter,
    whatever the settings and the processes do and whether the calls return
    or raise, a process is spawned only while none is held and terminated
    only while one is: the plotter never holds two processes, and the
    process it holds at the end is the last one spawned. *)
Theorem never_two_processes cs :
  held false (snd (calls cs fresh)) = Some (process (fst (calls cs fresh))).
Proof.
  assert (Hw : wired fresh) by (intros Hp; discriminate).
  exact (proj1 (calls_wired cs fresh Hw)).
Qed.

(** X22.  A plotter restarts its process exactly when it has to.  While
    the process held is running and the settings are those it was started
    with, [update_system] touches no process and only writes the system.
    When a setting has changed and the AHK path exists, it terminates the
    process and then spawns one with the new settings. *)
Theorem restart_exactly_when_needed system env self path :
  wired self ->
  process self = true ->
  running env = true ->
  ahk env = Some path ->
  ahk_exists env = true ->
  (uses self env ->
   snd (fst (update_system system env self)) = []) /\
  (~ uses self env ->
   snd (fst (update_system system env self)) =
     [terminate; spawn path (bind env) (script env)]).
Proof.
  intros Hw Hp Hrun Ha He.
  destruct (Hw Hp) as [f [Hf Hc]].
  unfold update_system. split.
  - intros [Hua [Hus Huh]]. rewrite Hua, Hus, Huh, !differ_same.
    cbn [orb]. rewrite Hp, Hrun. cbn [negb orb ahk_infile with_last_system].
    rewrite Hf, Hc. reflexivity.
  - intros Hno.
    destruct (differ (ahk env) (_used_ahk_path self)
              || differ (Some (script env)) (_used_script self)
              || differ (Some (bind env)) (_used_hotkey self)) eqn:Hd.
    + unfold stop. rewrite Hp, Hf. cbn [process with_process negb orb].
      unfold _start_ahk, stop. cbn [process with_process with_ahk_infile].
      rewrite Ha, He. cbn [negb].
      destruct (survives env); reflexivity.
    + exfalso. apply Hno.
      apply orb_false_iff in Hd. destruct Hd as [Hd Hb].
      apply orb_false_iff in Hd. destruct Hd as [Hx Hs].
      apply differ_false in Hx, Hs, Hb. unfold uses. auto.
Qed.

End Plotter.

Section PlotterExamples.
Import AhkPlotter Examples.

Lemma fresh_wired : wired fresh.
Proof. intros Hp. discriminate. Qed.

(** The first system of a route on a new plotter. *)
Lemma update_system_lands_witness :
  exists self' out r,
    update_system "Sol" ahk_env fresh = (self', out, r) /\
    wired self' /\
    held (process fresh) out = Some (process self') /\
    (r = done \/ r = RuntimeError "AHK failed to start.") /\
    (r = done ->
     _last_system self' = Some "Sol" /\
     ahk_infile self' =
       Some {| closed := false; text := ("Sol" ++ newline)%string |} /\
     (process self' = true -> uses self' ahk_env) /\
     (forall path, ahk ahk_env = Some path -> ahk_exists ahk_env = true ->
                   process self' = true)).
Proof. exact (update_system_lands "Sol" ahk_env fresh fresh_wired). Defined.

Lemma plotting_wired : wired plotting.
Proof. intros _. eexists. split; reflexivity. Qed.

(** The next system with the settings unchanged, and with another hotkey. *)
Lemma restart_exactly_when_needed_witness :
  snd (fst (update_system "Sirius" ahk_env plotting)) = [] /\
  snd (fst (update_system "Sirius" rebound_env plotting)) =
    [terminate; spawn "C:/AutoHotkey/AutoHotkey.exe" "F6" "|SYSTEMDATA|"].
Proof.
  split.
  - apply (proj1 (restart_exactly_when_needed "Sirius" ahk_env plotting
                    "C:/AutoHotkey/AutoHotkey.exe" plotting_wired
                    eq_refl eq_refl eq_refl eq_refl)).
    repeat split.
  - apply (proj2 (restart_exactly_when_needed "Sirius" rebound_env plotting
                    "C:/AutoHotkey/AutoHotkey.exe" plotting_wired
                    eq_refl eq_refl eq_refl eq_refl)).
    intros [_ [_ Hb]]. discriminate.
Defined.

End PlotterExamples.

(** ** The static state of a journal *)

Section JournalState.
Import Journal.
Context `{PyJson}.
Context {location : Type} (Location : json -> json -> result location).

Lemma shutdown_line_scan line rest loadout loc cargo :
  AhkWorker.is_shutdown line = true ->
  scan Location (line :: rest) loadout loc cargo =
    Ok (loadout, loc, cargo, true).
Proof.
  unfold AhkWorker.is_shutdown. intros Hs. cbn [scan].
  destruct (json_loads line) as [entry|]; [|discriminate].
  destruct (json_getitem entry "event") as [event|e]; [|discriminate].
  destruct event; try discriminate. cbn in Hs.
  apply String.eqb_eq in Hs. subst s. reflexivity.
Qed.

(** A line that is read past is not a [Shutdown] record. *)
Lemma scan_cons line rest loadout loc cargo st :
  scan Location (line :: rest) loadout loc cargo = Ok st ->
  snd st = false ->
  AhkWorker.is_shutdown line = false /\
  exists loadout' loc' cargo',
    (forall others,
        scan Location (line :: others) loadout loc cargo =
        scan Location others loadout' loc' cargo').
Proof.
  unfold AhkWorker.is_shutdown. cbn [scan].
  destruct (json_loads line) as [entry|]; [|discriminate].
  destruct (json_getitem entry "event") as [event|e]; cbn [result_bind];
    [|discriminate].
  destruct (json_eq_str event "Loadout") eqn:Hl.
  { intros _ _. split; [|eauto].
    destruct event; try reflexivity. cbn in *.
    apply String.eqb_eq in Hl. now subst. }
  destruct (json_eq_str event "Location") eqn:Hloc.
  { destruct (json_getitem entry "StarSystem") as [name|e];
      cbn [result_bind]; [|discriminate].
    destruct (json_getitem entry "StarPos") as [pos|e];
      cbn [result_bind]; [|discriminate].
    destruct (Location name pos) as [l|e]; cbn [result_bind]; [|discriminate].
    intros _ _. split; [|eauto].
    destruct event; try reflexivity. cbn in *.
    apply String.eqb_eq in Hloc. now subst. }
  destruct (is_ship_cargo entry event) as [[|]|e] eqn:Hc; cbn [result_bind];
    [| |discriminate].
  { destruct (json_getitem entry "Count") as [count|e]; cbn [result_bind];
      [|discriminate].
    intros _ _. split; [|eauto].
    unfold is_ship_cargo in Hc.
    destruct (json_eq_str event "Cargo") eqn:Hcargo; [|discriminate].
    destruct event; try reflexivity. cbn in *.
    apply String.eqb_eq in Hcargo. now subst. }
  destruct (json_eq_str event "Shutdown").
  { intros Hr Hf. injection Hr as <-. discriminate. }
  intros _ _. split; [reflexivity | eauto].
Qed.

Lemma scan_app pre : forall rest loadout loc cargo loadout' loc' cargo',
  scan Location pre loadout loc cargo = Ok (loadout', loc', cargo', false) ->
  existsb AhkWorker.is_shutdown pre = false /\
  scan Location (pre ++ rest) loadout loc cargo =
    scan Location rest loadout' loc' cargo'.
Proof.
  induction pre as [|line pre IH];
    intros rest loadout loc cargo loadout' loc' cargo' Hr.
  - cbn in Hr. injection Hr as <- <- <-. auto.
  - destruct (scan_cons _ _ _ _ _ _ Hr eq_refl)
      as [Hno [l1 [loc1 [c1 Hstep]]]].
    rewrite Hstep in Hr. destruct (IH rest _ _ _ _ _ _ Hr) as [Hex Happ].
    cbn [existsb app]. rewrite Hno, Hex, Hstep. auto.
Qed.

(** X23.  [get_static_state] stops at the first [Shutdown] record.  When
    the lines before it are read without an exception, the state returned
    is the one those lines give, with the shutdown flag set, and nothing
    after the record is read, not even a line that is not JSON.  A state
    returned without the flag comes from a journal with no [Shutdown]
    record. *)
Theorem static_state_stops_at_shutdown pre line post loadout loc cargo :
  get_static_state Location pre = Ok (loadout, loc, cargo, false) ->
  AhkWorker.is_shutdown line = true ->
  existsb AhkWorker.is_shutdown pre = false /\
  get_static_state Location (pre ++ line :: post) =
    Ok (loadout, loc, cargo, true).
Proof.
  unfold get_static_state. intros Hpre Hs.
  destruct (scan_app pre (line :: post) _ _ _ _ _ _ Hpre) as [Hno ->].
  split; [exact Hno|]. now apply shutdown_line_scan.
Qed.

End JournalState.

Section JournalStateExamples.
Import Journal Examples.
Existing Instance journal_json.

(** A journal with a jump, a boarding, the closing of the game and a
    truncated last line. *)
Lemma static_state_stops_at_shutdown_witness :
  get_static_state (fun name pos => Ok (name, pos))
    ([jump_line "sol"; loadout_line] ++ shutdown_line :: ["{ "])
  = Ok (Some loadout_event, None, JNull, true).
Proof.
  refine (proj2 (static_state_stops_at_shutdown
                   (fun name pos => Ok (name, pos))
                   [jump_line "sol"; loadout_line] shutdown_line ["{ "]
                   (Some loadout_event) None JNull _ _)).
  - vm_compute. reflexivity.
  - vm_compute. reflexivity.
Defined.

End JournalStateExamples.

(** ** Rows read from csv *)

Section RowsReadBack.
Import RoutePlots.
Context `{PyConv}.

Lemma getitem_ok_range {A} (l : list A) i a :
  getitem l i = Ok a -> - len l <= i < len l.
Proof.
  intros Hg.
  destruct (Z_lt_dec i (- len l)) as [Hlow|Hlow];
    [rewrite getitem_out_of_range in Hg by auto; discriminate|].
  destruct (Z_le_dec (len l) i) as [Hhigh|Hhigh];
    [rewrite getitem_out_of_range in Hg by auto; discriminate|].
  lia.
Qed.

(** X25.  A neutron row that was read from a csv row is read back as it
    is from the csv row written for it, given that rounding to two places
    leaves a value already rounded as it is; and only a csv row of five
    cells or more can be read. *)
Theorem neutron_row_read_back row r :
  (forall x, round2 (round2 x) = round2 x) ->
  NeutronPlotRow.from_csv_row row = Ok r ->
  (5 <= List.length row)%nat /\
  NeutronPlotRow.from_csv_row (NeutronPlotRow.to_csv r) = Ok r.
Proof.
  intros Hround Hread. unfold NeutronPlotRow.from_csv_row in Hread.
  destruct (getitem row 0) as [r0|e]; cbn [result_bind] in Hread;
    [|discriminate].
  destruct (to_system r0) as [sys|e]; cbn [result_bind] in Hread;
    [|discriminate].
  destruct (getitem row 1) as [r1|e]; cbn [result_bind] in Hread;
    [|discriminate].
  destruct (to_float r1) as [d|e]; cbn [result_bind] in Hread;
    [|discriminate].
  destruct (getitem row 2) as [r2|e]; cbn [result_bind] in Hread;
    [|discriminate].
  destruct (to_float r2) as [dr|e]; cbn [result_bind] in Hread;
    [|discriminate].
  destruct (getitem row 4) as [r4|e] eqn:H4; cbn [result_bind] in Hread;
    [|discriminate].
  destruct (to_int r4) as [j|e]; cbn [result_bind] in Hread;
    [|discriminate].
  injection Hread as <-. split.
  - apply getitem_ok_range in H4. unfold len in H4. lia.
  - rewrite neutron_round_trip. cbn. now rewrite !Hround.
Qed.

End RowsReadBack.

Section RowsReadBackExamples.
Import RoutePlots Examples.
Existing Instance two_places.

Lemma neutron_row_read_back_witness :
  NeutronPlotRow.from_csv_row
    [JStr "Sol"; JFloat 4.5; JInt 10; JStr EmptyString; JInt 1] =
    Ok {| NeutronPlotRow.system := "Sol";
          NeutronPlotRow.dist_to_arrival := 4.5;
          NeutronPlotRow.dist_rem := 10;
          NeutronPlotRow.jumps := 1 |} /\
  NeutronPlotRow.from_csv_row
    (NeutronPlotRow.to_csv
       {| NeutronPlotRow.system := "Sol";
          NeutronPlotRow.dist_to_arrival := 4.5;
          NeutronPlotRow.dist_rem := 10;
          NeutronPlotRow.jumps := 1 |}) =
    Ok {| NeutronPlotRow.system := "Sol";
          NeutronPlotRow.dist_to_arrival := 4.5;
          NeutronPlotRow.dist_rem := 10;
          NeutronPlotRow.jumps := 1 |}.
Proof.
  assert (Hread : NeutronPlotRow.from_csv_row
            [JStr "Sol"; JFloat 4.5; JInt 10; JStr EmptyString; JInt 1] =
            Ok {| NeutronPlotRow.system := "Sol";
                  NeutronPlotRow.dist_to_arrival := 4.5;
                  NeutronPlotRow.dist_rem := 10;
                  NeutronPlotRow.jumps := 1 |})
    by (vm_compute; reflexivity).
  split; [exact Hread|].
  exact (proj2 (neutron_row_read_back _ _ (fun x => eq_refl) Hread)).
Defined.

End RowsReadBackExamples.
